(** * odata-active-record: query translators, providers and connection pool

    A shallow embedding of
      - [SQLiteProvider]     (providers/sqlite-provider.ts),
      - [MongoDBProvider]    (providers/mongodb-provider.ts),
      - [HTTPODataProvider]  (providers/http-odata-provider.ts),
      - [ConnectionPool]     (providers/connection-pool.ts),
    together with the JavaScript built-ins these classes rely on.

    Conventions.
      - A JavaScript string is a Rocq [string] read as its UTF-8 bytes.
      - A JavaScript number is a [Z]: only integral numbers are modelled.
      - An optional property is an [option]; [None] is JavaScript's
        [undefined].
      - Code that can throw returns an [Exc.t]; a method body is a
        computation in [Eff.M], where [try]/[catch] is [Eff.try_catch].
      - The drivers (better-sqlite3, mongodb, fetch), the clock and the timer
        API are outside the repository: they appear as section variables or
        as fields of an explicit environment. *)

From Stdlib Require Import ZArith List String Ascii Bool Lia DecimalString.
Import ListNotations.

Set Warnings "-register-all".

Open Scope string_scope.
Open Scope Z_scope.

(* ================================================================== *)
(** ** JavaScript values and built-ins *)
(* ================================================================== *)

Module Js.

(** The values that flow through a filter: [value: unknown]. A [Date] is
    kept as the two strings the code can observe: [toISOString()] and
    [toString()]. *)
Inductive Value : Type :=
| Undefined
| Null
| Bool (b : bool)
| Num (n : Z)
| Str (s : string)
| Date (iso display : string)
| Arr (items : list Value)
| Obj (props : list (string * Value)).

(** [Number.prototype.toString()] on an integer below [10^21] in absolute
    value: its decimal digits. From [10^21] on JS writes an exponent form,
    which this function does not. *)
Definition number_toString (n : Z) : string :=
  NilZero.string_of_int (Z.to_int n).

(** [Array.prototype.join(sep)] on an array of strings. *)
Definition join (sep : string) (l : list string) : string :=
  String.concat sep l.

(** ToString, as applied by a template literal [`${v}`]. Inside
    [Array.prototype.toString] the elements [null] and [undefined] print
    as the empty string. *)
Fixpoint toString (v : Value) : string :=
  match v with
  | Undefined => "undefined"
  | Null => "null"
  | Bool true => "true"
  | Bool false => "false"
  | Num n => number_toString n
  | Str s => s
  | Date _ display => display
  | Arr items =>
      join "," (map (fun x => match x with
                              | Undefined | Null => ""
                              | _ => toString x
                              end) items)
  | Obj _ => "[object Object]"
  end.

(** [`${x}`] for an optional string property. *)
Definition template (x : option string) : string :=
  match x with
  | Some s => s
  | None => "undefined"
  end.

(** ToBoolean. *)
Definition truthy (v : Value) : bool :=
  match v with
  | Undefined | Null => false
  | Bool b => b
  | Num n => negb (n =? 0)
  | Str s => negb (String.eqb s "")
  | Date _ _ | Arr _ | Obj _ => true
  end.

(** [x || d] for an optional number. *)
Definition num_or (x : option Z) (d : Z) : Z :=
  match x with
  | Some n => if n =? 0 then d else n
  | None => d
  end.

(** Truthiness of an optional number, for [if (x)]. *)
Definition num_truthy (x : option Z) : bool :=
  match x with
  | Some n => negb (n =? 0)
  | None => false
  end.

(** [s.replace(/'/g, "''")]. *)
Fixpoint double_quotes (s : string) : string :=
  match s with
  | EmptyString => EmptyString
  | String c r =>
      if Ascii.eqb c "'"%char
      then String "'" (String "'" (double_quotes r))
      else String c (double_quotes r)
  end.

Definition hex_digit (upper : bool) (n : nat) : ascii :=
  match n with
  | 0%nat => "0" | 1%nat => "1" | 2%nat => "2" | 3%nat => "3"
  | 4%nat => "4" | 5%nat => "5" | 6%nat => "6" | 7%nat => "7"
  | 8%nat => "8" | 9%nat => "9"
  | 10%nat => if upper then "A" else "a"
  | 11%nat => if upper then "B" else "b"
  | 12%nat => if upper then "C" else "c"
  | 13%nat => if upper then "D" else "d"
  | 14%nat => if upper then "E" else "e"
  | _ => if upper then "F" else "f"
  end%char.

Definition between (lo hi : nat) (n : nat) : bool :=
  (Nat.leb lo n && Nat.leb n hi)%bool.

(** The characters [encodeURIComponent] leaves alone:
    [A-Z a-z 0-9 - _ . ! ~ * ' ( )]. *)
Definition uri_unreserved (c : ascii) : bool :=
  let n := nat_of_ascii c in
  (between 65 90 n || between 97 122 n || between 48 57 n
   || existsb (Ascii.eqb c)
        ["-"; "_"; "."; "!"; "~"; "*"; "'"; "("; ")"]%char)%bool.

Definition percent_byte (c : ascii) : string :=
  let n := nat_of_ascii c in
  String "%" (String (hex_digit true (n / 16))
                (String (hex_digit true (n mod 16)) EmptyString)).


(** [encodeURIComponent] on a string that holds no lone surrogate: every
    byte of the UTF-8 form that is not unreserved becomes [%XX]. On a lone
    surrogate the function throws a [URIError]; the statements on the
    encoding of arbitrary text exclude it with [lone_surrogate]. *)
Fixpoint encodeURIComponent (s : string) : string :=
  match s with
  | EmptyString => EmptyString
  | String c r =>
      if uri_unreserved c
      then String c (encodeURIComponent r)
      else percent_byte c ++ encodeURIComponent r
  end.

(** The double-quote character (code 34). *)
Definition dquote : ascii := ascii_of_nat 34.

(** QuoteJSONString, on the bytes of the string. *)
Definition json_escape_char (c : ascii) : string :=
  let n := nat_of_ascii c in
  if Nat.eqb n 34 then String "\" (String dquote EmptyString)
  else if Nat.eqb n 92 then "\\"
  else if Nat.eqb n 8 then "\b"
  else if Nat.eqb n 9 then "\t"
  else if Nat.eqb n 10 then "\n"
  else if Nat.eqb n 12 then "\f"
  else if Nat.eqb n 13 then "\r"
  else if Nat.ltb n 32 then
    "\u00" ++ String (hex_digit false (n / 16))
                (String (hex_digit false (n mod 16)) EmptyString)
  else String c EmptyString.

Fixpoint json_escape (s : string) : string :=
  match s with
  | EmptyString => EmptyString
  | String c r => json_escape_char c ++ json_escape r
  end.

Definition json_quote (s : string) : string :=
  String dquote (json_escape s ++ String dquote EmptyString).

(** The text [JSON.stringify] produces for a value in a position where
    one is required: an array prints [undefined] as [null]; an object drops
    a property whose value is [undefined]. *)
Fixpoint json_text (v : Value) : string :=
  match v with
  | Undefined | Null => "null"
  | Bool true => "true"
  | Bool false => "false"
  | Num n => number_toString n
  | Str s => json_quote s
  | Date iso _ => json_quote iso
  | Arr items => "[" ++ join "," (map json_text items) ++ "]"
  | Obj props =>
      "{" ++ join ","
               (flat_map (fun kv =>
                            match snd kv with
                            | Undefined => []
                            | _ => [json_quote (fst kv) ++ ":"
                                    ++ json_text (snd kv)]
                            end) props)
          ++ "}"
  end.

(** [JSON.stringify(v)]; [None] is the result [undefined]. *)
Definition json_stringify (v : Value) : option string :=
  match v with
  | Undefined => None
  | _ => Some (json_text v)
  end.

(** [s.includes(t)]. *)
Definition includesb (s t : string) : bool :=
  match String.index 0 t s with
  | Some _ => true
  | None => false
  end.

(** ASCII [String.prototype.toUpperCase]. *)
Definition upper_char (c : ascii) : ascii :=
  let n := nat_of_ascii c in
  if between 97 122 n then ascii_of_nat (n - 32) else c.

Fixpoint toUpperCase (s : string) : string :=
  match s with
  | EmptyString => EmptyString
  | String c r => String (upper_char c) (toUpperCase r)
  end.

(** GetSubstitution for a string pattern: in the replacement text [$$] is a
    dollar sign, [$&] the matched text, [$`] the text before the match and
    [$'] the text after it. *)
Fixpoint substitution (matched before after repl : string) : string :=
  match repl with
  | EmptyString => EmptyString
  | String c r =>
      if Ascii.eqb c "$"%char then
        match r with
        | String d r' =>
            if Ascii.eqb d "$"%char
            then String "$" (substitution matched before after r')
            else if Ascii.eqb d "&"%char
            then matched ++ substitution matched before after r'
            else if Ascii.eqb d "`"%char
            then before ++ substitution matched before after r'
            else if Ascii.eqb d "'"%char
            then after ++ substitution matched before after r'
            else String c (substitution matched before after r)
        | EmptyString => String c EmptyString
        end
      else String c (substitution matched before after r)
  end.

(** [s.replace(pat, repl)] with a string pattern: the first occurrence
    only. *)
Definition replace (s pat repl : string) : string :=
  match String.index 0 pat s with
  | Some i =>
      let before := String.substring 0 i s in
      let after :=
        String.substring (i + String.length pat)
          (String.length s - (i + String.length pat)) s in
      before ++ substitution pat before after repl ++ after
  | None => s
  end.

(** [o[k]] on an object value; a missing property reads as [undefined]. *)
Fixpoint lookup (k : string) (props : list (string * Value)) : Value :=
  match props with
  | [] => Undefined
  | (k', v) :: r => if String.eqb k k' then v else lookup k r
  end.

(** [v?.k]: [undefined] when [v] is [null] or [undefined]; a primitive has
    none of the properties the code reads. *)
Definition opt_prop (v : Value) (k : string) : Value :=
  match v with
  | Obj props => lookup k props
  | _ => Undefined
  end.

(** [x || d]. *)
Definition or_else (x d : Value) : Value :=
  if truthy x then x else d.

(** [{ ...o, k: v }] for a key [k] that is no array index: an own property
    keeps its place, a new one goes last. *)
Fixpoint set_prop (k : string) (v : Value) (props : list (string * Value))
    : list (string * Value) :=
  match props with
  | [] => [(k, v)]
  | (k', v') :: r =>
      if String.eqb k k' then (k, v) :: r else (k', v') :: set_prop k v r
  end.

(** An array index: the canonical decimal form of an integer from 0 to
    2^32 - 2. An object lists its array-index keys first, in ascending
    order, and its other keys after them in the order of their creation. *)
Definition is_digit (c : ascii) : bool := between 48 57 (nat_of_ascii c).

Fixpoint digits_value (s : string) (acc : Z) : Z :=
  match s with
  | EmptyString => acc
  | String c r => digits_value r (acc * 10 + Z.of_nat (nat_of_ascii c - 48))
  end.

Definition array_index (k : string) : option Z :=
  match k with
  | EmptyString => None
  | String c r =>
      if (forallb is_digit (list_ascii_of_string k)
          && (negb (Ascii.eqb c "0") || String.eqb r ""))%bool
      then if digits_value k 0 <? 4294967295 then Some (digits_value k 0)
           else None
      else None
  end.

Definition has_key (k : string) (props : list (string * Value)) : bool :=
  existsb (fun kv => String.eqb k (fst kv)) props.

(** A new array-index key goes before the first key that is no array
    index or a greater one. *)
Fixpoint insert_index (i : Z) (k : string) (v : Value)
    (props : list (string * Value)) : list (string * Value) :=
  match props with
  | [] => [(k, v)]
  | (k', v') :: r =>
      match array_index k' with
      | Some j =>
          if j <? i then (k', v') :: insert_index i k v r
          else (k, v) :: props
      | None => (k, v) :: props
      end
  end.

(** The assignment [o[k] = v] on a plain object, as it shows in the own
    properties: the key [__proto__] reaches the accessor of
    [Object.prototype] and makes no own property; an own property keeps its
    place; a new array index goes among the array indices and any other new
    key goes last. *)
Definition assign (k : string) (v : Value) (props : list (string * Value))
    : list (string * Value) :=
  if String.eqb k "__proto__" then props
  else if has_key k props then set_prop k v props
  else match array_index k with
       | Some i => insert_index i k v props
       | None => (props ++ [(k, v)])%list
       end.

(** [a.push(x)]. *)
Definition push {A} (a : list A) (x : A) : list A := (a ++ [x])%list.

(** [s] occurs in [t]. *)
Definition includes (t s : string) : Prop :=
  exists pre post, t = pre ++ s ++ post.

End Js.

(* ================================================================== *)
(** ** Exceptions *)
(* ================================================================== *)

Module Exc.

(** A thrown value: an [Error] with its message and stack text, or some
    other value ([error instanceof Error] is false). *)
Inductive Thrown : Type :=
| Error (message stack : string)
| NonError.

(** The outcome of code that may throw. *)
Inductive t (A : Type) : Type :=
| Ret (a : A)
| Throw (e : Thrown).
Arguments Ret {A} a.
Arguments Throw {A} e.

(** [throw new Error(message)]. *)
Definition throw_new_Error {A} (message : string) : t A :=
  Throw (Error message ("Error: " ++ message)).

(** A [TypeError] raised by the engine, such as reading a property of
    [undefined]. *)
Definition throw_TypeError {A} (message : string) : t A :=
  Throw (Error message ("TypeError: " ++ message)).

(** [error instanceof Error ? error.message : 'Unknown error']. *)
Definition message_of (e : Thrown) : string :=
  match e with
  | Error m _ => m
  | NonError => "Unknown error"
  end.

(** [error instanceof Error ? { stack: error.stack } : {}]. *)
Definition details_of (e : Thrown) : Js.Value :=
  match e with
  | Error _ st => Js.Obj [("stack", Js.Str st)]
  | NonError => Js.Obj []
  end.

End Exc.


(* ================================================================== *)
(** ** The query model (contracts: IQuery and its parts) *)
(* ================================================================== *)

Module Query.

(** [IQueryFilter]. The providers receive the query as [any], so every
    property may be absent; the builder ([ActiveRecord.where]) combines two
    filters into a node with [logicalOperator] and [children]. *)
Inductive IQueryFilter : Type :=
  mkFilter (field : option string) (operator : option string)
           (value : Js.Value) (logicalOperator : option string)
           (children : option (list IQueryFilter)).

Definition field (f : IQueryFilter) : option string :=
  let 'mkFilter x _ _ _ _ := f in x.
Definition operator (f : IQueryFilter) : option string :=
  let 'mkFilter _ x _ _ _ := f in x.
Definition value (f : IQueryFilter) : Js.Value :=
  let 'mkFilter _ _ x _ _ := f in x.
Definition logicalOperator (f : IQueryFilter) : option string :=
  let 'mkFilter _ _ _ x _ := f in x.
Definition children (f : IQueryFilter) : option (list IQueryFilter) :=
  let 'mkFilter _ _ _ _ x := f in x.

(** A leaf [{field, operator, value}]. *)
Definition leaf (f op : string) (v : Js.Value) : IQueryFilter :=
  mkFilter (Some f) (Some op) v None None.

(** A composite as the data model has it:
    [{logicalOperator, children}]. *)
Definition composite (lop : string) (cs : list IQueryFilter) : IQueryFilter :=
  mkFilter None None Js.Undefined (Some lop) (Some cs).

(** A composite as [ActiveRecord.where] builds it:
    [{field: '', operator: 'eq', value: null, logicalOperator: 'and',
      children: [previous, filter]}]. *)
Definition where_and (previous filter : IQueryFilter) : IQueryFilter :=
  mkFilter (Some "") (Some "eq") Js.Null (Some "and")
           (Some [previous; filter]).

Record IQuerySelect : Type := {
  fields : list string;
  exclude : option bool
}.

Record IQueryOrder : Type := {
  order_field : string;
  direction : string
}.

Record IQueryPagination : Type := {
  skip : option Z;
  take : option Z
}.

Record IQuery : Type := {
  filter : option IQueryFilter;
  select : option IQuerySelect;
  orderBy : option (list IQueryOrder);
  pagination : option IQueryPagination;
  count : option bool
}.

(** The query [q] with its filter replaced. *)
Definition with_filter (q : IQuery) (f : IQueryFilter) : IQuery :=
  {| filter := Some f; select := select q; orderBy := orderBy q;
     pagination := pagination q; count := count q |}.

(** The node [f] with its operator replaced by [eq]. *)
Definition as_eq (f : IQueryFilter) : IQueryFilter :=
  mkFilter (field f) (Some "eq") (value f) (logicalOperator f) (children f).

(** The eleven operators of the data model. *)
Definition supported_operators : list string :=
  ["eq"; "ne"; "lt"; "le"; "gt"; "ge"; "in"; "notin";
   "contains"; "startswith"; "endswith"].

Definition is_supported (op : option string) : bool :=
  match op with
  | Some o => existsb (String.eqb o) supported_operators
  | None => false
  end.

End Query.

(* ================================================================== *)
(** ** Results and errors (contracts) *)
(* ================================================================== *)

Module Result.

(** [IUserFriendlyError]: the properties the providers set. *)
Record IUserFriendlyError : Type := {
  code : string;
  message : string;
  details : option Js.Value;
  suggestion : option string;
  severity : string;
  actionable : bool
}.

Record QueryMetadata : Type := {
  count : Js.Value;
  executionTime : Z;
  cacheStatus : string
}.

(** [IQueryResult<T>]; [D] is the run-time shape of [data]. *)
Record IQueryResult (D : Type) : Type := {
  data : D;
  success : bool;
  errors : option (list IUserFriendlyError);
  metadata : QueryMetadata
}.
Arguments data {D} _.
Arguments success {D} _.
Arguments errors {D} _.
Arguments metadata {D} _.

(** The result shape shared by create, read, update and delete:
    [{success, data?, id?, errors?, metadata?}]. *)
Record ICrudResult : Type := {
  crud_success : bool;
  crud_data : option Js.Value;
  crud_id : option Js.Value;
  crud_errors : option (list IUserFriendlyError);
  crud_metadata : option (list (string * Js.Value))
}.

(** The error object every [catch] block of the CRUD and query methods
    builds: [{code, message, details, severity: 'error',
    actionable: true}]. *)
Definition caught (code prefix : string) (e : Exc.Thrown) : IUserFriendlyError :=
  {| code := code;
     message := prefix ++ Exc.message_of e;
     details := Some (Exc.details_of e);
     suggestion := None;
     severity := "error";
     actionable := true |}.

Definition query_failed {D} (empty : D) (e : Exc.Thrown) : IQueryResult D :=
  {| data := empty;
     success := false;
     errors := Some [caught "QUERY_EXECUTION_FAILED"
                            "Query execution failed: " e];
     metadata := {| count := Js.Num 0; executionTime := 0;
                    cacheStatus := "miss" |} |}.

Definition crud_failed (code prefix : string) (e : Exc.Thrown) : ICrudResult :=
  {| crud_success := false;
     crud_data := None;
     crud_id := None;
     crud_errors := Some [caught code prefix e];
     crud_metadata := None |}.

End Result.

(* ================================================================== *)
(** ** A state monad with exceptions *)
(* ================================================================== *)

Module Eff.

(** A method body: it reads and writes the object's state [S] and either
    returns or throws. What was written before a [throw] stays written. *)
Definition M (S A : Type) : Type := S -> Exc.t A * S.

Definition ret {S A} (a : A) : M S A := fun s => (Exc.Ret a, s).

Definition bind {S A B} (m : M S A) (k : A -> M S B) : M S B :=
  fun s =>
    match m s with
    | (Exc.Ret a, s') => k a s'
    | (Exc.Throw e, s') => (Exc.Throw e, s')
    end.

Definition throw {S A} (e : Exc.Thrown) : M S A := fun s => (Exc.Throw e, s).

Definition lift {S A} (x : Exc.t A) : M S A := fun s => (x, s).

Definition get {S} : M S S := fun s => (Exc.Ret s, s).

Definition modify {S} (f : S -> S) : M S unit := fun s => (Exc.Ret tt, f s).

(** [v.k]: reading a property of [null] or [undefined] throws. *)
Definition prop {S} (v : Js.Value) (k : string) : M S Js.Value :=
  match v with
  | Js.Undefined =>
      lift (Exc.throw_TypeError
        ("Cannot read properties of undefined (reading '" ++ k ++ "')"))
  | Js.Null =>
      lift (Exc.throw_TypeError
        ("Cannot read properties of null (reading '" ++ k ++ "')"))
  | _ => ret (Js.opt_prop v k)
  end.

(** [try { body } catch (error) { handler(error) }]. *)
Definition try_catch {S A} (body : M S A) (handler : Exc.Thrown -> M S A) : M S A :=
  fun s =>
    match body s with
    | (Exc.Ret a, s') => (Exc.Ret a, s')
    | (Exc.Throw e, s') => handler e s'
    end.

End Eff.

Declare Scope eff_scope.
Delimit Scope eff_scope with eff.
Notation "x <- m ;; k" := (Eff.bind m (fun x => k))
  (at level 61, m at next level, right associativity) : eff_scope.
Notation "m ;;; k" := (Eff.bind m (fun _ => k))
  (at level 61, right associativity) : eff_scope.

(* ================================================================== *)
(** ** Map<string, V>, in insertion order *)
(* ================================================================== *)

Module JsMap.

Definition t (V : Type) : Type := list (string * V).

Definition empty {V} : t V := [].

(** [m.get(k)]; [None] also answers [m.has(k)] with false. *)
Fixpoint get {V} (k : string) (m : t V) : option V :=
  match m with
  | [] => None
  | (k', v) :: r => if String.eqb k k' then Some v else get k r
  end.

(** [m.set(k, v)]: a key already present keeps its place. *)
Fixpoint set {V} (k : string) (v : V) (m : t V) : t V :=
  match m with
  | [] => [(k, v)]
  | (k', v') :: r =>
      if String.eqb k k' then (k, v) :: r else (k', v') :: set k v r
  end.

Definition delete {V} (k : string) (m : t V) : t V :=
  filter (fun kv => negb (String.eqb k (fst kv))) m.

Definition keys {V} (m : t V) : list string := map fst m.

Definition size {V} (m : t V) : Z := Z.of_nat (List.length m).

End JsMap.

(* ================================================================== *)
(** ** SQLiteProvider *)
(* ================================================================== *)

Module SQLiteProvider.
Import Query Result.

(** What [stmt.run] returns. *)
Record RunResult : Type := {
  changes : Z;
  lastInsertRowid : Js.Value
}.

(** The better-sqlite3 handle, seen through the three calls the provider
    makes: [prepare(sql).all(...params)], [prepare(sql).get(...params)] and
    [prepare(sql).run(...params)]. [DB] is the content of the database
    file. *)
Record Driver (DB : Type) : Type := {
  stmt_all : DB -> string -> list Js.Value -> Exc.t (list Js.Value);
  stmt_get : DB -> string -> list Js.Value -> Exc.t Js.Value;
  stmt_run : DB -> string -> list Js.Value -> Exc.t (RunResult * DB)
}.
Arguments stmt_all {DB} _ _ _ _.
Arguments stmt_get {DB} _ _ _ _.
Arguments stmt_run {DB} _ _ _ _.

(** The provider's private fields; [database] is [None] until [connect]
    has run. *)
Record State (DB : Type) : Type := {
  database : option DB;
  connected : bool;
  totalQueries : Z;
  queryTimes : list Z
}.
Arguments database {DB} _.
Arguments connected {DB} _.
Arguments totalQueries {DB} _.
Arguments queryTimes {DB} _.

(** [switch (operator) { case label: ... }]. *)
Definition is_case (operator : option string) (label : string) : bool :=
  match operator with
  | Some o => String.eqb o label
  | None => false
  end.

(** [Array.isArray(value) ? value : [value]]. *)
Definition as_array (value : Js.Value) : list Js.Value :=
  match value with
  | Js.Arr items => items
  | _ => [value]
  end.

(** [convertODataFilterToSQL(filter, params)]: the SQL fragment and the
    parameter array after the pushes. *)
Definition convertODataFilterToSQL (filter : option IQueryFilter)
    (params : list Js.Value) : string * list Js.Value :=
  match filter with
  | None => ("1=1", params)
  | Some f =>
      let field := Js.template (Query.field f) in
      let operator := Query.operator f in
      let value := Query.value f in
      if is_case operator "eq" then (field ++ " = ?", (params ++ [value])%list)
      else if is_case operator "ne" then (field ++ " != ?", (params ++ [value])%list)
      else if is_case operator "gt" then (field ++ " > ?", (params ++ [value])%list)
      else if is_case operator "ge" then (field ++ " >= ?", (params ++ [value])%list)
      else if is_case operator "lt" then (field ++ " < ?", (params ++ [value])%list)
      else if is_case operator "le" then (field ++ " <= ?", (params ++ [value])%list)
      else if is_case operator "contains" then
        (field ++ " LIKE ?",
         (params ++ [Js.Str ("%" ++ Js.toString value ++ "%")])%list)
      else if is_case operator "startswith" then
        (field ++ " LIKE ?", (params ++ [Js.Str (Js.toString value ++ "%")])%list)
      else if is_case operator "endswith" then
        (field ++ " LIKE ?", (params ++ [Js.Str ("%" ++ Js.toString value)])%list)
      else if is_case operator "in" then
        let placeholders := map (fun _ => "?") (as_array value) in
        (field ++ " IN (" ++ Js.join ", " placeholders ++ ")",
         (params ++ as_array value)%list)
      else if is_case operator "notin" then
        let notInPlaceholders := map (fun _ => "?") (as_array value) in
        (field ++ " NOT IN (" ++ Js.join ", " notInPlaceholders ++ ")",
         (params ++ as_array value)%list)
      else (field ++ " = ?", (params ++ [value])%list)
  end.

(** [executeQuery], "Handle filtering": the statement so far and the
    bound parameters. *)
Definition filtered (entityName : string) (query : IQuery)
    : string * list Js.Value :=
  let sql := "SELECT * FROM " ++ entityName in
  let params : list Js.Value := [] in
  match filter query with
  | Some f =>
      let '(whereClause, params) := convertODataFilterToSQL (Some f) params in
      (sql ++ " WHERE " ++ whereClause, params)
  | None => (sql, params)
  end.

(** "Handle field selection". *)
Definition projected (query : IQuery) (sql : string) : string :=
  match select query with
  | Some sel => Js.replace sql "*" (Js.join ", " (fields sel))
  | None => sql
  end.

(** "Handle sorting". *)
Definition sorted (query : IQuery) (sql : string) : string :=
  match orderBy query with
  | Some orders =>
      sql ++ " ORDER BY " ++
      Js.join ", "
        (map (fun order =>
                order_field order ++ " " ++ Js.toUpperCase (direction order))
             orders)
  | None => sql
  end.

(** "Handle pagination". *)
Definition paginated (query : IQuery) (sql : string) : string :=
  match pagination query with
  | Some p =>
      let sql := sql ++ " LIMIT " ++ Js.number_toString (Js.num_or (take p) 50) in
      match skip p with
      | Some n =>
          if n =? 0 then sql else sql ++ " OFFSET " ++ Js.number_toString n
      | None => sql
      end
  | None => sql
  end.

(** The statement [executeQuery] builds before it runs it: the SQL text
    and the bound parameters. *)
Definition selectSQL (entityName : string) (query : IQuery)
    : string * list Js.Value :=
  let '(sql, params) := filtered entityName query in
  (paginated query (sorted query (projected query sql)), params).

Section Provider.
Context {DB : Type} (driver : Driver DB).
Local Open Scope eff_scope.

Definition no_database {A} (method : string) : Exc.t A :=
  Exc.throw_TypeError
    ("Cannot read properties of undefined (reading '" ++ method ++ "')").

(** [this.database.prepare(sql).all(...params)]. *)
Definition db_all (sql : string) (params : list Js.Value)
    : Eff.M (State DB) (list Js.Value) :=
  fun st =>
    match database st with
    | Some db => (stmt_all driver db sql params, st)
    | None => (no_database "prepare", st)
    end.

(** [this.database.prepare(sql).get(...params)]. *)
Definition db_get (sql : string) (params : list Js.Value)
    : Eff.M (State DB) Js.Value :=
  fun st =>
    match database st with
    | Some db => (stmt_get driver db sql params, st)
    | None => (no_database "prepare", st)
    end.

(** [this.database.prepare(sql).run(...params)]. *)
Definition db_run (sql : string) (params : list Js.Value)
    : Eff.M (State DB) RunResult :=
  fun st =>
    match database st with
    | Some db =>
        match stmt_run driver db sql params with
        | Exc.Ret (r, db') =>
            (Exc.Ret r,
             {| database := Some db'; connected := connected st;
                totalQueries := totalQueries st;
                queryTimes := queryTimes st |})
        | Exc.Throw e => (Exc.Throw e, st)
        end
    | None => (no_database "prepare", st)
    end.

(** [this.totalQueries++]. *)
Definition count_query : Eff.M (State DB) unit :=
  Eff.modify (fun st =>
    {| database := database st; connected := connected st;
       totalQueries := totalQueries st + 1;
       queryTimes := queryTimes st |}).

(** [this.queryTimes.push(executionTime)]. *)
Definition push_time (executionTime : Z) : Eff.M (State DB) unit :=
  Eff.modify (fun st =>
    {| database := database st; connected := connected st;
       totalQueries := totalQueries st;
       queryTimes := (queryTimes st ++ [executionTime])%list |}).

(** [executeQuery(entityName, query)]; [startTime] and [endTime] are the
    two readings of [Date.now()]. *)
Definition executeQuery (entityName : string) (query : IQuery)
    (startTime endTime : Z)
    : Eff.M (State DB) (IQueryResult (list Js.Value)) :=
  Eff.try_catch
    (count_query ;;;
     let '(sql, params) := selectSQL entityName query in
     data <- db_all sql params ;;
     row <- db_get ("SELECT COUNT(*) as count FROM " ++ entityName) [] ;;
     count <- Eff.prop row "count" ;;
     let executionTime := endTime - startTime in
     push_time executionTime ;;;
     Eff.ret {| data := data;
                success := true;
                errors := None;
                metadata := {| count := count;
                               executionTime := executionTime;
                               cacheStatus := "miss" |} |})
    (fun error => Eff.ret (query_failed [] error)).

(** The conversion [create] and [update] apply to each value: a [Date]
    becomes its ISO string, a boolean becomes 1 or 0. *)
Definition to_column_value (value : Js.Value) : Js.Value :=
  match value with
  | Js.Date iso _ => Js.Str iso
  | Js.Bool b => Js.Num (if b then 1 else 0)
  | _ => value
  end.

(** [create(entityName, data)]; [data] is the object's own properties in
    order. *)
Definition create (entityName : string) (data : list (string * Js.Value))
    (startTime endTime : Z) : Eff.M (State DB) ICrudResult :=
  Eff.try_catch
    (count_query ;;;
     let columns := map fst data in
     let placeholders := Js.join ", " (map (fun _ => "?") columns) in
     let values := map (fun kv => to_column_value (snd kv)) data in
     let sql := "INSERT INTO " ++ entityName ++ " (" ++ Js.join ", " columns
                ++ ") VALUES (" ++ placeholders ++ ")" in
     result <- db_run sql values ;;
     insertedRecord <-
       db_get ("SELECT * FROM " ++ entityName ++ " WHERE rowid = ?")
              [lastInsertRowid result] ;;
     let executionTime := endTime - startTime in
     push_time executionTime ;;;
     Eff.ret {| crud_success := true;
                crud_data := Some insertedRecord;
                crud_id := Some (lastInsertRowid result);
                crud_errors := None;
                crud_metadata :=
                  Some [("executionTime", Js.Num executionTime);
                        ("created", Js.Bool true)] |})
    (fun error =>
       Eff.ret (crud_failed "CREATE_FAILED" "Failed to create record: " error)).

(** [read(entityName, query?)]. *)
Definition read (entityName : string) (query : option IQuery)
    (startTime endTime : Z) : Eff.M (State DB) ICrudResult :=
  Eff.try_catch
    (count_query ;;;
     let sql := "SELECT * FROM " ++ entityName in
     let '(sql, params) :=
       match query with
       | Some {| filter := Some f |} =>
           let '(whereClause, params) := convertODataFilterToSQL (Some f) [] in
           (sql ++ " WHERE " ++ whereClause, params)
       | _ => (sql, [])
       end in
     data <- db_all sql params ;;
     row <- db_get ("SELECT COUNT(*) as count FROM " ++ entityName) [] ;;
     totalCount <- Eff.prop row "count" ;;
     let executionTime := endTime - startTime in
     push_time executionTime ;;;
     Eff.ret {| crud_success := true;
                crud_data := Some (Js.Arr data);
                crud_id := None;
                crud_errors := None;
                crud_metadata :=
                  Some [("totalCount", totalCount);
                        ("executionTime", Js.Num executionTime);
                        ("cached", Js.Bool false)] |})
    (fun error =>
       Eff.ret (crud_failed "READ_FAILED" "Failed to read records: " error)).

(** [update(entityName, id, data)]. *)
Definition update (entityName : string) (id : Js.Value)
    (data : list (string * Js.Value)) (startTime endTime : Z)
    : Eff.M (State DB) ICrudResult :=
  Eff.try_catch
    (count_query ;;;
     let columns := map fst data in
     let setClause := Js.join ", " (map (fun col => col ++ " = ?") columns) in
     let values := (map (fun kv => to_column_value (snd kv)) data ++ [id])%list in
     let sql := "UPDATE " ++ entityName ++ " SET " ++ setClause
                ++ " WHERE rowid = ?" in
     result <- db_run sql values ;;
     updatedRecord <-
       db_get ("SELECT * FROM " ++ entityName ++ " WHERE rowid = ?") [id] ;;
     let executionTime := endTime - startTime in
     push_time executionTime ;;;
     Eff.ret {| crud_success := true;
                crud_data := Some updatedRecord;
                crud_id := None;
                crud_errors := None;
                crud_metadata :=
                  Some [("executionTime", Js.Num executionTime);
                        ("updated", Js.Bool true);
                        ("affectedCount", Js.Num (changes result))] |})
    (fun error =>
       Eff.ret (crud_failed "UPDATE_FAILED" "Failed to update record: " error)).

(** [delete(entityName, id)]. *)
Definition delete (entityName : string) (id : Js.Value)
    (startTime endTime : Z) : Eff.M (State DB) ICrudResult :=
  Eff.try_catch
    (count_query ;;;
     let sql := "DELETE FROM " ++ entityName ++ " WHERE rowid = ?" in
     result <- db_run sql [id] ;;
     let executionTime := endTime - startTime in
     push_time executionTime ;;;
     Eff.ret {| crud_success := true;
                crud_data := None;
                crud_id := None;
                crud_errors := None;
                crud_metadata :=
                  Some [("executionTime", Js.Num executionTime);
                        ("deleted", Js.Bool true);
                        ("affectedCount", Js.Num (changes result))] |})
    (fun error =>
       Eff.ret (crud_failed "DELETE_FAILED" "Failed to delete record: " error)).

End Provider.

End SQLiteProvider.

(* ================================================================== *)
(** ** MongoDBProvider *)
(* ================================================================== *)

Module MongoDBProvider.
Import Query Result.

(** A call made on the cursor [collection.find] returned. *)
Inductive CursorCall : Type :=
| sort (spec : Js.Value)
| skip (n : Z)
| limit (n : Z).

(** [collection.find(mongoQuery, { projection })] and the calls made on it
    before [toArray()]. *)
Record Cursor : Type := {
  find_filter : Js.Value;
  find_projection : Js.Value;
  calls : list CursorCall
}.

(** The mongodb driver, seen through the calls the provider makes on
    [this.database.collection(name)]. [DB] is the content of the
    database. *)
Record Driver (DB : Type) : Type := {
  toArray : DB -> string -> Cursor -> Exc.t (list Js.Value);
  countDocuments : DB -> string -> Js.Value -> Exc.t Js.Value;
  insertOne : DB -> string -> Js.Value -> Exc.t (Js.Value * DB);
  findOne : DB -> string -> Js.Value -> Exc.t Js.Value;
  findOneAndUpdate :
    DB -> string -> Js.Value -> Js.Value -> Exc.t (Js.Value * DB);
  deleteOne : DB -> string -> Js.Value -> Exc.t (Js.Value * DB);
  (** [new ObjectId(id)] *)
  ObjectId : string -> Exc.t Js.Value
}.
Arguments toArray {DB} _ _ _ _.
Arguments countDocuments {DB} _ _ _ _.
Arguments insertOne {DB} _ _ _ _.
Arguments findOne {DB} _ _ _ _.
Arguments findOneAndUpdate {DB} _ _ _ _ _.
Arguments deleteOne {DB} _ _ _ _.
Arguments ObjectId {DB} _ _.

Record State (DB : Type) : Type := {
  database : option DB;
  connected : bool;
  totalQueries : Z;
  queryTimes : list Z
}.
Arguments database {DB} _.
Arguments connected {DB} _.
Arguments totalQueries {DB} _.
Arguments queryTimes {DB} _.

Definition is_case := SQLiteProvider.is_case.
Definition as_array := SQLiteProvider.as_array.

(** [{ [field]: inner }]. *)
Definition keyed (field : string) (inner : Js.Value) : Js.Value :=
  Js.Obj [(field, inner)].

(** [convertODataFilterToMongo(filter)]. *)
Definition convertODataFilterToMongo (filter : option IQueryFilter) : Js.Value :=
  match filter with
  | None => Js.Obj []
  | Some f =>
      let field := Js.template (Query.field f) in
      let operator := Query.operator f in
      let value := Query.value f in
      if is_case operator "eq" then keyed field value
      else if is_case operator "ne" then
        keyed field (Js.Obj [("$ne", value)])
      else if is_case operator "gt" then
        keyed field (Js.Obj [("$gt", value)])
      else if is_case operator "ge" then
        keyed field (Js.Obj [("$gte", value)])
      else if is_case operator "lt" then
        keyed field (Js.Obj [("$lt", value)])
      else if is_case operator "le" then
        keyed field (Js.Obj [("$lte", value)])
      else if is_case operator "contains" then
        keyed field (Js.Obj [("$regex", value); ("$options", Js.Str "i")])
      else if is_case operator "startswith" then
        keyed field (Js.Obj [("$regex", Js.Str ("^" ++ Js.toString value));
                             ("$options", Js.Str "i")])
      else if is_case operator "endswith" then
        keyed field (Js.Obj [("$regex", Js.Str (Js.toString value ++ "$"));
                             ("$options", Js.Str "i")])
      else if is_case operator "in" then
        keyed field (Js.Obj [("$in", Js.Arr (as_array value))])
      else if is_case operator "notin" then
        keyed field (Js.Obj [("$nin", Js.Arr (as_array value))])
      else keyed field value
  end.

(** The [projection] object of [executeQuery]. *)
Definition projection_of (query : IQuery) : list (string * Js.Value) :=
  match select query with
  | Some sel =>
      let projection :=
        fold_left (fun acc field => Js.assign field (Js.Num 1) acc)
                  (fields sel) [] in
      match exclude sel with
      | Some true => projection
      | _ => Js.assign "_id" (Js.Num 0) projection
      end
  | None => []
  end.

(** The [sort] object of [executeQuery]. *)
Definition sort_of (query : IQuery) : list (string * Js.Value) :=
  match orderBy query with
  | Some orders =>
      fold_left
        (fun acc order =>
           Js.assign (order_field order)
             (Js.Num (if String.eqb (direction order) "asc" then 1 else -1))
             acc)
        orders []
  | None => []
  end.

(** [query.pagination?.take || 50]. *)
Definition limit_of (query : IQuery) : Z :=
  Js.num_or (match pagination query with
             | Some p => take p
             | None => None
             end) 50.

(** [query.pagination?.skip || 0]. *)
Definition skip_of (query : IQuery) : Z :=
  Js.num_or (match pagination query with
             | Some p => Query.skip p
             | None => None
             end) 0.

(** The cursor [executeQuery] has built when it calls [toArray()]. *)
Definition cursor_of (query : IQuery) : Cursor :=
  let mongoQuery :=
    match filter query with
    | Some f => convertODataFilterToMongo (Some f)
    | None => Js.Obj []
    end in
  let sort_spec := sort_of query in
  {| find_filter := mongoQuery;
     find_projection := Js.Obj [("projection", Js.Obj (projection_of query))];
     calls :=
       ((if (0 <? Z.of_nat (List.length sort_spec))
         then [sort (Js.Obj sort_spec)] else [])
        ++ (if 0 <? skip_of query then [skip (skip_of query)] else [])
        ++ (if 0 <? limit_of query then [limit (limit_of query)] else []))%list
  |}.

Section Provider.
Context {DB : Type} (driver : Driver DB).
Local Open Scope eff_scope.

Definition no_database {A} : Exc.t A :=
  Exc.throw_TypeError
    "Cannot read properties of undefined (reading 'collection')".

(** A driver call that only reads the database. *)
Definition db_read {A} (call : DB -> Exc.t A) : Eff.M (State DB) A :=
  fun st =>
    match database st with
    | Some db => (call db, st)
    | None => (no_database, st)
    end.

(** A driver call that may change the database. *)
Definition db_write {A} (call : DB -> Exc.t (A * DB)) : Eff.M (State DB) A :=
  fun st =>
    match database st with
    | Some db =>
        match call db with
        | Exc.Ret (r, db') =>
            (Exc.Ret r,
             {| database := Some db'; connected := connected st;
                totalQueries := totalQueries st;
                queryTimes := queryTimes st |})
        | Exc.Throw e => (Exc.Throw e, st)
        end
    | None => (no_database, st)
    end.

Definition count_query : Eff.M (State DB) unit :=
  Eff.modify (fun st =>
    {| database := database st; connected := connected st;
       totalQueries := totalQueries st + 1;
       queryTimes := queryTimes st |}).

Definition push_time (executionTime : Z) : Eff.M (State DB) unit :=
  Eff.modify (fun st =>
    {| database := database st; connected := connected st;
       totalQueries := totalQueries st;
       queryTimes := (queryTimes st ++ [executionTime])%list |}).

(** [executeQuery(entityName, query)]. *)
Definition executeQuery (entityName : string) (query : IQuery)
    (startTime endTime : Z)
    : Eff.M (State DB) (IQueryResult (list Js.Value)) :=
  Eff.try_catch
    (count_query ;;;
     let cursor := cursor_of query in
     data <- db_read (fun db => toArray driver db entityName cursor) ;;
     count <- db_read (fun db =>
                countDocuments driver db entityName (find_filter cursor)) ;;
     let executionTime := endTime - startTime in
     push_time executionTime ;;;
     Eff.ret {| data := data;
                success := true;
                errors := None;
                metadata := {| count := count;
                               executionTime := executionTime;
                               cacheStatus := "miss" |} |})
    (fun error => Eff.ret (query_failed [] error)).

(** [convertToObjectId(id)]: a string of 24 hexadecimal digits becomes an
    [ObjectId]. *)
Definition is_hex (c : ascii) : bool :=
  let n := nat_of_ascii c in
  (Js.between 48 57 n || Js.between 65 70 n || Js.between 97 102 n)%bool.

Definition convertToObjectId (id : Js.Value) : Eff.M (State DB) Js.Value :=
  match id with
  | Js.Str s =>
      if (Nat.eqb (String.length s) 24
          && forallb is_hex (list_ascii_of_string s))%bool
      then Eff.lift (ObjectId driver s)
      else Eff.ret id
  | _ => Eff.ret id
  end.

(** [create(entityName, data)]; [createdAt] and [updatedAt] are the two
    [new Date()] values. *)
Definition create (entityName : string) (data : list (string * Js.Value))
    (createdAt updatedAt : Js.Value) (startTime endTime : Z)
    : Eff.M (State DB) ICrudResult :=
  Eff.try_catch
    (count_query ;;;
     let documentToInsert :=
       Js.Obj (Js.set_prop "updatedAt" updatedAt
                 (Js.set_prop "createdAt" createdAt data)) in
     insertedId <- db_write (fun db =>
                     insertOne driver db entityName documentToInsert) ;;
     insertedDocument <- db_read (fun db =>
                           findOne driver db entityName
                             (Js.Obj [("_id", insertedId)])) ;;
     let executionTime := endTime - startTime in
     push_time executionTime ;;;
     Eff.ret {| crud_success := true;
                crud_data := Some insertedDocument;
                crud_id := Some insertedId;
                crud_errors := None;
                crud_metadata :=
                  Some [("executionTime", Js.Num executionTime);
                        ("created", Js.Bool true)] |})
    (fun error =>
       Eff.ret (crud_failed "CREATE_FAILED" "Failed to create document: " error)).

(** [read(entityName, query?)]. *)
Definition read (entityName : string) (query : option IQuery)
    (startTime endTime : Z) : Eff.M (State DB) ICrudResult :=
  Eff.try_catch
    (count_query ;;;
     let mongoQuery :=
       match query with
       | Some {| filter := Some f |} => convertODataFilterToMongo (Some f)
       | _ => Js.Obj []
       end in
     let projection :=
       match query with
       | Some {| select := Some sel |} =>
           fold_left (fun acc field => Js.assign field (Js.Num 1) acc)
                     (fields sel) []
       | _ => []
       end in
     let cursor :=
       {| find_filter := mongoQuery;
          find_projection := Js.Obj [("projection", Js.Obj projection)];
          calls := [] |} in
     data <- db_read (fun db => toArray driver db entityName cursor) ;;
     totalCount <- db_read (fun db =>
                     countDocuments driver db entityName mongoQuery) ;;
     let executionTime := endTime - startTime in
     push_time executionTime ;;;
     Eff.ret {| crud_success := true;
                crud_data := Some (Js.Arr data);
                crud_id := None;
                crud_errors := None;
                crud_metadata :=
                  Some [("totalCount", totalCount);
                        ("executionTime", Js.Num executionTime);
                        ("cached", Js.Bool false)] |})
    (fun error =>
       Eff.ret (crud_failed "READ_FAILED" "Failed to read documents: " error)).

(** [update(entityName, id, data)]. *)
Definition update (entityName : string) (id : Js.Value)
    (data : list (string * Js.Value)) (updatedAt : Js.Value)
    (startTime endTime : Z) : Eff.M (State DB) ICrudResult :=
  Eff.try_catch
    (count_query ;;;
     objectId <- convertToObjectId id ;;
     let updateData := Js.Obj (Js.set_prop "updatedAt" updatedAt data) in
     result <- db_write (fun db =>
                 findOneAndUpdate driver db entityName
                   (Js.Obj [("_id", objectId)])
                   (Js.Obj [("$set", updateData)])) ;;
     let executionTime := endTime - startTime in
     push_time executionTime ;;;
     value <- Eff.prop result "value" ;;
     updatedData <-
       (if Js.truthy value then Eff.ret value
        else db_read (fun db =>
               findOne driver db entityName (Js.Obj [("_id", objectId)]))) ;;
     Eff.ret {| crud_success := true;
                crud_data := Some updatedData;
                crud_id := None;
                crud_errors := None;
                crud_metadata :=
                  Some [("executionTime", Js.Num executionTime);
                        ("updated", Js.Bool true);
                        ("affectedCount",
                         Js.Num (if Js.truthy (Js.opt_prop result "ok")
                                 then 1 else 0))] |})
    (fun error =>
       Eff.ret (crud_failed "UPDATE_FAILED" "Failed to update document: " error)).

(** [delete(entityName, id)]. *)
Definition delete (entityName : string) (id : Js.Value)
    (startTime endTime : Z) : Eff.M (State DB) ICrudResult :=
  Eff.try_catch
    (count_query ;;;
     objectId <- convertToObjectId id ;;
     result <- db_write (fun db =>
                 deleteOne driver db entityName (Js.Obj [("_id", objectId)])) ;;
     let executionTime := endTime - startTime in
     push_time executionTime ;;;
     deletedCount <- Eff.prop result "deletedCount" ;;
     Eff.ret {| crud_success := true;
                crud_data := None;
                crud_id := None;
                crud_errors := None;
                crud_metadata :=
                  Some [("executionTime", Js.Num executionTime);
                        ("deleted", Js.Bool true);
                        ("affectedCount", deletedCount)] |})
    (fun error =>
       Eff.ret (crud_failed "DELETE_FAILED" "Failed to delete document: " error)).

End Provider.

End MongoDBProvider.

(* ================================================================== *)
(** ** HTTPODataProvider *)
(* ================================================================== *)

Module HTTPODataProvider.
Import Query Result.

Definition is_case := SQLiteProvider.is_case.
Definition as_array := SQLiteProvider.as_array.

(** [formatODataValue(value)]. *)
Definition formatODataValue (value : Js.Value) : string :=
  match value with
  | Js.Null | Js.Undefined => "null"
  | Js.Str s => "'" ++ Js.double_quotes s ++ "'"
  | Js.Num n => Js.number_toString n
  | Js.Bool b => if b then "true" else "false"
  | Js.Date iso _ => iso
  | Js.Arr _ | Js.Obj _ => "'" ++ Js.double_quotes (Js.json_text value) ++ "'"
  end.

(** [convertFilterToOData(filter)]. *)
Definition convertFilterToOData (filter : option IQueryFilter) : string :=
  match filter with
  | None => ""
  | Some f =>
      let field := Js.template (Query.field f) in
      let operator := Query.operator f in
      let value := Query.value f in
      if is_case operator "eq" then field ++ " eq " ++ formatODataValue value
      else if is_case operator "ne" then
        field ++ " ne " ++ formatODataValue value
      else if is_case operator "gt" then
        field ++ " gt " ++ formatODataValue value
      else if is_case operator "ge" then
        field ++ " ge " ++ formatODataValue value
      else if is_case operator "lt" then
        field ++ " lt " ++ formatODataValue value
      else if is_case operator "le" then
        field ++ " le " ++ formatODataValue value
      else if is_case operator "contains" then
        "contains(" ++ field ++ ", " ++ formatODataValue value ++ ")"
      else if is_case operator "startswith" then
        "startswith(" ++ field ++ ", " ++ formatODataValue value ++ ")"
      else if is_case operator "endswith" then
        "endswith(" ++ field ++ ", " ++ formatODataValue value ++ ")"
      else if is_case operator "in" then
        let values := as_array value in
        let formattedValues := map formatODataValue values in
        field ++ " in (" ++ Js.join "," formattedValues ++ ")"
      else field ++ " eq " ++ formatODataValue value
  end.

(** [buildODataQueryString(query)]. *)
Definition buildODataQueryString (query : IQuery) : string :=
  let params : list string := [] in
  (* Handle filtering *)
  let params :=
    match filter query with
    | Some f =>
        let filterString := convertFilterToOData (Some f) in
        if String.eqb filterString "" then params
        else Js.push params ("$filter=" ++ Js.encodeURIComponent filterString)
    | None => params
    end in
  (* Handle field selection *)
  let params :=
    match select query with
    | Some sel =>
        Js.push params
          ("$select=" ++ Js.encodeURIComponent (Js.join "," (fields sel)))
    | None => params
    end in
  (* Handle sorting *)
  let params :=
    match orderBy query with
    | Some orders =>
        let orderString :=
          Js.join "," (map (fun order =>
                              order_field order ++ " " ++ direction order)
                           orders) in
        Js.push params ("$orderby=" ++ Js.encodeURIComponent orderString)
    | None => params
    end in
  (* Handle pagination *)
  let params :=
    match pagination query with
    | Some p =>
        let params :=
          if Js.num_truthy (take p)
          then Js.push params
                 ("$top=" ++ Js.number_toString (Js.num_or (take p) 0))
          else params in
        if Js.num_truthy (Query.skip p)
        then Js.push params
               ("$skip=" ++ Js.number_toString (Js.num_or (Query.skip p) 0))
        else params
    | None => params
    end in
  (* Add count *)
  let params := Js.push params "$count=true" in
  if (0 <? Z.of_nat (List.length params))
  then "?" ++ Js.join "&" params
  else "".

(** What [fetch] resolves to, as far as [makeRequest] reads it; header
    names are in lower case, as [Headers] keeps them. *)
Record Response : Type := {
  ok : bool;
  status : Z;
  statusText : string;
  response_headers : list (string * string);
  text : Exc.t string;
  json : Exc.t Js.Value
}.

(** The second argument of [makeRequest]. *)
Record RequestOptions : Type := {
  opt_method : option string;
  opt_headers : option (list (string * string));
  opt_body : option Js.Value
}.

Definition no_options : RequestOptions :=
  {| opt_method := None; opt_headers := None; opt_body := None |}.

(** The [RequestInit] handed to [fetch]. Its [body] is the property as
    [fetch] finds it: absent, or present with any value. *)
Record RequestInit : Type := {
  method : string;
  req_headers : list (string * string);
  body : option Js.Value
}.

(** [JSON.stringify(v)] as a value: the text, or [undefined]. *)
Definition stringified (v : Js.Value) : Js.Value :=
  match Js.json_stringify v with
  | Some s => Js.Str s
  | None => Js.Undefined
  end.

(** [IHTTPResponse]. *)
Record IHTTPResponse : Type := {
  http_success : bool;
  http_data : Js.Value;
  statusCode : option Z;
  http_headers : option (list (string * string));
  http_errors : option (list IUserFriendlyError);
  http_metadata : option (Z * Z)
}.

Record State : Type := {
  baseUrl : string;
  authHeaders : list (string * string);
  connected : bool;
  totalQueries : Z;
  queryTimes : list Z
}.

(** [{ ...a, ...b }] on string-valued objects. *)
Definition spread (a b : list (string * string)) : list (string * string) :=
  fold_left (fun acc kv => JsMap.set (fst kv) (snd kv) acc) b a.

(** [headers.get(name)]. *)
Fixpoint header (name : string) (hs : list (string * string)) : option string :=
  match hs with
  | [] => None
  | (k, v) :: r => if String.eqb k name then Some v else header name r
  end.

Section Provider.
(** [fetch(url, requestOptions)]. *)
Variable fetch : string -> RequestInit -> Exc.t Response.
Local Open Scope eff_scope.

(** [makeRequest(path, options)]; [startTime] and [endTime] are its two
    readings of [Date.now()]. It catches everything it throws. *)
Definition makeRequest (path : string) (options : RequestOptions)
    (startTime endTime : Z) : Eff.M State IHTTPResponse :=
  Eff.try_catch
    (st <- Eff.get ;;
     let url := if String.prefix "http" path then path
                else baseUrl st ++ path in
     let headers :=
       spread (spread [("Content-Type", "application/json");
                       ("Accept", "application/json")]
                      (authHeaders st))
              (match opt_headers options with Some h => h | None => [] end) in
     let requestOptions :=
       {| method := match opt_method options with
                    | Some m => m
                    | None => "GET"
                    end;
          req_headers := match opt_headers options with
                         | Some h => h
                         | None => headers
                         end;
          body := opt_body options |} in
     let requestOptions :=
       match opt_body options with
       | Some b =>
           if Js.truthy b then
             {| method := method requestOptions;
                req_headers := req_headers requestOptions;
                body := Some (stringified b) |}
           else requestOptions
       | None => requestOptions
       end in
     response <- Eff.lift (fetch url requestOptions) ;;
     let responseTime := endTime - startTime in
     if negb (ok response) then
       responseText <- Eff.lift (text response) ;;
       Eff.ret
         {| http_success := false;
            http_data := Js.Undefined;
            statusCode := Some (status response);
            http_headers := Some (response_headers response);
            http_errors :=
              Some [{| code := "HTTP_" ++ Js.number_toString (status response);
                       message := "HTTP " ++ Js.number_toString (status response)
                                  ++ ": " ++ statusText response;
                       details :=
                         Some (Js.Obj [("responseText", Js.Str responseText)]);
                       suggestion := None;
                       severity := "error";
                       actionable := true |}];
            http_metadata := Some (responseTime, 0) |}
     else
       let contentType := header "content-type" (response_headers response) in
       data <-
         match contentType with
         | Some ct =>
             if Js.includesb ct "application/json"
             then Eff.lift (json response)
             else s <- Eff.lift (text response) ;; Eff.ret (Js.Str s)
         | None => s <- Eff.lift (text response) ;; Eff.ret (Js.Str s)
         end ;;
       size <-
         match Js.json_stringify data with
         | Some s => Eff.ret (Z.of_nat (String.length s))
         | None =>
             Eff.lift (Exc.throw_TypeError
               "Cannot read properties of undefined (reading 'length')")
         end ;;
       Eff.ret
         {| http_success := true;
            http_data := data;
            statusCode := Some (status response);
            http_headers := Some (response_headers response);
            http_errors := None;
            http_metadata := Some (responseTime, size) |})
    (fun error =>
       Eff.ret
         {| http_success := false;
            http_data := Js.Undefined;
            statusCode := None;
            http_headers := None;
            http_errors := Some [caught "REQUEST_FAILED" "Request failed: " error];
            http_metadata := None |}).

Definition count_query : Eff.M State unit :=
  Eff.modify (fun st =>
    {| baseUrl := baseUrl st; authHeaders := authHeaders st;
       connected := connected st;
       totalQueries := totalQueries st + 1;
       queryTimes := queryTimes st |}).

Definition push_time (executionTime : Z) : Eff.M State unit :=
  Eff.modify (fun st =>
    {| baseUrl := baseUrl st; authHeaders := authHeaders st;
       connected := connected st;
       totalQueries := totalQueries st;
       queryTimes := (queryTimes st ++ [executionTime])%list |}).

(** [executeQuery(entityName, query)]; [requestStart] and [requestEnd] are
    the clock readings inside [makeRequest]. *)
Definition executeQuery (entityName : string) (query : IQuery)
    (startTime requestStart requestEnd endTime : Z)
    : Eff.M State (IQueryResult Js.Value) :=
  Eff.try_catch
    (count_query ;;;
     st <- Eff.get ;;
     let queryParams := buildODataQueryString query in
     let url := baseUrl st ++ "/" ++ entityName ++ queryParams in
     response <- makeRequest url no_options requestStart requestEnd ;;
     if negb (http_success response)
     then Eff.lift (Exc.throw_new_Error "Query execution failed")
     else
       let executionTime := endTime - startTime in
       push_time executionTime ;;;
       Eff.ret
         {| data := Js.or_else (Js.opt_prop (http_data response) "value")
                               (Js.Arr []);
            success := true;
            errors := None;
            metadata :=
              {| count := Js.or_else
                            (Js.opt_prop (http_data response) "@odata.count")
                            (Js.Num 0);
                 executionTime := executionTime;
                 cacheStatus := "miss" |} |})
    (fun error => Eff.ret (query_failed (Js.Arr []) error)).

End Provider.

End HTTPODataProvider.

(* ================================================================== *)
(** ** The provider boundary contract *)
(* ================================================================== *)

Module Boundary.
Import Result.

(** The boundary contract of a query method: it returns, and what it
    returns is a success or the failure built from the caught error. *)
Definition query_boundary {S D} (empty : D) (m : Eff.M S (IQueryResult D))
    : Prop :=
  forall st, exists r st',
    m st = (Exc.Ret r, st')
    /\ (success r = true \/ exists e, r = query_failed empty e).

(** The same for create, read, update and delete. *)
Definition crud_boundary {S} (code prefix : string) (m : Eff.M S ICrudResult)
    : Prop :=
  forall st, exists r st',
    m st = (Exc.Ret r, st')
    /\ (crud_success r = true \/ exists e, r = crud_failed code prefix e).

End Boundary.

(* ================================================================== *)
(** ** ConnectionPool *)
(* ================================================================== *)

Module ConnectionPool.

(** [IConnectionConfig]. *)
Record IConnectionConfig : Type := {
  type : string;
  connectionString : option string;
  databaseName : option string;
  filePath : option string;
  baseUrl : option string;
  headers : option (list (string * string));
  poolSize : option Z;
  minPoolSize : option Z;
  maxIdleTime : option Z;
  timeout : option Z;
  verbose : option bool;
  fileMustExist : option bool
}.

(** The options object given to [new MongoClient]. *)
Record MongoClientOptions : Type := {
  maxPoolSize : Z;
  minPoolSize_ : Z;
  maxIdleTimeMS : Z;
  serverSelectionTimeoutMS : Z;
  connectTimeoutMS : Z;
  socketTimeoutMS : Z
}.

(** The options object given to [new Database]. *)
Record DatabaseOptions : Type := {
  verbose_ : bool;
  fileMustExist_ : bool;
  timeout_ : Z
}.

(** [IConnectionStats]; the two dates are kept as clock readings. *)
Record IConnectionStats : Type := {
  connected : bool;
  uptime : Z;
  activeConnections : Z;
  totalQueries : Z;
  averageQueryTime : Z;
  lastConnectionAttempt : Z;
  lastSuccessfulConnection : Z
}.

(** [!s] for an optional string. *)
Definition missing (s : option string) : bool :=
  match s with
  | Some x => String.eqb x ""
  | None => true
  end.

Section Pool.

(** [Handle] is what a driver hands back; [X] is everything outside the
    process that the drivers talk to. *)
Variables Handle X : Type.

(** A pooled connection (the pool stores it as [any]). *)
Inductive Connection : Type :=
| MongoDb (db : Handle)
| SQLiteDb (db : Handle)
| HTTPOData (baseUrl : string) (headers : list (string * string)) (timeout : Z).

(** The drivers. The two [import] fields are the dynamic imports; the
    [close] calls are taken to return normally. [sqlite_open] covers
    [new Database(...)] and the two pragmas. [http_head] is the [HEAD]
    request of the health check and yields [response.ok]. *)
Record Drivers : Type := {
  import_mongodb : Exc.t unit;
  mongo_connect :
    string -> MongoClientOptions -> option string -> X -> Exc.t Handle * X;
  import_sqlite : Exc.t unit;
  sqlite_open : string -> DatabaseOptions -> X -> Exc.t Handle * X;
  mongo_ping : Handle -> X -> Exc.t unit * X;
  sqlite_is_open : Handle -> X -> bool;
  http_head : string -> list (string * string) -> Z -> X -> Exc.t bool * X;
  mongo_close : Handle -> X -> X;
  sqlite_close : Handle -> X -> X
}.

(** What the pool does that can be seen from outside: connector calls,
    sleeps, closes and console lines. *)
Inductive Event : Type :=
| Connect (config : IConnectionConfig)
| Sleep (ms : Z)
| Closed (connection : Connection)
| LogEstablished (connectionId : string) (attempt : Z)
| WarnAttemptFailed (connectionId : string) (attempt : Z) (error : Exc.Thrown)
| LogRetrying (connectionId : string) (delay : Z)
| WarnUnhealthy (connectionId : string)
| WarnFailedHealthCheck (connectionId : string)
| WarnHealthCheckFailed (error : Exc.Thrown).

(** What a [setInterval] callback of the pool does. *)
Inductive TimerJob : Type :=
| ConnectionHealthCheck (connectionId : string) (config : IConnectionConfig)
| GlobalHealthCheck.

Record Timer : Type := {
  timer_id : nat;
  job : TimerJob;
  interval : Z
}.

(** A promise reaction waiting in the microtask queue: the callback
    [isHealthy => { if (isHealthy) healthyConnections++ }] with the value
    its promise settled to and the variable it closes over. *)
Record Microtask : Type := {
  isHealthy : bool;
  healthyConnections_ref : nat
}.

(** The private fields of the pool. *)
Record Fields : Type := {
  connections : JsMap.t Connection;
  connectionConfigs : JsMap.t IConnectionConfig;
  healthChecks : JsMap.t nat;
  retryAttempts : JsMap.t Z;
  maxRetries : Z;
  retryDelay : Z;
  healthCheckInterval : Z
}.

(** The pool with the run-time around it: active interval timers, the
    next timer handle, the events so far, the local variables that
    closures still hold, the microtask queue, and the outside world. *)
Record Sys : Type := {
  pool : Fields;
  timers : list Timer;
  next_timer : nat;
  trace : list Event;
  locals : list Z;
  microtasks : list Microtask;
  world : X
}.

Definition with_pool (f : Fields -> Fields) (s : Sys) : Sys :=
  {| pool := f (pool s); timers := timers s; next_timer := next_timer s;
     trace := trace s; locals := locals s; microtasks := microtasks s;
     world := world s |}.

Definition with_world (f : X -> X) (s : Sys) : Sys :=
  {| pool := pool s; timers := timers s; next_timer := next_timer s;
     trace := trace s; locals := locals s; microtasks := microtasks s;
     world := f (world s) |}.

Definition emit (e : Event) : Eff.M Sys unit :=
  Eff.modify (fun s =>
    {| pool := pool s; timers := timers s; next_timer := next_timer s;
       trace := Js.push (trace s) e; locals := locals s;
       microtasks := microtasks s; world := world s |}).

Definition set_connections (f : JsMap.t Connection -> JsMap.t Connection)
    (p : Fields) : Fields :=
  {| connections := f (connections p);
     connectionConfigs := connectionConfigs p;
     healthChecks := healthChecks p; retryAttempts := retryAttempts p;
     maxRetries := maxRetries p; retryDelay := retryDelay p;
     healthCheckInterval := healthCheckInterval p |}.

Definition set_connectionConfigs
    (f : JsMap.t IConnectionConfig -> JsMap.t IConnectionConfig)
    (p : Fields) : Fields :=
  {| connections := connections p;
     connectionConfigs := f (connectionConfigs p);
     healthChecks := healthChecks p; retryAttempts := retryAttempts p;
     maxRetries := maxRetries p; retryDelay := retryDelay p;
     healthCheckInterval := healthCheckInterval p |}.

Definition set_healthChecks (f : JsMap.t nat -> JsMap.t nat)
    (p : Fields) : Fields :=
  {| connections := connections p;
     connectionConfigs := connectionConfigs p;
     healthChecks := f (healthChecks p); retryAttempts := retryAttempts p;
     maxRetries := maxRetries p; retryDelay := retryDelay p;
     healthCheckInterval := healthCheckInterval p |}.

Definition set_retryAttempts (f : JsMap.t Z -> JsMap.t Z)
    (p : Fields) : Fields :=
  {| connections := connections p;
     connectionConfigs := connectionConfigs p;
     healthChecks := healthChecks p; retryAttempts := f (retryAttempts p);
     maxRetries := maxRetries p; retryDelay := retryDelay p;
     healthCheckInterval := healthCheckInterval p |}.

(** [setInterval(callback, ms)]. *)
Definition setInterval (j : TimerJob) (ms : Z) : Eff.M Sys nat :=
  fun s =>
    (Exc.Ret (next_timer s),
     {| pool := pool s;
        timers := Js.push (timers s)
                    {| timer_id := next_timer s; job := j; interval := ms |};
        next_timer := S (next_timer s);
        trace := trace s; locals := locals s; microtasks := microtasks s;
        world := world s |}).

(** [clearInterval(handle)]. *)
Definition clearInterval (handle : nat) : Eff.M Sys unit :=
  Eff.modify (fun s =>
    {| pool := pool s;
       timers := filter (fun t => negb (Nat.eqb (timer_id t) handle)) (timers s);
       next_timer := next_timer s;
       trace := trace s; locals := locals s; microtasks := microtasks s;
       world := world s |}).

Variable drivers : Drivers.
Local Open Scope eff_scope.

(** A driver call: it may change the outside world and may throw. *)
Definition call {A} (f : X -> Exc.t A * X) : Eff.M Sys A :=
  fun s => let '(r, x) := f (world s) in (r, with_world (fun _ => x) s).

Definition createMongoDBConnection (config : IConnectionConfig)
    : Eff.M Sys Connection :=
  Eff.lift (import_mongodb drivers) ;;;
  if missing (connectionString config) then
    Eff.lift (Exc.throw_new_Error "MongoDB connection string is required")
  else
    db <- call (mongo_connect drivers
                  (match connectionString config with
                   | Some s => s
                   | None => ""
                   end)
                  {| maxPoolSize := Js.num_or (poolSize config) 10;
                     minPoolSize_ := Js.num_or (minPoolSize config) 1;
                     maxIdleTimeMS := Js.num_or (maxIdleTime config) 30000;
                     serverSelectionTimeoutMS := Js.num_or (timeout config) 5000;
                     connectTimeoutMS := Js.num_or (timeout config) 5000;
                     socketTimeoutMS := Js.num_or (timeout config) 5000 |}
                  (databaseName config)) ;;
    Eff.ret (MongoDb db).

Definition createSQLiteConnection (config : IConnectionConfig)
    : Eff.M Sys Connection :=
  Eff.lift (import_sqlite drivers) ;;;
  if missing (filePath config) then
    Eff.lift (Exc.throw_new_Error "SQLite file path is required")
  else
    db <- call (sqlite_open drivers
                  (match filePath config with
                   | Some s => s
                   | None => ""
                   end)
                  {| verbose_ := match verbose config with
                                 | Some b => b
                                 | None => false
                                 end;
                     fileMustExist_ := match fileMustExist config with
                                       | Some b => b
                                       | None => false
                                       end;
                     timeout_ := Js.num_or (timeout config) 5000 |}) ;;
    Eff.ret (SQLiteDb db).

Definition createHTTPODataConnection (config : IConnectionConfig)
    : Eff.M Sys Connection :=
  if missing (baseUrl config) then
    Eff.lift (Exc.throw_new_Error "HTTP OData base URL is required")
  else
    Eff.ret (HTTPOData (match baseUrl config with
                        | Some s => s
                        | None => ""
                        end)
                       (match headers config with
                        | Some h => h
                        | None => []
                        end)
                       (Js.num_or (timeout config) 5000)).

(** [createConnection(config)]: one connector invocation. *)
Definition createConnection (config : IConnectionConfig)
    : Eff.M Sys Connection :=
  emit (Connect config) ;;;
  if String.eqb (type config) "mongodb" then createMongoDBConnection config
  else if String.eqb (type config) "sqlite" then createSQLiteConnection config
  else if String.eqb (type config) "http-odata"
  then createHTTPODataConnection config
  else Eff.lift (Exc.throw_new_Error
                   ("Unsupported connection type: " ++ type config)).

(** [isConnectionHealthy(connection, config)]. The probe is chosen by
    [config.type]; applied to a connection of another backend it reads
    properties the object does not have. *)
Definition isConnectionHealthy (connection : Connection)
    (config : IConnectionConfig) : Eff.M Sys bool :=
  Eff.try_catch
    (if String.eqb (type config) "mongodb" then
       match connection with
       | MongoDb db => call (mongo_ping drivers db) ;;; Eff.ret true
       | _ => Eff.lift (Exc.throw_TypeError "connection.admin is not a function")
       end
     else if String.eqb (type config) "sqlite" then
       match connection with
       | SQLiteDb db => s <- Eff.get ;; Eff.ret (sqlite_is_open drivers db (world s))
       | _ => Eff.ret false
       end
     else if String.eqb (type config) "http-odata" then
       match connection with
       | HTTPOData url hs ms => call (http_head drivers (url ++ "/") hs ms)
       | _ => Eff.lift (Exc.throw_TypeError
                          "The delay argument must be of type number")
       end
     else Eff.ret false)
    (fun error => emit (WarnHealthCheckFailed error) ;;; Eff.ret false).

(** [removeConnection(connectionId)]. The close call is chosen by the
    stored config's type: [connection.client?.close()] for mongodb,
    [connection.close()] for sqlite, which only a SQLite handle has. *)
Definition removeConnection (connectionId : string) : Eff.M Sys unit :=
  s <- Eff.get ;;
  match JsMap.get connectionId (connections (pool s)) with
  | Some connection =>
      match JsMap.get connectionId (connectionConfigs (pool s)), connection with
      | Some config, MongoDb db =>
          if String.eqb (type config) "mongodb"
          then Eff.modify (with_world (mongo_close drivers db)) ;;;
               emit (Closed connection)
          else if String.eqb (type config) "sqlite"
          then Eff.lift (Exc.throw_TypeError "connection.close is not a function")
          else Eff.ret tt
      | Some config, SQLiteDb db =>
          if String.eqb (type config) "sqlite"
          then Eff.modify (with_world (sqlite_close drivers db)) ;;;
               emit (Closed connection)
          else Eff.ret tt
      | Some config, HTTPOData _ _ _ =>
          if String.eqb (type config) "sqlite"
          then Eff.lift (Exc.throw_TypeError "connection.close is not a function")
          else Eff.ret tt
      | None, _ => Eff.ret tt
      end
  | None => Eff.ret tt
  end ;;;
  Eff.modify (with_pool (set_connections (JsMap.delete connectionId))) ;;;
  Eff.modify (with_pool (set_connectionConfigs (JsMap.delete connectionId))) ;;;
  Eff.modify (with_pool (set_retryAttempts (JsMap.delete connectionId))) ;;;
  (* Clear health check *)
  s <- Eff.get ;;
  match JsMap.get connectionId (healthChecks (pool s)) with
  | Some handle =>
      clearInterval handle ;;;
      Eff.modify (with_pool (set_healthChecks (JsMap.delete connectionId)))
  | None => Eff.ret tt
  end.

(** [startConnectionHealthCheck(connectionId, config)]. *)
Definition startConnectionHealthCheck (connectionId : string)
    (config : IConnectionConfig) : Eff.M Sys unit :=
  s <- Eff.get ;;
  (* Clear existing health check *)
  match JsMap.get connectionId (healthChecks (pool s)) with
  | Some handle => clearInterval handle
  | None => Eff.ret tt
  end ;;;
  (* Start new health check *)
  interval <- setInterval (ConnectionHealthCheck connectionId config)
                          (healthCheckInterval (pool s)) ;;
  Eff.modify (with_pool (set_healthChecks (JsMap.set connectionId interval))).

(** [lastError?.message] inside a template literal. *)
Definition lastError_message (lastError : option Exc.Thrown) : string :=
  match lastError with
  | Some (Exc.Error m _) => m
  | _ => "undefined"
  end.

(** The message of the error [createConnectionWithRetry] throws. *)
Definition exhausted_message (connectionId : string) (maxAttempts : Z)
    (lastError : option Exc.Thrown) : string :=
  "Failed to establish connection " ++ connectionId ++ " after "
  ++ Js.number_toString maxAttempts ++ " attempts: "
  ++ lastError_message lastError.

(** [this.sleep(ms)]. *)
Definition sleep (ms : Z) : Eff.M Sys unit := emit (Sleep ms).

(** One turn of the loop of [createConnectionWithRetry]: the [try] block
    returns the connection ([inl]); the [catch] block falls through to the
    next turn with the error ([inr]). *)
Definition attempt_once (connectionId : string) (config : IConnectionConfig)
    (maxAttempts attempt : Z) : Eff.M Sys (Connection + Exc.Thrown) :=
  Eff.try_catch
    (connection <- createConnection config ;;
     (* Store connection and config *)
     Eff.modify (with_pool (set_connections (JsMap.set connectionId connection))) ;;;
     Eff.modify (with_pool (set_connectionConfigs (JsMap.set connectionId config))) ;;;
     Eff.modify (with_pool (set_retryAttempts (JsMap.set connectionId 0))) ;;;
     (* Start health check for this connection *)
     startConnectionHealthCheck connectionId config ;;;
     emit (LogEstablished connectionId attempt) ;;;
     Eff.ret (inl connection))
    (fun error =>
       s <- Eff.get ;;
       let currentRetries :=
         Js.num_or (JsMap.get connectionId (retryAttempts (pool s))) 0 in
       Eff.modify (with_pool (set_retryAttempts
                     (JsMap.set connectionId (currentRetries + 1)))) ;;;
       emit (WarnAttemptFailed connectionId attempt error) ;;;
       (if attempt <? maxAttempts then
          let delay := retryDelay (pool s) * 2 ^ (attempt - 1) in
          emit (LogRetrying connectionId delay) ;;;
          sleep delay
        else Eff.ret tt) ;;;
       Eff.ret (inr error)).

(** The loop [for (attempt = ...; attempt <= maxAttempts; attempt++)],
    with [remaining] turns to go, followed by the final [throw]. *)
Fixpoint retry_loop (remaining : nat) (connectionId : string)
    (config : IConnectionConfig) (maxAttempts attempt : Z)
    (lastError : option Exc.Thrown) : Eff.M Sys Connection :=
  match remaining with
  | O =>
      Eff.lift (Exc.throw_new_Error
                  (exhausted_message connectionId maxAttempts lastError))
  | S remaining' =>
      r <- attempt_once connectionId config maxAttempts attempt ;;
      match r with
      | inl connection => Eff.ret connection
      | inr error =>
          retry_loop remaining' connectionId config maxAttempts (attempt + 1)
                     (Some error)
      end
  end.

(** [createConnectionWithRetry(connectionId, config)]. *)
Definition createConnectionWithRetry (connectionId : string)
    (config : IConnectionConfig) : Eff.M Sys Connection :=
  s <- Eff.get ;;
  let maxAttempts := maxRetries (pool s) + 1 in
  retry_loop (Z.to_nat maxAttempts) connectionId config maxAttempts 1 None.

(** [getConnection(connectionId, config)]. *)
Definition getConnection (connectionId : string) (config : IConnectionConfig)
    : Eff.M Sys Connection :=
  s <- Eff.get ;;
  (* Check if connection exists and is healthy *)
  match JsMap.get connectionId (connections (pool s)) with
  | Some connection =>
      healthy <- isConnectionHealthy connection config ;;
      if healthy then Eff.ret connection
      else createConnectionWithRetry connectionId config
  | None =>
      (* Create new connection with retry mechanism *)
      createConnectionWithRetry connectionId config
  end.

(** A fresh local variable [let v = 0], kept alive by the closures that
    capture it. *)
Definition new_local : Eff.M Sys nat :=
  fun s =>
    (Exc.Ret (List.length (locals s)),
     {| pool := pool s; timers := timers s; next_timer := next_timer s;
        trace := trace s; locals := Js.push (locals s) 0;
        microtasks := microtasks s; world := world s |}).

Definition read_local (ref : nat) : Eff.M Sys Z :=
  s <- Eff.get ;; Eff.ret (nth ref (locals s) 0).

(** [promise.then(cb)]: the callback is queued, not run. *)
Definition then_ (task : Microtask) : Eff.M Sys unit :=
  Eff.modify (fun s =>
    {| pool := pool s; timers := timers s; next_timer := next_timer s;
       trace := trace s; locals := locals s;
       microtasks := Js.push (microtasks s) task; world := world s |}).

(** The body of the [forEach] callback of [getConnectionStats], for one
    entry of [connections]; it returns the new [totalRetries]. *)
Definition stats_visit (healthyConnections : nat) (totalRetries : Z)
    (entry : string * Connection) : Eff.M Sys Z :=
  let '(connectionId, connection) := entry in
  s <- Eff.get ;;
  match JsMap.get connectionId (connectionConfigs (pool s)) with
  | Some config =>
      settled <- isConnectionHealthy connection config ;;
      then_ {| isHealthy := settled;
               healthyConnections_ref := healthyConnections |}
  | None => Eff.ret tt
  end ;;;
  s <- Eff.get ;;
  Eff.ret (totalRetries
           + Js.num_or (JsMap.get connectionId (retryAttempts (pool s))) 0).

Fixpoint stats_forEach (healthyConnections : nat) (totalRetries : Z)
    (entries : list (string * Connection)) : Eff.M Sys Z :=
  match entries with
  | [] => Eff.ret totalRetries
  | entry :: rest =>
      totalRetries' <- stats_visit healthyConnections totalRetries entry ;;
      stats_forEach healthyConnections totalRetries' rest
  end.

(** [getConnectionStats()]; [now] is the clock reading. *)
Definition getConnectionStats (now : Z) : Eff.M Sys IConnectionStats :=
  s <- Eff.get ;;
  let totalConnections := JsMap.size (connections (pool s)) in
  healthyConnections <- new_local ;;
  totalRetries <- stats_forEach healthyConnections 0 (connections (pool s)) ;;
  active <- read_local healthyConnections ;;
  Eff.ret {| connected := 0 <? totalConnections;
             uptime := now;
             activeConnections := active;
             totalQueries := 0;
             averageQueryTime := 0;
             lastConnectionAttempt := now;
             lastSuccessfulConnection := now |}.

(** The event loop draining the microtask queue once the running function
    has returned. *)
Definition run_microtask (task : Microtask) (s : Sys) : Sys :=
  {| pool := pool s; timers := timers s; next_timer := next_timer s;
     trace := trace s;
     locals :=
       if isHealthy task
       then (firstn (healthyConnections_ref task) (locals s)
             ++ match skipn (healthyConnections_ref task) (locals s) with
                | v :: rest => (v + 1) :: rest
                | [] => []
                end)%list
       else locals s;
     microtasks := microtasks s; world := world s |}.

Definition run_microtasks (s : Sys) : Sys :=
  let s' := fold_left (fun acc task => run_microtask task acc) (microtasks s) s in
  {| pool := pool s'; timers := timers s'; next_timer := next_timer s';
     trace := trace s'; locals := locals s'; microtasks := [];
     world := world s' |}.

Fixpoint removeAll (ids : list string) : Eff.M Sys unit :=
  match ids with
  | [] => Eff.ret tt
  | connectionId :: rest => removeConnection connectionId ;;; removeAll rest
  end.

Fixpoint clearAll (handles : list nat) : Eff.M Sys unit :=
  match handles with
  | [] => Eff.ret tt
  | handle :: rest => clearInterval handle ;;; clearAll rest
  end.

(** [closeAll()]. *)
Definition closeAll : Eff.M Sys unit :=
  s <- Eff.get ;;
  removeAll (JsMap.keys (connections (pool s))) ;;;
  (* Clear all health checks *)
  s <- Eff.get ;;
  clearAll (map snd (healthChecks (pool s))) ;;;
  Eff.modify (with_pool (set_healthChecks (fun _ => JsMap.empty))).

(** The callback [startConnectionHealthCheck] hands to [setInterval]. *)
Definition connection_health_tick (connectionId : string)
    (config : IConnectionConfig) : Eff.M Sys unit :=
  s <- Eff.get ;;
  match JsMap.get connectionId (connections (pool s)) with
  | Some connection =>
      healthy <- isConnectionHealthy connection config ;;
      if healthy then Eff.ret tt
      else emit (WarnUnhealthy connectionId) ;;; removeConnection connectionId
  | None => Eff.ret tt
  end.

(** The callback [startHealthChecks] hands to [setInterval]: it probes
    every connection that has a config and only reports a failed probe
    (when the probe's promise settles). *)
Fixpoint global_health_visit (entries : list (string * Connection))
    : Eff.M Sys unit :=
  match entries with
  | [] => Eff.ret tt
  | (connectionId, connection) :: rest =>
      s <- Eff.get ;;
      match JsMap.get connectionId (connectionConfigs (pool s)) with
      | Some config =>
          healthy <- isConnectionHealthy connection config ;;
          if healthy then Eff.ret tt
          else emit (WarnFailedHealthCheck connectionId)
      | None => Eff.ret tt
      end ;;;
      global_health_visit rest
  end.

Definition global_health_tick : Eff.M Sys unit :=
  s <- Eff.get ;; global_health_visit (connections (pool s)).

(** [startHealthChecks()]: the pool-wide interval. Its handle is not
    kept. *)
Definition startHealthChecks : Eff.M Sys unit :=
  s <- Eff.get ;;
  setInterval GlobalHealthCheck (healthCheckInterval (pool s)) ;;;
  Eff.ret tt.

(** The field initialisers of the class. *)
Definition initial_fields : Fields :=
  {| connections := JsMap.empty;
     connectionConfigs := JsMap.empty;
     healthChecks := JsMap.empty;
     retryAttempts := JsMap.empty;
     maxRetries := 3;
     retryDelay := 1000;
     healthCheckInterval := 30000 |}.

(** [new ConnectionPool()] in a process with no timers yet. *)
Definition new_pool (x : X) : Sys :=
  snd (startHealthChecks
         {| pool := initial_fields; timers := []; next_timer := 0;
            trace := []; locals := []; microtasks := []; world := x |}).

(** The stored config of a sqlite connection belongs to a SQLite handle.
    [createConnectionWithRetry] stores the two together, so every pool
    built through the class satisfies this. *)
Definition consistent_at (conns : JsMap.t Connection)
    (configs : JsMap.t IConnectionConfig) (connectionId : string) : bool :=
  match JsMap.get connectionId conns, JsMap.get connectionId configs with
  | Some (SQLiteDb _), _ => true
  | Some _, Some config => negb (String.eqb (type config) "sqlite")
  | _, _ => true
  end.

Definition consistent (s : Sys) : bool :=
  forallb (consistent_at (connections (pool s)) (connectionConfigs (pool s)))
          (JsMap.keys (connections (pool s))).

End Pool.

Arguments MongoDb {Handle} db.
Arguments SQLiteDb {Handle} db.
Arguments HTTPOData {Handle} baseUrl headers timeout.
Arguments with_pool {Handle X}.
Arguments with_world {Handle X}.
Arguments emit {Handle X}.
Arguments setInterval {Handle X}.
Arguments clearInterval {Handle X}.
Arguments call {Handle X}.
Arguments createMongoDBConnection {Handle X}.
Arguments createSQLiteConnection {Handle X}.
Arguments createHTTPODataConnection {Handle X}.
Arguments createConnection {Handle X}.
Arguments isConnectionHealthy {Handle X}.
Arguments removeConnection {Handle X}.
Arguments startConnectionHealthCheck {Handle X}.
Arguments sleep {Handle X}.
Arguments attempt_once {Handle X}.
Arguments retry_loop {Handle X}.
Arguments createConnectionWithRetry {Handle X}.
Arguments getConnection {Handle X}.
Arguments new_local {Handle X}.
Arguments read_local {Handle X}.
Arguments then_ {Handle X}.
Arguments stats_visit {Handle X}.
Arguments stats_forEach {Handle X}.
Arguments getConnectionStats {Handle X}.
Arguments run_microtask {Handle X}.
Arguments run_microtasks {Handle X}.
Arguments removeAll {Handle X}.
Arguments clearAll {Handle X}.
Arguments closeAll {Handle X}.
Arguments connection_health_tick {Handle X}.
Arguments global_health_visit {Handle X}.
Arguments global_health_tick {Handle X}.
Arguments startHealthChecks {Handle X}.
Arguments new_pool {Handle X}.
Arguments consistent {Handle X}.
Arguments pool {Handle X}.
Arguments timers {Handle X}.
Arguments next_timer {Handle X}.
Arguments trace {Handle X}.
Arguments locals {Handle X}.
Arguments microtasks {Handle X}.
Arguments world {Handle X}.
Arguments import_mongodb {Handle X}.
Arguments mongo_connect {Handle X}.
Arguments import_sqlite {Handle X}.
Arguments sqlite_open {Handle X}.
Arguments mongo_ping {Handle X}.
Arguments sqlite_is_open {Handle X}.
Arguments http_head {Handle X}.
Arguments mongo_close {Handle X}.
Arguments sqlite_close {Handle X}.
Arguments set_connections {Handle}.
Arguments set_connectionConfigs {Handle}.
Arguments set_healthChecks {Handle}.
Arguments set_retryAttempts {Handle}.
Arguments initial_fields {Handle}.
Arguments connections {Handle}.
Arguments connectionConfigs {Handle}.
Arguments healthChecks {Handle}.
Arguments retryAttempts {Handle}.
Arguments maxRetries {Handle}.
Arguments retryDelay {Handle}.
Arguments healthCheckInterval {Handle}.
Arguments consistent_at {Handle}.
Arguments Connect {Handle}.
Arguments Sleep {Handle}.
Arguments Closed {Handle}.
Arguments LogEstablished {Handle}.
Arguments WarnAttemptFailed {Handle}.
Arguments LogRetrying {Handle}.
Arguments WarnUnhealthy {Handle}.
Arguments WarnFailedHealthCheck {Handle}.
Arguments WarnHealthCheckFailed {Handle}.

(** *** Reading a trace *)

(** The two kinds of event that make up the retry schedule. *)
Inductive Timing : Type :=
| Invoke
| Wait (ms : Z).

Definition timing_of {Handle} (e : Event Handle) : list Timing :=
  match e with
  | Connect _ => [Invoke]
  | Sleep ms => [Wait ms]
  | _ => []
  end.

(** The connector invocations and sleeps of a trace, in order. *)
Definition timing {Handle} (evs : list (Event Handle)) : list Timing :=
  flat_map timing_of evs.

(** The number of connector invocations in a schedule. *)
Definition invocations (t : list Timing) : nat :=
  List.length (List.filter (fun x => match x with
                                     | Invoke => true
                                     | Wait _ => false
                                     end) t).

(** The waits of a schedule, in order. *)
Definition waits (t : list Timing) : list Z :=
  flat_map (fun x => match x with Wait ms => [ms] | Invoke => [] end) t.

(** The error of the last failed attempt a trace reports. *)
Fixpoint last_failure {Handle} (evs : list (Event Handle))
    : option Exc.Thrown :=
  match evs with
  | [] => None
  | e :: rest =>
      match last_failure rest with
      | Some error => Some error
      | None =>
          match e with
          | WarnAttemptFailed _ _ error => Some error
          | _ => None
          end
      end
  end.

(** The number of failed attempts a trace reports. *)
Definition failures {Handle} (evs : list (Event Handle)) : nat :=
  List.length (List.filter (fun e => match e with
                                     | WarnAttemptFailed _ _ _ => true
                                     | _ => false
                                     end) evs).

(** The events a probe with answer [b] adds: none, or the warning of its
    [catch] block, which answers false. *)
Definition probe_events {Handle} (b : bool) (evs : list (Event Handle))
    : Prop :=
  evs = [] \/ (b = false /\ exists e, evs = [WarnHealthCheckFailed e]).

(** The state after a driver call and some new events: only [world] and
    [trace] move. *)
Definition moved {Handle X} (s : Sys Handle X) (x : X)
    (evs : list (Event Handle)) : Sys Handle X :=
  {| pool := pool s; timers := timers s; next_timer := next_timer s;
     trace := (trace s ++ evs)%list; locals := locals s;
     microtasks := microtasks s; world := x |}.

(** [m] invocations numbered from [k], a wait of
    [baseDelay * 2^(attempt-1)] after each but the last. *)
Fixpoint schedule (baseDelay : Z) (k : Z) (m : nat) : list Timing :=
  match m with
  | O => []
  | S O => [Invoke]
  | S m' => Invoke :: Wait (baseDelay * 2 ^ (k - 1)) :: schedule baseDelay (k + 1) m'
  end.

(** The handles of the active interval timers. *)
Definition timer_ids {Handle X} (s : Sys Handle X) : list nat :=
  map timer_id (timers s).

(** The timer [handle] is cancelled, or [healthChecks] still holds it for
    [connectionId]. *)
Definition cleared_or_registered {Handle X} (s : Sys Handle X)
    (connectionId : string) (handle : nat) : Prop :=
  ~ In handle (timer_ids s)
  \/ JsMap.get connectionId (healthChecks (pool s)) = Some handle.

(** Every invocation of the connector for [config] throws. *)
Definition always_fails {Handle X} (drivers : Drivers Handle X)
    (config : IConnectionConfig) : Prop :=
  forall s, exists e s', createConnection drivers config s = (Exc.Throw e, s').

(** There is no connection for [connectionId], or the one there fails its
    probe. *)
Definition no_healthy_connection {Handle X} (drivers : Drivers Handle X)
    (connectionId : string) (config : IConnectionConfig) (s : Sys Handle X)
    : Prop :=
  match JsMap.get connectionId (connections (pool s)) with
  | Some connection =>
      fst (isConnectionHealthy drivers connection config s) = Exc.Ret false
  | None => True
  end.

End ConnectionPool.

(* ================================================================== *)
(** ** Concrete queries, drivers and pools used as examples *)
(* ================================================================== *)

Module Demo.
Import Query.

Definition age_gt_18 : IQueryFilter := leaf "age" "gt" (Js.Num 18).
Definition name_eq_x : IQueryFilter := leaf "name" "eq" (Js.Str "x").

(** A leaf with an operator outside the data model. *)
Definition age_like_18 : IQueryFilter := leaf "age" "like" (Js.Num 18).
Definition age_eq_18 : IQueryFilter := leaf "age" "eq" (Js.Num 18).

Definition only_filter (f : IQueryFilter) : IQuery :=
  {| filter := Some f; select := None; orderBy := None;
     pagination := None; count := None |}.

Definition no_filter : IQuery :=
  {| filter := None; select := None; orderBy := None;
     pagination := None; count := None |}.

(** [{pagination: {take: n}}]. *)
Definition first_page (n : Z) : IQuery :=
  {| filter := None; select := None; orderBy := None;
     pagination := Some {| skip := None; take := Some n |}; count := None |}.

(** [{pagination: {skip: n}}]: pagination without [take]. *)
Definition skip_only (n : Z) : IQuery :=
  {| filter := None; select := None; orderBy := None;
     pagination := Some {| skip := Some n; take := None |}; count := None |}.

Definition user (name : string) (age : Z) : Js.Value :=
  Js.Obj [("name", Js.Str name); ("age", Js.Num age)].

(** Three rows of a table (or documents of a collection) [users]. *)
Definition three_users : list Js.Value :=
  [user "ann" 18; user "bob" 30; user "cy" 18].

Definition num_eqb (a b : Js.Value) : bool :=
  match a, b with
  | Js.Num x, Js.Num y => x =? y
  | _, _ => false
  end.

(** A database with the single table [users], answering the statements
    the examples run the way SQLite answers them; any other statement
    fails as a statement on a missing table does. *)
Definition sqlite_driver : SQLiteProvider.Driver (list Js.Value) :=
  {| SQLiteProvider.stmt_all := fun db sql params =>
       if String.eqb sql "SELECT * FROM users" then Exc.Ret db
       else if String.eqb sql "SELECT * FROM users LIMIT 2"
       then Exc.Ret (firstn 2 db)
       else if String.eqb sql "SELECT * FROM users WHERE age = ?"
       then Exc.Ret (List.filter (fun row =>
                               num_eqb (Js.opt_prop row "age")
                                       (nth 0 params Js.Undefined)) db)
       else Exc.Throw (Exc.Error "no such table"
                                 "SqliteError: no such table");
     SQLiteProvider.stmt_get := fun db sql params =>
       if String.eqb sql "SELECT COUNT(*) as count FROM users"
       then Exc.Ret (Js.Obj [("count", Js.Num (Z.of_nat (List.length db)))])
       else Exc.Throw (Exc.Error "no such table"
                                 "SqliteError: no such table");
     SQLiteProvider.stmt_run := fun db sql params =>
       Exc.Throw (Exc.Error "attempt to write a readonly database"
                            "SqliteError: attempt to write a readonly database")
  |}.

Definition sqlite_connected : SQLiteProvider.State (list Js.Value) :=
  {| SQLiteProvider.database := Some three_users;
     SQLiteProvider.connected := true;
     SQLiteProvider.totalQueries := 0;
     SQLiteProvider.queryTimes := [] |}.

(** What the cursor calls do to the documents a [find] matches. *)
Definition apply_call (docs : list Js.Value) (c : MongoDBProvider.CursorCall)
    : list Js.Value :=
  match c with
  | MongoDBProvider.sort _ => docs
  | MongoDBProvider.skip n => skipn (Z.to_nat n) docs
  | MongoDBProvider.limit n => firstn (Z.to_nat n) docs
  end.

(** A database with the single collection [users], answering [find({})]
    and [countDocuments({})]; anything else fails. *)
Definition mongo_driver : MongoDBProvider.Driver (list Js.Value) :=
  let refused {A} : Exc.t A :=
    Exc.Throw (Exc.Error "ns not found" "MongoServerError: ns not found") in
  {| MongoDBProvider.toArray := fun db name cursor =>
       match MongoDBProvider.find_filter cursor with
       | Js.Obj [] =>
           if String.eqb name "users"
           then Exc.Ret (fold_left apply_call (MongoDBProvider.calls cursor) db)
           else refused
       | _ => refused
       end;
     MongoDBProvider.countDocuments := fun db name query =>
       match query with
       | Js.Obj [] =>
           if String.eqb name "users"
           then Exc.Ret (Js.Num (Z.of_nat (List.length db)))
           else refused
       | _ => refused
       end;
     MongoDBProvider.insertOne := fun _ _ _ => refused;
     MongoDBProvider.findOne := fun _ _ _ => refused;
     MongoDBProvider.findOneAndUpdate := fun _ _ _ _ => refused;
     MongoDBProvider.deleteOne := fun _ _ _ => refused;
     MongoDBProvider.ObjectId := fun id => Exc.Ret (Js.Obj [("$oid", Js.Str id)])
  |}.

Definition mongo_connected : MongoDBProvider.State (list Js.Value) :=
  {| MongoDBProvider.database := Some three_users;
     MongoDBProvider.connected := true;
     MongoDBProvider.totalQueries := 0;
     MongoDBProvider.queryTimes := [] |}.

(** An OData service that answers every request with status 500. *)
Definition failing_fetch (url : string) (init : HTTPODataProvider.RequestInit)
    : Exc.t HTTPODataProvider.Response :=
  Exc.Ret {| HTTPODataProvider.ok := false;
             HTTPODataProvider.status := 500;
             HTTPODataProvider.statusText := "Internal Server Error";
             HTTPODataProvider.response_headers := [];
             HTTPODataProvider.text := Exc.Ret "";
             HTTPODataProvider.json := Exc.Ret Js.Null |}.

Definition http_state : HTTPODataProvider.State :=
  {| HTTPODataProvider.baseUrl := "https://example.org/odata";
     HTTPODataProvider.authHeaders := [];
     HTTPODataProvider.connected := true;
     HTTPODataProvider.totalQueries := 0;
     HTTPODataProvider.queryTimes := [] |}.

Import ConnectionPool.

Definition sqlite_config : IConnectionConfig :=
  {| type := "sqlite"; connectionString := None; databaseName := None;
     filePath := Some ":memory:"; baseUrl := None; headers := None;
     poolSize := None; minPoolSize := None; maxIdleTime := None;
     timeout := None; verbose := None; fileMustExist := None |}.

(** A sqlite config without a file path: every connector invocation fails
    with [SQLite file path is required]. *)
Definition bad_config : IConnectionConfig :=
  {| type := "sqlite"; connectionString := None; databaseName := None;
     filePath := None; baseUrl := None; headers := None;
     poolSize := None; minPoolSize := None; maxIdleTime := None;
     timeout := None; verbose := None; fileMustExist := None |}.

Definition cannot_open : Exc.Thrown :=
  Exc.Error "unable to open database file"
            "SqliteError: unable to open database file".

(** Drivers over a world that is the number of times opening a SQLite
    file will still fail; handles are numbers. Every handle stays open
    and answers its probe. *)
Definition flaky_drivers : Drivers nat nat :=
  {| import_mongodb := Exc.Ret tt;
     mongo_connect := fun _ _ _ x =>
       (Exc.Throw (Exc.Error "connect ECONNREFUSED"
                             "MongoServerSelectionError: connect ECONNREFUSED"),
        x);
     import_sqlite := Exc.Ret tt;
     sqlite_open := fun _ _ x =>
       match x with
       | O => (Exc.Ret 7%nat, O)
       | S x' => (Exc.Throw cannot_open, x')
       end;
     mongo_ping := fun _ x => (Exc.Ret tt, x);
     sqlite_is_open := fun _ _ => true;
     http_head := fun _ _ _ x => (Exc.Ret true, x);
     mongo_close := fun _ x => x;
     sqlite_close := fun _ x => x |}.

(** A pool on [flaky_drivers] whose first [failures] attempts to open a
    SQLite file fail. *)
Definition fresh_pool (failures : nat) : Sys nat nat := new_pool failures.

(** The pool after one successful [getConnection]. *)
Definition pool_with_main : Sys nat nat :=
  snd (getConnection flaky_drivers "main" sqlite_config (fresh_pool 0)).

End Demo.

(* ================================================================== *)
(** ** More built-ins *)
(* ================================================================== *)

Module JsText.

(** [String.prototype.toLowerCase] on the ASCII letters. Outside ASCII it
    leaves the text as it is, where JS follows Unicode (the Kelvin sign,
    for one, becomes [k]); it serves the type maps, which look for ASCII
    words without a [k] in the result. *)
Definition lower_char (c : ascii) : ascii :=
  let n := nat_of_ascii c in
  if Js.between 65 90 n then ascii_of_nat (n + 32) else c.

Fixpoint toLowerCase (s : string) : string :=
  match s with
  | EmptyString => EmptyString
  | String c r => String (lower_char c) (toLowerCase r)
  end.

(** How often the character [c] occurs in [s]. *)
Fixpoint count_char (c : ascii) (s : string) : nat :=
  match s with
  | EmptyString => O
  | String d r => (if Ascii.eqb c d then 1 else 0) + count_char c r
  end.

(** The body of an OData string literal read back: a doubled single quote
    stands for one quote. *)
Fixpoint undouble (s : string) : string :=
  match s with
  | EmptyString => EmptyString
  | String c r =>
      match r with
      | String d r' =>
          if (Ascii.eqb c "'" && Ascii.eqb d "'")%bool
          then String "'" (undouble r')
          else String c (undouble r)
      | EmptyString => String c EmptyString
      end
  end.

(** [a.includes(x)] on an array of strings. *)
Definition array_includes (a : list string) (x : string) : bool :=
  existsb (String.eqb x) a.

(** [s] without its last character, when that is a single quote. *)
Fixpoint literal_body (s : string) : option string :=
  match s with
  | EmptyString => None
  | String c EmptyString =>
      if Ascii.eqb c "'" then Some EmptyString else None
  | String c r => option_map (String c) (literal_body r)
  end.

(** An OData string literal read back to the string it denotes. *)
Definition read_literal (lit : string) : option string :=
  match lit with
  | String c r =>
      if Ascii.eqb c "'" then option_map undouble (literal_body r) else None
  | EmptyString => None
  end.





End JsText.

(* ================================================================== *)
(** ** SQLiteProvider: schema and raw statements *)
(* ================================================================== *)

Module SQLiteSchema.
Import Result SQLiteProvider.

(** [mapSQLiteTypeToOData(sqliteType)]. *)
Definition mapSQLiteTypeToOData (sqliteType : string) : string :=
  let type := JsText.toLowerCase sqliteType in
  if (Js.includesb type "int" || Js.includesb type "integer")%bool
  then "Int32"
  else if (Js.includesb type "real" || Js.includesb type "float"
           || Js.includesb type "double")%bool
  then "Double"
  else if (Js.includesb type "text" || Js.includesb type "varchar"
           || Js.includesb type "char")%bool
  then "String"
  else if Js.includesb type "blob" then "Binary"
  else if Js.includesb type "bool" then "Boolean"
  else "String".

(** [mapODataTypeToSQLite(odataType)]. *)
Definition mapODataTypeToSQLite (odataType : string) : string :=
  let type := JsText.toLowerCase odataType in
  if (String.eqb type "int32" || String.eqb type "int64")%bool then "INTEGER"
  else if (String.eqb type "double" || String.eqb type "decimal")%bool
  then "REAL"
  else if String.eqb type "string" then "TEXT"
  else if String.eqb type "boolean" then "BOOLEAN"
  else if (String.eqb type "date" || String.eqb type "datetime")%bool
  then "TEXT"
  else if String.eqb type "binary" then "BLOB"
  else "TEXT".

(** [field.defaultValue]: absent, a function, or a value. *)
Inductive DefaultValue : Type :=
| NoDefault
| FunctionDefault
| ValueDefault (v : Js.Value).

(** A field of the schema handed to [createTable]; the flags are read
    for their truthiness. *)
Record FieldDef : Type := {
  field_type : string;
  primaryKey : bool;
  autoIncrement : bool;
  nullable : bool;
  defaultValue : DefaultValue
}.

(** The column definition [createTable] builds for one entry of
    [schema.fields]. *)
Definition columnDef (name : string) (field : FieldDef) : string :=
  let sqliteType := mapODataTypeToSQLite (field_type field) in
  let columnDef := name ++ " " ++ sqliteType in
  let columnDef :=
    if primaryKey field then
      let columnDef := columnDef ++ " PRIMARY KEY" in
      if autoIncrement field then columnDef ++ " AUTOINCREMENT" else columnDef
    else if autoIncrement field then
      (* For non-primary auto-increment fields, use INTEGER PRIMARY KEY *)
      name ++ " INTEGER PRIMARY KEY AUTOINCREMENT"
    else columnDef in
  let columnDef :=
    if negb (nullable field) then columnDef ++ " NOT NULL" else columnDef in
  match defaultValue field with
  | NoDefault | ValueDefault Js.Undefined => columnDef
  | FunctionDefault => columnDef
  | ValueDefault (Js.Str s) => columnDef ++ " DEFAULT '" ++ s ++ "'"
  | ValueDefault v => columnDef ++ " DEFAULT " ++ Js.toString v
  end.

(** The statement [createTable] runs. *)
Definition createTableSQL (tableName : string)
    (fields : list (string * FieldDef)) : string :=
  "CREATE TABLE IF NOT EXISTS " ++ tableName ++ " ("
  ++ Js.join ", " (map (fun nf => columnDef (fst nf) (snd nf)) fields) ++ ")".

Section Methods.
Context {DB : Type} (driver : Driver DB).
Local Open Scope eff_scope.

(** [createTable(tableName, schema)]: it rethrows. *)
Definition createTable (tableName : string)
    (fields : list (string * FieldDef)) : Eff.M (State DB) unit :=
  Eff.try_catch
    (db_run driver (createTableSQL tableName fields) [] ;;; Eff.ret tt)
    (fun error =>
       Eff.lift (Exc.throw_new_Error
                   ("Failed to create table: " ++ Exc.message_of error))).

(** [dropTable(tableName)]: it rethrows. *)
Definition dropTable (tableName : string) : Eff.M (State DB) unit :=
  Eff.try_catch
    (db_run driver ("DROP TABLE IF EXISTS " ++ tableName) [] ;;; Eff.ret tt)
    (fun error =>
       Eff.lift (Exc.throw_new_Error
                   ("Failed to drop table: " ++ Exc.message_of error))).

(** [exists(entityName, id)]. *)
Definition exists_ (entityName : string) (id : Js.Value)
    : Eff.M (State DB) bool :=
  Eff.try_catch
    (result <- db_get driver
                 ("SELECT 1 FROM " ++ entityName ++ " WHERE rowid = ?") [id] ;;
     Eff.ret (match result with
              | Js.Undefined => false
              | _ => true
              end))
    (fun error => Eff.ret false).

(** [executeSQL(sql, params?)]. *)
Definition executeSQL (sql : string) (params : option (list Js.Value))
    (startTime endTime : Z) : Eff.M (State DB) ICrudResult :=
  Eff.try_catch
    (count_query ;;;
     result <- db_run driver sql (match params with
                                  | Some ps => ps
                                  | None => []
                                  end) ;;
     let executionTime := endTime - startTime in
     push_time executionTime ;;;
     Eff.ret {| crud_success := true;
                crud_data := Some (Js.Arr []);
                crud_id := None;
                crud_errors := None;
                crud_metadata :=
                  Some [("executionTime", Js.Num executionTime);
                        ("rowsAffected", Js.Num (changes result));
                        ("lastInsertId", lastInsertRowid result)] |})
    (fun error =>
       Eff.ret (crud_failed "SQL_EXECUTION_FAILED" "SQL execution failed: "
                            error)).

(** A call that is counted: it returns, [totalQueries] has gone up by
    one, and [queryTimes] has gained [elapsed] exactly when the result
    says [success]. *)
Definition counted {R} (success : R -> bool) (elapsed : Z)
    (m : Eff.M (State DB) R) (st : State DB) : Prop :=
  exists r st',
    m st = (Exc.Ret r, st')
    /\ totalQueries st' = totalQueries st + 1
    /\ queryTimes st'
       = (if success r then Js.push (queryTimes st) elapsed
          else queryTimes st)
    /\ connected st' = connected st.

End Methods.

End SQLiteSchema.

(* ================================================================== *)
(** ** MongoDBProvider: exists *)
(* ================================================================== *)

Module MongoDBExists.
Import MongoDBProvider.

Section Methods.
Context {DB : Type} (driver : Driver DB).
(** [collection.findOne(filter, options)]. *)
Variable findOne_with : DB -> string -> Js.Value -> Js.Value -> Exc.t Js.Value.
Local Open Scope eff_scope.

(** [exists(entityName, id)]. *)
Definition exists_ (entityName : string) (id : Js.Value)
    : Eff.M (State DB) bool :=
  Eff.try_catch
    (collection <- db_read (fun db => Exc.Ret db) ;;
     objectId <- convertToObjectId driver id ;;
     result <- Eff.lift
                 (findOne_with collection entityName
                    (Js.Obj [("_id", objectId)])
                    (Js.Obj [("projection", Js.Obj [("_id", Js.Num 1)])])) ;;
     Eff.ret (match result with
              | Js.Null => false
              | _ => true
              end))
    (fun error => Eff.ret false).

(** A call that is counted: it returns, [totalQueries] has gone up by
    one, and [queryTimes] has gained [elapsed] exactly when the result
    says [success]. *)
Definition counted {R} (success : R -> bool) (elapsed : Z)
    (m : Eff.M (State DB) R) (st : State DB) : Prop :=
  exists r st',
    m st = (Exc.Ret r, st')
    /\ totalQueries st' = totalQueries st + 1
    /\ queryTimes st'
       = (if success r then Js.push (queryTimes st) elapsed
          else queryTimes st)
    /\ connected st' = connected st.

(** A call that is counted, but whose running time may have been
    recorded before it failed. *)
Definition counted_early {R} (success : R -> bool) (elapsed : Z)
    (m : Eff.M (State DB) R) (st : State DB) : Prop :=
  exists r st',
    m st = (Exc.Ret r, st')
    /\ totalQueries st' = totalQueries st + 1
    /\ (queryTimes st' = Js.push (queryTimes st) elapsed
        \/ success r = false /\ queryTimes st' = queryTimes st)
    /\ connected st' = connected st.

End Methods.

End MongoDBExists.

(* ================================================================== *)
(** ** HTTPODataProvider: construction, headers and capabilities *)
(* ================================================================== *)

Module HTTPODataService.
Import HTTPODataProvider.

(** [IServiceCapabilities]. *)
Record IServiceCapabilities : Type := {
  supportedVersions : list string;
  supportedQueryOptions : list string;
  supportedFunctions : list string;
  maxPageSize : option Z;
  supportsBatch : bool;
  supportsChangeTracking : bool
}.

(** The provider with the field the query path does not use. *)
Record Provider : Type := {
  core : State;
  serviceCapabilities : option IServiceCapabilities
}.

(** [s.endsWith('/') ? s.slice(0, -1) : s]. *)
Fixpoint strip_trailing_slash (s : string) : string :=
  match s with
  | EmptyString => EmptyString
  | String c EmptyString =>
      if Ascii.eqb c "/" then EmptyString else String c EmptyString
  | String c r => String c (strip_trailing_slash r)
  end.

(** [new HTTPODataProvider(baseUrl)]. *)
Definition new_provider (url : string) : Provider :=
  {| core := {| baseUrl := strip_trailing_slash url;
                authHeaders := [];
                connected := false;
                totalQueries := 0;
                queryTimes := [] |};
     serviceCapabilities := None |}.

(** [setAuthHeaders(headers)]. *)
Definition setAuthHeaders (hs : list (string * string)) (p : Provider)
    : Provider :=
  {| core := {| baseUrl := baseUrl (core p);
                authHeaders := spread (authHeaders (core p)) hs;
                connected := connected (core p);
                totalQueries := totalQueries (core p);
                queryTimes := queryTimes (core p) |};
     serviceCapabilities := serviceCapabilities p |}.

(** [getAuthHeaders()]. *)
Definition getAuthHeaders (p : Provider) : list (string * string) :=
  authHeaders (core p).

Definition default_capabilities (pageSize : option Z) : IServiceCapabilities :=
  {| supportedVersions := ["4.0"];
     supportedQueryOptions := ["$filter"; "$select"; "$orderby"; "$top"; "$skip"];
     supportedFunctions := [];
     maxPageSize := pageSize;
     supportsBatch := false;
     supportsChangeTracking := false |}.

Section Methods.
Variable fetch : string -> RequestInit -> Exc.t Response.
Local Open Scope eff_scope.

(** A method of the query path run on the whole provider. *)
Definition on_core {A} (m : Eff.M State A) : Eff.M Provider A :=
  fun p =>
    let '(r, st) := m (core p) in
    (r, {| core := st; serviceCapabilities := serviceCapabilities p |}).

Definition cache (c : IServiceCapabilities) : Eff.M Provider IServiceCapabilities :=
  fun p => (Exc.Ret c, {| core := core p; serviceCapabilities := Some c |}).

(** [getServiceCapabilities()]; the two numbers are the clock readings
    of [makeRequest]. *)
Definition getServiceCapabilities (requestStart requestEnd : Z)
    : Eff.M Provider IServiceCapabilities :=
  p <- Eff.get ;;
  match serviceCapabilities p with
  | Some c => Eff.ret c
  | None =>
      Eff.try_catch
        (response <- on_core (makeRequest fetch "/" no_options
                                requestStart requestEnd) ;;
         if (http_success response && Js.truthy (http_data response))%bool
         then cache (default_capabilities (Some 1000))
         else cache (default_capabilities None))
        (fun error => cache (default_capabilities None))
  end.

(** [String.prototype.toLowerCase], which follows the case mapping of
    Unicode: [supportsFeature] is given the function, and what is proved of
    it holds for every such function. *)
Variable toLowerCase : string -> string.

(** [supportsFeature(feature)]. *)
Definition supportsFeature (feature : string) (requestStart requestEnd : Z)
    : Eff.M Provider bool :=
  capabilities <- getServiceCapabilities requestStart requestEnd ;;
  let f := toLowerCase feature in
  Eff.ret
    (if String.eqb f "filter"
     then JsText.array_includes (supportedQueryOptions capabilities) "$filter"
     else if String.eqb f "select"
     then JsText.array_includes (supportedQueryOptions capabilities) "$select"
     else if String.eqb f "orderby"
     then JsText.array_includes (supportedQueryOptions capabilities) "$orderby"
     else if String.eqb f "top"
     then JsText.array_includes (supportedQueryOptions capabilities) "$top"
     else if String.eqb f "skip"
     then JsText.array_includes (supportedQueryOptions capabilities) "$skip"
     else if String.eqb f "batch" then supportsBatch capabilities
     else if String.eqb f "changetracking"
     then supportsChangeTracking capabilities
     else false).

End Methods.

(** The [RequestInit] that [makeRequest] hands to [fetch]. *)
Definition request_init (st : State) (options : RequestOptions) : RequestInit :=
  {| method := match opt_method options with
               | Some m => m
               | None => "GET"
               end;
     req_headers :=
       match opt_headers options with
       | Some h => h
       | None => spread [("Content-Type", "application/json");
                         ("Accept", "application/json")]
                        (authHeaders st)
       end;
     body := match opt_body options with
             | Some b => Some (if Js.truthy b then stringified b else b)
             | None => None
             end |}.

(** The URL that [makeRequest] hands to [fetch]. *)
Definition request_url (st : State) (path : string) : string :=
  if String.prefix "http" path then path else baseUrl st ++ path.

(** The cache of capabilities is empty or holds what
    [getServiceCapabilities] stores. *)
Definition standard_cache (p : Provider) : Prop :=
  match serviceCapabilities p with
  | Some c => exists pageSize, c = default_capabilities pageSize
  | None => True
  end.

(** The URL [executeQuery] makes [fetch] ask for. *)
Definition query_url (st : State) (entityName : string) (query : Query.IQuery)
    : string :=
  (if String.prefix "http" (baseUrl st) then "" else baseUrl st)
  ++ baseUrl st ++ "/" ++ entityName ++ buildODataQueryString query.

End HTTPODataService.

(* ================================================================== *)
(** ** ActiveRecord: the query builder *)
(* ================================================================== *)

Module ActiveRecord.
Import Query.

(** The errors the builder collects carry a [field] beside the common
    properties. *)
Record BuilderError : Type := {
  code : string;
  message : string;
  suggestion : string;
  severity : string;
  actionable : bool;
  field : option string
}.

(** The private fields [query] and [errors]. *)
Record State : Type := {
  query : IQuery;
  errors : list BuilderError
}.

(** [new ActiveRecord(schema, dataTypeHandler)]. *)
Definition initial : State :=
  {| query := {| filter := None; select := None; orderBy := None;
                 pagination := None; count := None |};
     errors := [] |}.

Definition validOperators : list string :=
  ["eq"; "ne"; "lt"; "le"; "gt"; "ge"; "in"; "contains"; "startswith";
   "endswith"].

Definition set_filter (f : IQueryFilter) (q : IQuery) : IQuery :=
  {| filter := Some f; select := select q; orderBy := orderBy q;
     pagination := pagination q; count := Query.count q |}.

Definition set_select (s : IQuerySelect) (q : IQuery) : IQuery :=
  {| filter := filter q; select := Some s; orderBy := orderBy q;
     pagination := pagination q; count := Query.count q |}.

Definition set_orderBy (os : list IQueryOrder) (q : IQuery) : IQuery :=
  {| filter := filter q; select := select q; orderBy := Some os;
     pagination := pagination q; count := Query.count q |}.

Definition set_pagination (p : IQueryPagination) (q : IQuery) : IQuery :=
  {| filter := filter q; select := select q; orderBy := orderBy q;
     pagination := Some p; count := Query.count q |}.

Definition on_query (f : IQuery -> IQuery) : Eff.M State unit :=
  Eff.modify (fun st => {| query := f (query st); errors := errors st |}).

(** [addError(error)]. *)
Definition addError (e : BuilderError) : Eff.M State unit :=
  Eff.modify (fun st => {| query := query st; errors := Js.push (errors st) e |}).

Section Builder.

(** The schema and the handler, as the builder uses them:
    [Object.keys(this.schema.fields)], the test [field in
    this.schema.fields] of [validateField], the read
    [this.schema.fields[field].type], and
    [this.dataTypeHandler.autoConvert(value, type)]. *)
Variable schema_keys : list string.
Variable validateField : string -> bool.
Variable type_of_field : string -> Exc.t Js.Value.
Variable autoConvert : Js.Value -> Js.Value -> Exc.t Js.Value.
Local Open Scope eff_scope.

Definition invalid_field (f : string) : BuilderError :=
  {| code := "INVALID_FIELD";
     message := "Field '" ++ f ++ "' does not exist in schema";
     suggestion := "Available fields: " ++ Js.join ", " schema_keys;
     severity := "error";
     actionable := true;
     field := Some f |}.

Definition invalid_operator (operator : string) : BuilderError :=
  {| code := "INVALID_OPERATOR";
     message := "Invalid operator '" ++ operator ++ "'";
     suggestion := "Valid operators: " ++ Js.join ", " validOperators;
     severity := "error";
     actionable := true;
     field := None |}.

Definition invalid_fields (invalidFields : list string) : BuilderError :=
  {| code := "INVALID_FIELDS";
     message := "Invalid fields: " ++ Js.join ", " invalidFields;
     suggestion := "Available fields: " ++ Js.join ", " schema_keys;
     severity := "error";
     actionable := true;
     field := None |}.

(** [where(field, operator, value)]. *)
Definition where_ (f operator : string) (value : Js.Value)
    : Eff.M State unit :=
  if negb (validateField f) then addError (invalid_field f)
  else if negb (JsText.array_includes validOperators operator)
  then addError (invalid_operator operator)
  else
    fieldType <- Eff.lift (type_of_field f) ;;
    convertedValue <- Eff.lift (autoConvert value fieldType) ;;
    let node := mkFilter (Some f) (Some operator) convertedValue None None in
    on_query (fun q =>
      match filter q with
      | None => set_filter node q
      | Some previous =>
          (* Combine with existing filter using AND *)
          set_filter (where_and previous node) q
      end).

(** [select(...fields)]. *)
Definition select_ (fs : list string) : Eff.M State unit :=
  let invalidFields := List.filter (fun f => negb (validateField f)) fs in
  if (0 <? Z.of_nat (List.length invalidFields))
  then addError (invalid_fields invalidFields)
  else on_query (set_select {| fields := fs; exclude := Some false |}).

(** [orderBy(field, direction = 'asc')]. *)
Definition orderBy_ (f : string) (direction : option string)
    : Eff.M State unit :=
  if negb (validateField f) then addError (invalid_field f)
  else
    let order := {| order_field := f;
                    Query.direction := match direction with
                                       | Some d => d
                                       | None => "asc"
                                       end |} in
    on_query (fun q =>
      set_orderBy (Js.push (match orderBy q with
                            | Some os => os
                            | None => []
                            end) order) q).

Definition current_pagination (q : IQuery) : IQueryPagination :=
  match pagination q with
  | Some p => p
  | None => {| skip := None; take := None |}
  end.

(** [limit(count)]. *)
Definition limit (n : Z) : Eff.M State unit :=
  on_query (fun q =>
    set_pagination {| skip := skip (current_pagination q); take := Some n |} q).

(** [offset(count)]. *)
Definition offset (n : Z) : Eff.M State unit :=
  on_query (fun q =>
    set_pagination {| skip := Some n; take := take (current_pagination q) |} q).

(** [buildQuery()]. *)
Definition buildQuery : Eff.M State IQuery :=
  st <- Eff.get ;; Eff.ret (query st).

(** A call on the builder. *)
Inductive Call : Type :=
| Where (f operator : string) (value : Js.Value)
| Select (fs : list string)
| OrderBy (f : string) (direction : option string)
| Limit (n : Z)
| Offset (n : Z).

Definition call (c : Call) : Eff.M State unit :=
  match c with
  | Where f operator value => where_ f operator value
  | Select fs => select_ fs
  | OrderBy f direction => orderBy_ f direction
  | Limit n => limit n
  | Offset n => offset n
  end.

(** The builder after a chain of calls; a call that throws leaves the
    builder as it was and the chain goes on with the next one. *)
Definition after (calls : list Call) (st : State) : State :=
  fold_left (fun st c => snd (call c st)) calls st.

(** The calls that make the builder record an error. *)
Definition rejected (c : Call) : bool :=
  match c with
  | Where f operator _ =>
      (negb (validateField f)
       || negb (JsText.array_includes validOperators operator))%bool
  | Select fs => existsb (fun f => negb (validateField f)) fs
  | OrderBy f _ => negb (validateField f)
  | Limit _ | Offset _ => false
  end.

(** The condition a call adds to the filter, if any. *)
Definition condition_of (c : Call) : list IQueryFilter :=
  match c with
  | Where f operator value =>
      if rejected c then []
      else
        match type_of_field f with
        | Exc.Ret fieldType =>
            match autoConvert value fieldType with
            | Exc.Ret convertedValue =>
                [mkFilter (Some f) (Some operator) convertedValue None None]
            | Exc.Throw _ => []
            end
        | Exc.Throw _ => []
        end
  | _ => []
  end.

End Builder.

(** The leaves of a filter tree, left to right. *)
Fixpoint leaves (f : IQueryFilter) : list IQueryFilter :=
  match f with
  | mkFilter _ _ _ _ (Some cs) => flat_map leaves cs
  | mkFilter _ _ _ _ None => [f]
  end.

Definition conditions (q : IQuery) : list IQueryFilter :=
  match filter q with
  | Some f => leaves f
  | None => []
  end.

(** The filters [where] builds: one condition, or a composite of what was
    there before and one more condition. *)
Inductive built : IQueryFilter -> Prop :=
| built_first f operator value :
    built (mkFilter (Some f) (Some operator) value None None)
| built_next previous f operator value :
    built previous ->
    built (where_and previous
             (mkFilter (Some f) (Some operator) value None None)).

(** The builder holds no filter or one that [where] built. *)
Definition built_or_empty (st : State) : Prop :=
  match filter (query st) with
  | Some f => built f
  | None => True
  end.

(** A condition as [where] writes it: a field, one of the ten operators
    [where] lets through, no children. *)
Definition plain_condition (c : IQueryFilter) : bool :=
  match c with
  | mkFilter (Some _) (Some operator) _ None None =>
      JsText.array_includes validOperators operator
  | _ => false
  end.

End ActiveRecord.

(* ================================================================== *)
(** ** ConnectionPool: what the properties speak of *)
(* ================================================================== *)

Module PoolInvariants.
Import ConnectionPool.

(** A config the connectors turn down before they call a driver: the
    property its type needs is missing, or the type is not one of the
    three. *)
Definition refused (config : IConnectionConfig) : bool :=
  if String.eqb (type config) "mongodb"
  then missing (connectionString config)
  else if String.eqb (type config) "sqlite" then missing (filePath config)
  else if String.eqb (type config) "http-odata"
  then missing (baseUrl config)
  else true.

(** An event other than the closing of a connection. *)
Definition not_closed {Handle} (e : Event Handle) : bool :=
  match e with
  | Closed _ => false
  | _ => true
  end.

(** A warning of the pool-wide sweep, or of a probe it runs. *)
Definition sweep_warning {Handle} (e : Event Handle) : bool :=
  match e with
  | WarnFailedHealthCheck _ => true
  | WarnHealthCheckFailed _ => true
  | _ => false
  end.

(** The interval timers are in step with [healthChecks]: handles are
    distinct and below the next one to be given out, and a running
    per-connection timer is the one [healthChecks] holds for its
    connection. *)
Definition timers_registered {Handle X} (s : Sys Handle X) : Prop :=
  NoDup (timer_ids s)
  /\ (forall t, In t (timers s) -> (timer_id t < next_timer s)%nat)
  /\ (forall t connectionId config,
        In t (timers s) ->
        job t = ConnectionHealthCheck connectionId config ->
        JsMap.get connectionId (healthChecks (pool s)) = Some (timer_id t)).

(** The per-connection timers running for [connectionId]. *)
Definition health_timers {Handle X} (s : Sys Handle X)
    (connectionId : string) : list Timer :=
  List.filter (fun t => match job t with
                        | ConnectionHealthCheck id _ =>
                            String.eqb id connectionId
                        | GlobalHealthCheck => false
                        end) (timers s).

(** The sum of the waits of a schedule. *)
Definition total_wait (t : list Timing) : Z :=
  fold_right Z.add 0 (waits t).

End PoolInvariants.

(* ================================================================== *)
(** ** More examples *)
(* ================================================================== *)

Module DemoMore.
Import ConnectionPool.

(** An OData service config. *)
Definition http_config : IConnectionConfig :=
  {| type := "http-odata"; connectionString := None; databaseName := None;
     filePath := None; baseUrl := Some "https://example.org/odata";
     headers := None; poolSize := None; minPoolSize := None;
     maxIdleTime := None; timeout := None; verbose := None;
     fileMustExist := None |}.

(** A config of a backend the pool does not know. *)
Definition redis_config : IConnectionConfig :=
  {| type := "redis"; connectionString := None; databaseName := None;
     filePath := None; baseUrl := None; headers := None;
     poolSize := None; minPoolSize := None; maxIdleTime := None;
     timeout := None; verbose := None; fileMustExist := None |}.

(** Drivers on which every SQLite handle is closed and every probe
    fails. *)
Definition dead_drivers : Drivers nat nat :=
  {| import_mongodb := Exc.Ret tt;
     mongo_connect := fun _ _ _ x => (Exc.Ret 5%nat, x);
     import_sqlite := Exc.Ret tt;
     sqlite_open := fun _ _ x => (Exc.Ret 7%nat, x);
     mongo_ping := fun _ x =>
       (Exc.Throw (Exc.Error "connection closed"
                             "MongoNetworkError: connection closed"), x);
     sqlite_is_open := fun _ _ => false;
     http_head := fun _ _ _ x => (Exc.Ret false, x);
     mongo_close := fun _ x => x;
     sqlite_close := fun _ x => x |}.

(** The pool after one [getConnection] on [dead_drivers]: the connection
    is stored and fails every probe. *)
Definition dead_pool : Sys nat nat :=
  snd (getConnection dead_drivers "main" Demo.sqlite_config (new_pool 0%nat)).

(** The table [users] of [Demo.sqlite_driver], answering two more
    statements the way SQLite answers them. *)
Definition paging_driver : SQLiteProvider.Driver (list Js.Value) :=
  {| SQLiteProvider.stmt_all := fun db sql params =>
       if String.eqb sql "SELECT * FROM users LIMIT 50 OFFSET 1"
       then Exc.Ret (firstn 50 (skipn 1 db))
       else if String.eqb sql "SELECT name FROM users ORDER BY name DESC LIMIT 50"
       then Exc.Ret (firstn 50 (rev (map (fun row =>
                                 Js.Obj [("name", Js.opt_prop row "name")])
                               db)))
       else SQLiteProvider.stmt_all Demo.sqlite_driver db sql params;
     SQLiteProvider.stmt_get := SQLiteProvider.stmt_get Demo.sqlite_driver;
     SQLiteProvider.stmt_run := SQLiteProvider.stmt_run Demo.sqlite_driver |}.

(** A MongoDB driver whose [findOneAndUpdate] resolves to [null], as it
    does when no document matches and no result metadata is asked for;
    the database is a counter of the updates performed. *)
Definition mongo_null_driver : MongoDBProvider.Driver nat :=
  let refused {A} : Exc.t A :=
    Exc.Throw (Exc.Error "ns not found" "MongoServerError: ns not found") in
  {| MongoDBProvider.toArray := fun _ _ _ => refused;
     MongoDBProvider.countDocuments := fun _ _ _ => refused;
     MongoDBProvider.insertOne := fun _ _ _ => refused;
     MongoDBProvider.findOne := fun _ _ _ => Exc.Ret Js.Null;
     MongoDBProvider.findOneAndUpdate :=
       fun db _ _ _ => Exc.Ret (Js.Null, S db);
     MongoDBProvider.deleteOne := fun _ _ _ => refused;
     MongoDBProvider.ObjectId :=
       fun id => Exc.Ret (Js.Obj [("$oid", Js.Str id)]) |}.

Definition mongo_null_connected : MongoDBProvider.State nat :=
  {| MongoDBProvider.database := Some 0%nat;
     MongoDBProvider.connected := true;
     MongoDBProvider.totalQueries := 0;
     MongoDBProvider.queryTimes := [] |}.

(** An OData service that knows one URL only. *)
Definition picky_fetch (url : string) (init : HTTPODataProvider.RequestInit)
    : Exc.t HTTPODataProvider.Response :=
  if String.eqb url "https://example.org/odata/Users?$count=true"
  then Demo.failing_fetch url init
  else Exc.Throw (Exc.Error "fetch failed" "TypeError: fetch failed").

(** A provider given a relative base URL. *)
Definition relative_state : HTTPODataProvider.State :=
  {| HTTPODataProvider.baseUrl := "/api/odata";
     HTTPODataProvider.authHeaders := [("Authorization", "Bearer t")];
     HTTPODataProvider.connected := true;
     HTTPODataProvider.totalQueries := 0;
     HTTPODataProvider.queryTimes := [] |}.

Definition empty_query : Query.IQuery :=
  {| Query.filter := None; Query.select := None; Query.orderBy := None;
     Query.pagination := None; Query.count := None |}.

(** A schema with the fields [name] and [age], and a handler that leaves
    values as they are. *)
Definition person_keys : list string := ["name"; "age"].

Definition person_has (f : string) : bool :=
  JsText.array_includes person_keys f.

Definition person_type (f : string) : Exc.t Js.Value :=
  Exc.Ret (Js.Str (if String.eqb f "age" then "number" else "string")).

Definition keep_value (value type : Js.Value) : Exc.t Js.Value :=
  Exc.Ret value.

Definition adults_named_ann : list ActiveRecord.Call :=
  [ActiveRecord.Where "age" "gt" (Js.Num 18);
   ActiveRecord.Where "nmae" "eq" (Js.Str "Ann");
   ActiveRecord.Where "name" "eq" (Js.Str "Ann");
   ActiveRecord.Limit 10].

End DemoMore.

(* ================================================================== *)
(** * Properties *)
(* ================================================================== *)

(** ** The translators on leaves and composites *)

Module TranslatorFacts.
Import Query Demo.

(** C5. The leaf [{field:'age', operator:'gt', value:18}] becomes the SQL
    fragment [age > ?] with parameters [[18]], the MongoDB filter
    [{age: {$gt: 18}}], and an OData query string that contains
    [$filter=age%20gt%2018]. *)
Theorem leaf_age_gt_18_translations :
  SQLiteProvider.convertODataFilterToSQL (Some age_gt_18) []
    = ("age > ?", [Js.Num 18])
  /\ MongoDBProvider.convertODataFilterToMongo (Some age_gt_18)
    = Js.Obj [("age", Js.Obj [("$gt", Js.Num 18)])]
  /\ HTTPODataProvider.buildODataQueryString (only_filter age_gt_18)
    = "?$filter=age%20gt%2018&$count=true"
  /\ Js.includes (HTTPODataProvider.buildODataQueryString (only_filter age_gt_18))
                 "$filter=age%20gt%2018".
Proof.
  repeat split; try reflexivity.
  exists "?", "&$count=true". reflexivity.
Qed.

(** C1. No translator looks at [logicalOperator] or [children]: two nodes
    that differ only there translate alike, on every backend. So the
    two-leaf AND composite of [age > 18] and [name = 'x'] translates to
    [undefined = ?] (SQLite), [{undefined: undefined}] (MongoDB) and
    [undefined eq null] (OData); the node [ActiveRecord.where] builds for
    the same conjunction translates to [ = ?] with parameter [null],
    [{'': null}] and [ eq null]. Neither leaf appears in any of them. *)
Theorem composite_children_are_ignored :
  (forall field operator value lop1 lop2 children1 children2 params,
      SQLiteProvider.convertODataFilterToSQL
        (Some (mkFilter field operator value lop1 children1)) params
      = SQLiteProvider.convertODataFilterToSQL
          (Some (mkFilter field operator value lop2 children2)) params
      /\ MongoDBProvider.convertODataFilterToMongo
           (Some (mkFilter field operator value lop1 children1))
         = MongoDBProvider.convertODataFilterToMongo
             (Some (mkFilter field operator value lop2 children2))
      /\ HTTPODataProvider.convertFilterToOData
           (Some (mkFilter field operator value lop1 children1))
         = HTTPODataProvider.convertFilterToOData
             (Some (mkFilter field operator value lop2 children2)))
  /\ SQLiteProvider.convertODataFilterToSQL
       (Some (composite "and" [age_gt_18; name_eq_x])) []
     = ("undefined = ?", [Js.Undefined])
  /\ MongoDBProvider.convertODataFilterToMongo
       (Some (composite "and" [age_gt_18; name_eq_x]))
     = Js.Obj [("undefined", Js.Undefined)]
  /\ HTTPODataProvider.convertFilterToOData
       (Some (composite "and" [age_gt_18; name_eq_x]))
     = "undefined eq null"
  /\ SQLiteProvider.convertODataFilterToSQL
       (Some (where_and age_gt_18 name_eq_x)) []
     = (" = ?", [Js.Null])
  /\ MongoDBProvider.convertODataFilterToMongo
       (Some (where_and age_gt_18 name_eq_x))
     = Js.Obj [("", Js.Null)]
  /\ HTTPODataProvider.convertFilterToOData
       (Some (where_and age_gt_18 name_eq_x))
     = " eq null".
Proof.
  repeat split; reflexivity.
Qed.

Lemma append_assoc (a b c : string) : (a ++ b) ++ c = a ++ (b ++ c).
Proof.
  induction a as [|ch a IH]; cbn; [reflexivity|]. now rewrite IH.
Qed.

Lemma unsupported_cases (op : option string) :
  is_supported op = false ->
  forall label, In label supported_operators ->
    SQLiteProvider.is_case op label = false.
Proof.
  intros H label Hin. destruct op as [o|]; [|reflexivity].
  unfold is_supported in H. cbn [SQLiteProvider.is_case].
  destruct (String.eqb o label) eqn:E; [|reflexivity].
  rewrite <- H. symmetry. apply existsb_exists.
  exists label. split; assumption.
Qed.

Ltac in_supported :=
  cbn [supported_operators In];
  repeat (first [left; reflexivity | right]).

Ltac drop_cases U :=
  repeat (rewrite U by in_supported).

Lemma sql_of_unsupported (f : IQueryFilter) (params : list Js.Value) :
  is_supported (operator f) = false ->
  SQLiteProvider.convertODataFilterToSQL (Some f) params
  = (Js.template (field f) ++ " = ?", (params ++ [value f])%list).
Proof.
  intros H. pose proof (unsupported_cases _ H) as U.
  unfold SQLiteProvider.convertODataFilterToSQL.
  drop_cases U. reflexivity.
Qed.

Lemma mongo_of_unsupported (f : IQueryFilter) :
  is_supported (operator f) = false ->
  MongoDBProvider.convertODataFilterToMongo (Some f)
  = Js.Obj [(Js.template (field f), value f)].
Proof.
  intros H. pose proof (unsupported_cases _ H) as U.
  unfold MongoDBProvider.convertODataFilterToMongo, MongoDBProvider.is_case.
  drop_cases U. reflexivity.
Qed.

Lemma odata_of_unsupported (f : IQueryFilter) :
  is_supported (operator f) = false ->
  HTTPODataProvider.convertFilterToOData (Some f)
  = Js.template (field f) ++ " eq "
    ++ HTTPODataProvider.formatODataValue (value f).
Proof.
  intros H. pose proof (unsupported_cases _ H) as U.
  unfold HTTPODataProvider.convertFilterToOData, HTTPODataProvider.is_case.
  drop_cases U. reflexivity.
Qed.

(** C2, as the code has it. A node whose operator is none of the eleven
    is translated as the equality on its field and value by all three
    translators, and each provider's [executeQuery] runs the query exactly
    as it runs the same query with the operator [eq]: no translation error
    arises. *)
Theorem unsupported_operator_is_translated_as_equality :
  forall f, is_supported (operator f) = false ->
    (forall params,
        SQLiteProvider.convertODataFilterToSQL (Some f) params
        = (Js.template (field f) ++ " = ?", (params ++ [value f])%list))
    /\ MongoDBProvider.convertODataFilterToMongo (Some f)
       = Js.Obj [(Js.template (field f), value f)]
    /\ HTTPODataProvider.convertFilterToOData (Some f)
       = Js.template (field f) ++ " eq "
         ++ HTTPODataProvider.formatODataValue (value f)
    /\ (forall DB (driver : SQLiteProvider.Driver DB) entityName q t0 t1 st,
          SQLiteProvider.executeQuery driver entityName (with_filter q f) t0 t1 st
          = SQLiteProvider.executeQuery driver entityName
              (with_filter q (as_eq f)) t0 t1 st)
    /\ (forall DB (driver : MongoDBProvider.Driver DB) entityName q t0 t1 st,
          MongoDBProvider.executeQuery driver entityName (with_filter q f) t0 t1 st
          = MongoDBProvider.executeQuery driver entityName
              (with_filter q (as_eq f)) t0 t1 st)
    /\ (forall fetch entityName q t0 t1 t2 t3 st,
          HTTPODataProvider.executeQuery fetch entityName (with_filter q f)
            t0 t1 t2 t3 st
          = HTTPODataProvider.executeQuery fetch entityName
              (with_filter q (as_eq f)) t0 t1 t2 t3 st).
Proof.
  intros f H.
  split; [intros; apply sql_of_unsupported; exact H|].
  split; [apply mongo_of_unsupported; exact H|].
  split; [apply odata_of_unsupported; exact H|].
  split; [|split].
  - intros. unfold SQLiteProvider.executeQuery, SQLiteProvider.selectSQL,
      SQLiteProvider.filtered, SQLiteProvider.projected, SQLiteProvider.sorted,
      SQLiteProvider.paginated.
    cbn [with_filter filter select orderBy pagination].
    rewrite (sql_of_unsupported f [] H). reflexivity.
  - intros. unfold MongoDBProvider.executeQuery, MongoDBProvider.cursor_of.
    cbn [with_filter filter select orderBy pagination].
    rewrite (mongo_of_unsupported f H). reflexivity.
  - intros. unfold HTTPODataProvider.executeQuery,
      HTTPODataProvider.buildODataQueryString.
    cbn [with_filter filter select orderBy pagination].
    rewrite (odata_of_unsupported f H). reflexivity.
Qed.

Lemma unsupported_operator_is_translated_as_equality_witness :
  is_supported (operator age_like_18) = false
  /\ HTTPODataProvider.convertFilterToOData (Some age_like_18) = "age eq 18".
Proof.
  split; [reflexivity|].
  exact (proj1 (proj2 (proj2
    (unsupported_operator_is_translated_as_equality age_like_18 eq_refl)))).
Defined.

(** C2, as stated, fails: the operator [like] is none of the eleven, yet
    each translator returns for [{field:'age', operator:'like', value:18}]
    what it returns for the operator [eq], and [executeQuery] on a table
    with two rows of age 18 succeeds and returns those two rows. *)
Lemma unknown_operator_runs_as_equality :
  is_supported (operator age_like_18) = false
  /\ SQLiteProvider.convertODataFilterToSQL (Some age_like_18) []
     = ("age = ?", [Js.Num 18])
  /\ SQLiteProvider.convertODataFilterToSQL (Some age_like_18) []
     = SQLiteProvider.convertODataFilterToSQL (Some age_eq_18) []
  /\ MongoDBProvider.convertODataFilterToMongo (Some age_like_18)
     = MongoDBProvider.convertODataFilterToMongo (Some age_eq_18)
  /\ HTTPODataProvider.convertFilterToOData (Some age_like_18)
     = HTTPODataProvider.convertFilterToOData (Some age_eq_18)
  /\ (exists r st,
        SQLiteProvider.executeQuery sqlite_driver "users"
          (only_filter age_like_18) 100 105 sqlite_connected
        = (Exc.Ret r, st)
        /\ Result.success r = true
        /\ Result.data r = [user "ann" 18; user "cy" 18]).
Proof.
  repeat split; try reflexivity.
  eexists. eexists. repeat split; reflexivity.
Qed.

Lemma paginated_default (q : IQuery) (p : IQueryPagination) (sql : string) :
  pagination q = Some p ->
  Js.num_or (take p) 50 = 50 ->
  exists post,
    SQLiteProvider.paginated q sql = sql ++ " LIMIT 50" ++ post
    /\ (post = "" \/ exists n, post = " OFFSET " ++ Js.number_toString n).
Proof.
  intros Hp Hlim. unfold SQLiteProvider.paginated. rewrite Hp, Hlim.
  change (Js.number_toString 50) with "50".
  destruct (skip p) as [n|]; [destruct (n =? 0)|].
  - exists "". split; [reflexivity | now left].
  - exists (" OFFSET " ++ Js.number_toString n).
    split; [| right; now exists n].
    rewrite append_assoc. reflexivity.
  - exists "". split; [reflexivity | now left].
Qed.

(** What [SQLiteProvider.executeQuery] returns on a provider with a
    database, from the answers of the driver to the statement it has
    built. *)
Lemma sqlite_executeQuery_runs_the_statement {DB : Type}
    (driver : SQLiteProvider.Driver DB) (st : SQLiteProvider.State DB)
    (db : DB) (entityName : string) (q : IQuery) (sql : string)
    (params : list Js.Value) (startTime endTime : Z) :
  SQLiteProvider.selectSQL entityName q = (sql, params) ->
  SQLiteProvider.database st = Some db ->
  (forall rows props,
      SQLiteProvider.stmt_all driver db sql params = Exc.Ret rows ->
      SQLiteProvider.stmt_get driver db
        ("SELECT COUNT(*) as count FROM " ++ entityName) []
      = Exc.Ret (Js.Obj props) ->
      fst (SQLiteProvider.executeQuery driver entityName q
             startTime endTime st)
      = Exc.Ret {| Result.data := rows;
                   Result.success := true;
                   Result.errors := None;
                   Result.metadata :=
                     {| Result.count := Js.lookup "count" props;
                        Result.executionTime := endTime - startTime;
                        Result.cacheStatus := "miss" |} |})
  /\ (forall e,
      SQLiteProvider.stmt_all driver db sql params = Exc.Throw e ->
      fst (SQLiteProvider.executeQuery driver entityName q
             startTime endTime st)
      = Exc.Ret (Result.query_failed [] e)).
Proof.
  intros Hsql Hdb. split.
  - intros rows props Hrows Hcount.
    unfold SQLiteProvider.executeQuery. rewrite Hsql.
    unfold SQLiteProvider.count_query, SQLiteProvider.push_time,
      SQLiteProvider.db_all, SQLiteProvider.db_get.
    unfold Eff.try_catch, Eff.bind, Eff.modify, Eff.ret, Eff.prop.
    cbn [SQLiteProvider.database fst snd]. rewrite Hdb, Hrows.
    cbn [SQLiteProvider.database fst snd]. rewrite Hcount.
    reflexivity.
  - intros e He.
    unfold SQLiteProvider.executeQuery. rewrite Hsql.
    unfold SQLiteProvider.count_query, SQLiteProvider.push_time,
      SQLiteProvider.db_all, SQLiteProvider.db_get.
    unfold Eff.try_catch, Eff.bind, Eff.modify, Eff.ret, Eff.prop.
    cbn [SQLiteProvider.database fst snd]. rewrite Hdb, He.
    reflexivity.
Qed.

(** What [MongoDBProvider.executeQuery] returns on a provider with a
    database, from the answers of the driver at the cursor it has built. *)
Lemma mongo_executeQuery_runs_the_cursor {DB : Type}
    (driver : MongoDBProvider.Driver DB) (st : MongoDBProvider.State DB)
    (db : DB) (entityName : string) (q : IQuery) (startTime endTime : Z) :
  MongoDBProvider.database st = Some db ->
  (forall rows n,
      MongoDBProvider.toArray driver db entityName
        (MongoDBProvider.cursor_of q) = Exc.Ret rows ->
      MongoDBProvider.countDocuments driver db entityName
        (MongoDBProvider.find_filter (MongoDBProvider.cursor_of q))
      = Exc.Ret n ->
      fst (MongoDBProvider.executeQuery driver entityName q
             startTime endTime st)
      = Exc.Ret {| Result.data := rows;
                   Result.success := true;
                   Result.errors := None;
                   Result.metadata :=
                     {| Result.count := n;
                        Result.executionTime := endTime - startTime;
                        Result.cacheStatus := "miss" |} |})
  /\ (forall e,
      MongoDBProvider.toArray driver db entityName
        (MongoDBProvider.cursor_of q) = Exc.Throw e ->
      fst (MongoDBProvider.executeQuery driver entityName q
             startTime endTime st)
      = Exc.Ret (Result.query_failed [] e)).
Proof.
  intros Hdb. split.
  - intros rows n Hrows Hn.
    unfold MongoDBProvider.executeQuery.
    remember (MongoDBProvider.cursor_of q) as cursor eqn:Ec. clear Ec.
    unfold MongoDBProvider.count_query,
      MongoDBProvider.push_time, MongoDBProvider.db_read.
    unfold Eff.try_catch, Eff.bind, Eff.modify, Eff.ret.
    cbn. rewrite Hdb, Hrows. cbn. rewrite Hn. reflexivity.
  - intros e He.
    unfold MongoDBProvider.executeQuery.
    remember (MongoDBProvider.cursor_of q) as cursor eqn:Ec. clear Ec.
    unfold MongoDBProvider.count_query,
      MongoDBProvider.push_time, MongoDBProvider.db_read.
    unfold Eff.try_catch, Eff.bind, Eff.modify, Eff.ret.
    cbn. rewrite Hdb, He. reflexivity.
Qed.

(** C9. When [pagination] is present and [take] is absent or 0, both
    providers apply the limit 50 to [executeQuery]. The statement the
    SQLite provider builds carries [LIMIT 50], followed at most by an
    [OFFSET] clause, and it is the statement [executeQuery] runs: on a
    provider with a database, the rows the driver answers this statement
    with are the [data] of a successful result, and an error the driver
    throws on it makes the failed result. The cursor the MongoDB provider
    builds has [limit(50)] as its last call, and it is the cursor
    [executeQuery] runs, in the same sense. *)
Theorem default_page_limit_is_50 :
  forall entityName q p,
    pagination q = Some p ->
    (take p = None \/ take p = Some 0) ->
    (exists sql params pre post,
        SQLiteProvider.selectSQL entityName q = (sql, params)
        /\ sql = pre ++ " LIMIT 50" ++ post
        /\ (post = "" \/ exists n, post = " OFFSET " ++ Js.number_toString n)
        /\ forall (DB : Type) (driver : SQLiteProvider.Driver DB)
             (st : SQLiteProvider.State DB) (db : DB) (startTime endTime : Z),
             SQLiteProvider.database st = Some db ->
             (forall rows props,
                 SQLiteProvider.stmt_all driver db sql params = Exc.Ret rows ->
                 SQLiteProvider.stmt_get driver db
                   ("SELECT COUNT(*) as count FROM " ++ entityName) []
                 = Exc.Ret (Js.Obj props) ->
                 fst (SQLiteProvider.executeQuery driver entityName q
                        startTime endTime st)
                 = Exc.Ret {| Result.data := rows;
                              Result.success := true;
                              Result.errors := None;
                              Result.metadata :=
                                {| Result.count := Js.lookup "count" props;
                                   Result.executionTime := endTime - startTime;
                                   Result.cacheStatus := "miss" |} |})
             /\ (forall e,
                 SQLiteProvider.stmt_all driver db sql params = Exc.Throw e ->
                 fst (SQLiteProvider.executeQuery driver entityName q
                        startTime endTime st)
                 = Exc.Ret (Result.query_failed [] e)))
    /\ (exists cursor before,
          cursor = MongoDBProvider.cursor_of q
          /\ MongoDBProvider.calls cursor
             = (before ++ [MongoDBProvider.limit 50])%list
          /\ forall (DB : Type) (driver : MongoDBProvider.Driver DB)
               (st : MongoDBProvider.State DB) (db : DB)
               (startTime endTime : Z),
               MongoDBProvider.database st = Some db ->
               (forall rows n,
                   MongoDBProvider.toArray driver db entityName cursor
                   = Exc.Ret rows ->
                   MongoDBProvider.countDocuments driver db entityName
                     (MongoDBProvider.find_filter cursor) = Exc.Ret n ->
                   fst (MongoDBProvider.executeQuery driver entityName q
                          startTime endTime st)
                   = Exc.Ret {| Result.data := rows;
                                Result.success := true;
                                Result.errors := None;
                                Result.metadata :=
                                  {| Result.count := n;
                                     Result.executionTime :=
                                       endTime - startTime;
                                     Result.cacheStatus := "miss" |} |})
               /\ (forall e,
                   MongoDBProvider.toArray driver db entityName cursor
                   = Exc.Throw e ->
                   fst (MongoDBProvider.executeQuery driver entityName q
                          startTime endTime st)
                   = Exc.Ret (Result.query_failed [] e))).
Proof.
  intros entityName q p Hp Htake.
  assert (Hlim : Js.num_or (take p) 50 = 50)
    by (destruct Htake as [-> | ->]; reflexivity).
  split.
  - destruct (SQLiteProvider.selectSQL entityName q) as [sql params] eqn:Hsql.
    assert (Hshape : exists pre post,
               sql = pre ++ " LIMIT 50" ++ post
               /\ (post = ""
                   \/ exists n, post = " OFFSET " ++ Js.number_toString n)).
    { unfold SQLiteProvider.selectSQL in Hsql.
      destruct (SQLiteProvider.filtered entityName q) as [sql0 params0].
      injection Hsql as <- _.
      destruct (paginated_default q p
                  (SQLiteProvider.sorted q (SQLiteProvider.projected q sql0))
                  Hp Hlim) as [post [E Hpost]].
      eexists. exists post. split; [exact E | exact Hpost]. }
    destruct Hshape as [pre [post [Hshape Hpost]]].
    exists sql, params, pre, post.
    split; [reflexivity|]. split; [exact Hshape|]. split; [exact Hpost|].
    intros DB driver st db startTime endTime Hdb.
    now apply sqlite_executeQuery_runs_the_statement.
  - exists (MongoDBProvider.cursor_of q).
    assert (Hcalls : exists before,
               MongoDBProvider.calls (MongoDBProvider.cursor_of q)
               = (before ++ [MongoDBProvider.limit 50])%list).
    { unfold MongoDBProvider.cursor_of, MongoDBProvider.limit_of.
      rewrite Hp, Hlim. cbn [MongoDBProvider.calls].
      change (0 <? 50) with true. cbv iota.
      eexists. rewrite app_assoc. reflexivity. }
    destruct Hcalls as [before Hcalls].
    exists before. split; [reflexivity|]. split; [exact Hcalls|].
    intros DB driver st db startTime endTime Hdb.
    now apply mongo_executeQuery_runs_the_cursor.
Qed.

Lemma default_page_limit_is_50_witness :
  fst (SQLiteProvider.executeQuery DemoMore.paging_driver "users"
         (skip_only 1) 100 105 sqlite_connected)
  = Exc.Ret {| Result.data := [user "bob" 30; user "cy" 18];
               Result.success := true;
               Result.errors := None;
               Result.metadata :=
                 {| Result.count := Js.Num 3;
                    Result.executionTime := 5;
                    Result.cacheStatus := "miss" |} |}.
Proof.
  destruct (default_page_limit_is_50 "users" (skip_only 1)
              {| skip := Some 1; take := None |}
              eq_refl (or_introl eq_refl))
    as [(sql & params & pre & post & Hsql & _ & _ & Hrun) _].
  injection Hsql as <- <-.
  exact (proj1 (Hrun _ DemoMore.paging_driver sqlite_connected three_users
                  100 105 eq_refl)
           [user "bob" 30; user "cy" 18] [("count", Js.Num 3)]
           eq_refl eq_refl).
Defined.

(** The MongoDB provider on the same query: the cursor skips one document
    and is limited to 50. *)
Example mongo_default_page :
  MongoDBProvider.calls (MongoDBProvider.cursor_of (skip_only 1))
  = [MongoDBProvider.skip 1; MongoDBProvider.limit 50]
  /\ fst (MongoDBProvider.executeQuery mongo_driver "users" (skip_only 1)
            100 105 mongo_connected)
     = Exc.Ret {| Result.data := [user "bob" 30; user "cy" 18];
                  Result.success := true;
                  Result.errors := None;
                  Result.metadata :=
                    {| Result.count := Js.Num 3;
                       Result.executionTime := 5;
                       Result.cacheStatus := "miss" |} |}.
Proof. split; reflexivity. Qed.

End TranslatorFacts.

(** ** The provider boundary *)

Module ProviderFacts.
Import Query Result Boundary Demo.

(** A [try] whose [catch] returns a value never throws. *)
Lemma try_catch_returns {S A} (body : Eff.M S A) (h : Exc.Thrown -> A) (s : S) :
  exists r s',
    Eff.try_catch body (fun e => Eff.ret (h e)) s = (Exc.Ret r, s')
    /\ (body s = (Exc.Ret r, s') \/ exists e, body s = (Exc.Throw e, s') /\ r = h e).
Proof.
  unfold Eff.try_catch, Eff.ret.
  destruct (body s) as [[a|e] s'].
  - exists a, s'. split; [reflexivity | now left].
  - exists (h e), s'. split; [reflexivity | right; now exists e].
Qed.

Ltac eff_step :=
  match goal with
  | H : (let '(_, _) := ?x in _) _ = _ |- _ => destruct x
  | H : match ?x with _ => _ end = (Exc.Ret _, _) |- _ =>
      destruct x eqn:?; try discriminate H
  | H : (if ?x then _ else _) _ = (Exc.Ret _, _) |- _ =>
      destruct x eqn:?; try discriminate H
  | H : (match ?x with _ => _ end) _ = (Exc.Ret _, _) |- _ =>
      destruct x eqn:?; try discriminate H
  | H : (Exc.Ret _, _) = (Exc.Ret _, _) |- _ => inversion H; subst; clear H
  end.

Ltac eff_run H :=
  unfold Eff.bind, Eff.ret, Eff.modify, Eff.lift, Eff.get, Eff.prop in H;
  repeat eff_step.

Ltac boundary h unfolds :=
  unfold query_boundary, crud_boundary; intros st;
  match goal with
  | |- exists r st', Eff.try_catch ?b _ st = _ /\ _ =>
      destruct (try_catch_returns b h st)
        as [r0 [s0 [E [Hb | [e [Hb ->]]]]]];
      eexists; eexists; (split; [exact E|]);
      [ left; unfolds Hb; eff_run Hb; reflexivity
      | right; exists e; reflexivity ]
  end.

Ltac sqlite_unfolds H :=
  unfold SQLiteProvider.count_query, SQLiteProvider.push_time,
    SQLiteProvider.db_all, SQLiteProvider.db_get, SQLiteProvider.db_run in H.

Ltac mongo_unfolds H :=
  unfold MongoDBProvider.count_query, MongoDBProvider.push_time,
    MongoDBProvider.db_read, MongoDBProvider.db_write,
    MongoDBProvider.convertToObjectId in H.

Section Boundaries.
Context {DB : Type}.
Variable sqlite : SQLiteProvider.Driver DB.
Variable mongo : MongoDBProvider.Driver DB.

Lemma sqlite_executeQuery_boundary entityName q t0 t1 :
  query_boundary [] (SQLiteProvider.executeQuery sqlite entityName q t0 t1).
Proof.
  unfold SQLiteProvider.executeQuery.
  boundary (@query_failed (list Js.Value) []) sqlite_unfolds. Qed.

Lemma sqlite_create_boundary entityName data t0 t1 :
  crud_boundary "CREATE_FAILED" "Failed to create record: "
    (SQLiteProvider.create sqlite entityName data t0 t1).
Proof.
  unfold SQLiteProvider.create.
  boundary (crud_failed "CREATE_FAILED" "Failed to create record: ")
           sqlite_unfolds.
Qed.

Lemma sqlite_read_boundary entityName q t0 t1 :
  crud_boundary "READ_FAILED" "Failed to read records: "
    (SQLiteProvider.read sqlite entityName q t0 t1).
Proof.
  unfold SQLiteProvider.read.
  boundary (crud_failed "READ_FAILED" "Failed to read records: ")
           sqlite_unfolds.
Qed.

Lemma sqlite_update_boundary entityName id data t0 t1 :
  crud_boundary "UPDATE_FAILED" "Failed to update record: "
    (SQLiteProvider.update sqlite entityName id data t0 t1).
Proof.
  unfold SQLiteProvider.update.
  boundary (crud_failed "UPDATE_FAILED" "Failed to update record: ")
           sqlite_unfolds.
Qed.

Lemma sqlite_delete_boundary entityName id t0 t1 :
  crud_boundary "DELETE_FAILED" "Failed to delete record: "
    (SQLiteProvider.delete sqlite entityName id t0 t1).
Proof.
  unfold SQLiteProvider.delete.
  boundary (crud_failed "DELETE_FAILED" "Failed to delete record: ")
           sqlite_unfolds.
Qed.

Lemma mongo_executeQuery_boundary entityName q t0 t1 :
  query_boundary [] (MongoDBProvider.executeQuery mongo entityName q t0 t1).
Proof.
  unfold MongoDBProvider.executeQuery.
  boundary (@query_failed (list Js.Value) []) mongo_unfolds. Qed.

Lemma mongo_create_boundary entityName data d0 d1 t0 t1 :
  crud_boundary "CREATE_FAILED" "Failed to create document: "
    (MongoDBProvider.create mongo entityName data d0 d1 t0 t1).
Proof.
  unfold MongoDBProvider.create.
  boundary (crud_failed "CREATE_FAILED" "Failed to create document: ")
           mongo_unfolds.
Qed.

Lemma mongo_read_boundary entityName q t0 t1 :
  crud_boundary "READ_FAILED" "Failed to read documents: "
    (MongoDBProvider.read mongo entityName q t0 t1).
Proof.
  unfold MongoDBProvider.read.
  boundary (crud_failed "READ_FAILED" "Failed to read documents: ")
           mongo_unfolds.
Qed.

Lemma mongo_update_boundary entityName id data d t0 t1 :
  crud_boundary "UPDATE_FAILED" "Failed to update document: "
    (MongoDBProvider.update mongo entityName id data d t0 t1).
Proof.
  unfold MongoDBProvider.update.
  boundary (crud_failed "UPDATE_FAILED" "Failed to update document: ")
           mongo_unfolds.
Qed.

Lemma mongo_delete_boundary entityName id t0 t1 :
  crud_boundary "DELETE_FAILED" "Failed to delete document: "
    (MongoDBProvider.delete mongo entityName id t0 t1).
Proof.
  unfold MongoDBProvider.delete.
  boundary (crud_failed "DELETE_FAILED" "Failed to delete document: ")
           mongo_unfolds.
Qed.

End Boundaries.

Lemma http_executeQuery_boundary fetch entityName q t0 t1 t2 t3 :
  query_boundary (Js.Arr [])
    (HTTPODataProvider.executeQuery fetch entityName q t0 t1 t2 t3).
Proof.
  unfold HTTPODataProvider.executeQuery.
  boundary (@query_failed Js.Value (Js.Arr []))
           ltac:(fun H => unfold HTTPODataProvider.count_query,
                            HTTPODataProvider.push_time in H).
Qed.

(** C6, at the failing input. On a table (collection) of three rows the
    query [{pagination: {take: 2}}] succeeds on both providers with a page
    of two rows, and both put 3 in [metadata.count]: SQLite reports the
    row count of the whole table, MongoDB reports [countDocuments] of the
    filter. *)
Theorem count_is_the_total_not_the_page_length :
  (exists r st,
      SQLiteProvider.executeQuery sqlite_driver "users" (first_page 2)
        100 105 sqlite_connected = (Exc.Ret r, st)
      /\ success r = true
      /\ data r = [user "ann" 18; user "bob" 30]
      /\ count (metadata r) = Js.Num 3)
  /\ (exists r st,
        MongoDBProvider.executeQuery mongo_driver "users" (first_page 2)
          100 105 mongo_connected = (Exc.Ret r, st)
        /\ success r = true
        /\ data r = [user "ann" 18; user "bob" 30]
        /\ count (metadata r) = Js.Num 3).
Proof.
  split; eexists; eexists; repeat split; reflexivity.
Qed.

(** C7, at the failing input. Every query and CRUD method of the SQLite
    and MongoDB providers, and [executeQuery] of the OData provider,
    returns and never throws; a failure is the result built from the caught
    error, whose single error object has a code, a message, severity
    [error] and [actionable: true], and no [suggestion]. So the query on
    the missing table [orders] returns [{success: false}] with one error
    [QUERY_EXECUTION_FAILED] that carries no suggestion. *)
Theorem failures_are_results_without_suggestion :
  (forall DB (driver : SQLiteProvider.Driver DB) entityName q id data t0 t1,
      query_boundary [] (SQLiteProvider.executeQuery driver entityName q t0 t1)
      /\ crud_boundary "CREATE_FAILED" "Failed to create record: "
           (SQLiteProvider.create driver entityName data t0 t1)
      /\ crud_boundary "READ_FAILED" "Failed to read records: "
           (SQLiteProvider.read driver entityName (Some q) t0 t1)
      /\ crud_boundary "UPDATE_FAILED" "Failed to update record: "
           (SQLiteProvider.update driver entityName id data t0 t1)
      /\ crud_boundary "DELETE_FAILED" "Failed to delete record: "
           (SQLiteProvider.delete driver entityName id t0 t1))
  /\ (forall DB (driver : MongoDBProvider.Driver DB) entityName q id data
             d0 d1 t0 t1,
        query_boundary [] (MongoDBProvider.executeQuery driver entityName q t0 t1)
        /\ crud_boundary "CREATE_FAILED" "Failed to create document: "
             (MongoDBProvider.create driver entityName data d0 d1 t0 t1)
        /\ crud_boundary "READ_FAILED" "Failed to read documents: "
             (MongoDBProvider.read driver entityName (Some q) t0 t1)
        /\ crud_boundary "UPDATE_FAILED" "Failed to update document: "
             (MongoDBProvider.update driver entityName id data d1 t0 t1)
        /\ crud_boundary "DELETE_FAILED" "Failed to delete document: "
             (MongoDBProvider.delete driver entityName id t0 t1))
  /\ (forall fetch entityName q t0 t1 t2 t3,
        query_boundary (Js.Arr [])
          (HTTPODataProvider.executeQuery fetch entityName q t0 t1 t2 t3))
  /\ (forall code prefix e,
        Result.code (caught code prefix e) = code
        /\ message (caught code prefix e) = prefix ++ Exc.message_of e
        /\ severity (caught code prefix e) = "error"
        /\ actionable (caught code prefix e) = true
        /\ suggestion (caught code prefix e) = None)
  /\ (exists r st err,
        SQLiteProvider.executeQuery sqlite_driver "orders" no_filter
          100 105 sqlite_connected = (Exc.Ret r, st)
        /\ success r = false
        /\ errors r = Some [err]
        /\ Result.code err = "QUERY_EXECUTION_FAILED"
        /\ message err = "Query execution failed: no such table"
        /\ suggestion err = None).
Proof.
  split; [|split; [|split; [|split]]].
  - intros. repeat split.
    + apply sqlite_executeQuery_boundary.
    + apply sqlite_create_boundary.
    + apply sqlite_read_boundary.
    + apply sqlite_update_boundary.
    + apply sqlite_delete_boundary.
  - intros. repeat split.
    + apply mongo_executeQuery_boundary.
    + apply mongo_create_boundary.
    + apply mongo_read_boundary.
    + apply mongo_update_boundary.
    + apply mongo_delete_boundary.
  - intros. apply http_executeQuery_boundary.
  - intros. repeat split; reflexivity.
  - eexists. eexists. eexists. repeat split; reflexivity.
Qed.

(** The OData provider turns the failed response of [makeRequest] into a
    thrown error and that error into a failed result. *)
Example http_failure_is_a_result :
  fst (HTTPODataProvider.executeQuery failing_fetch "users"
         (only_filter age_gt_18) 100 101 104 105 http_state)
  = Exc.Ret (query_failed (Js.Arr [])
               (Exc.Error "Query execution failed"
                          "Error: Query execution failed")).
Proof. vm_compute. reflexivity. Qed.

End ProviderFacts.

(** ** The connection pool *)

Module PoolFacts.
Import ConnectionPool Demo.

Lemma get_set_same {V} (k : string) (v : V) (m : JsMap.t V) :
  JsMap.get k (JsMap.set k v m) = Some v.
Proof.
  induction m as [|[k' v'] m IH]; cbn.
  - now rewrite String.eqb_refl.
  - destruct (String.eqb k k') eqn:E; cbn; rewrite ?String.eqb_refl, ?E; auto.
Qed.

Lemma get_set_other {V} (k k' : string) (v : V) (m : JsMap.t V) :
  k <> k' -> JsMap.get k' (JsMap.set k v m) = JsMap.get k' m.
Proof.
  intros Hne. induction m as [|[k0 v0] m IH]; cbn.
  - destruct (String.eqb k' k) eqn:E; [|reflexivity].
    apply String.eqb_eq in E. congruence.
  - destruct (String.eqb k k0) eqn:E; cbn.
    + apply String.eqb_eq in E. subst k0.
      destruct (String.eqb k' k) eqn:E'; [|reflexivity].
      apply String.eqb_eq in E'. congruence.
    + now rewrite IH.
Qed.

Lemma get_delete_same {V} (k : string) (m : JsMap.t V) :
  JsMap.get k (JsMap.delete k m) = None.
Proof.
  unfold JsMap.delete.
  induction m as [|[k' v'] m IH]; cbn; [reflexivity|].
  destruct (String.eqb k k') eqn:E; cbn; rewrite ?E; auto.
Qed.

Lemma get_delete_other {V} (k k' : string) (m : JsMap.t V) :
  k <> k' -> JsMap.get k' (JsMap.delete k m) = JsMap.get k' m.
Proof.
  intros Hne. unfold JsMap.delete.
  induction m as [|[k0 v0] m IH]; cbn; [reflexivity|].
  destruct (String.eqb k k0) eqn:E; cbn.
  - apply String.eqb_eq in E. subst k0.
    destruct (String.eqb k' k) eqn:E'; [|exact IH].
    apply String.eqb_eq in E'. congruence.
  - now rewrite IH.
Qed.

Section WithDrivers.
Context {Handle X : Type}.
Variable drivers : Drivers Handle X.

Lemma createConnection_moves config (s : Sys Handle X) :
  exists r x,
    createConnection drivers config s = (r, moved s x [Connect config])
    /\ (forall c, r = Exc.Ret c ->
        String.eqb (type config) "sqlite" = true -> exists db, c = SQLiteDb db).
Proof.
  unfold createConnection, createMongoDBConnection, createSQLiteConnection,
    createHTTPODataConnection, emit, call, moved.
  unfold Eff.bind, Eff.modify, Eff.lift, Eff.ret, Js.push, with_world.
  cbn [pool timers next_timer trace locals microtasks world].
  destruct (String.eqb (type config) "mongodb") eqn:Em.
  { assert (Es : String.eqb (type config) "sqlite" = false).
    { apply String.eqb_eq in Em. rewrite Em. reflexivity. }
    destruct (import_mongodb drivers) as [[]|e].
    - destruct (missing (connectionString config)).
      + eexists; eexists; split; [reflexivity|]. intros; discriminate.
      + match goal with |- context [mongo_connect drivers ?a ?b ?c ?d] =>
          destruct (mongo_connect drivers a b c d) as [[h|e] x] end;
          cbn [pool timers next_timer trace locals microtasks world];
          eexists; eexists; (split; [reflexivity|]); intros; congruence.
    - eexists; eexists; split; [reflexivity|]. intros; discriminate. }
  destruct (String.eqb (type config) "sqlite") eqn:Es.
  { destruct (import_sqlite drivers) as [[]|e].
    - destruct (missing (filePath config)).
      + eexists; eexists; split; [reflexivity|]. intros; discriminate.
      + match goal with |- context [sqlite_open drivers ?a ?b ?c] =>
          destruct (sqlite_open drivers a b c) as [[h|e] x] end;
          cbn [pool timers next_timer trace locals microtasks world];
          eexists; eexists; (split; [reflexivity|]); intros c Hc _.
        * inversion Hc. now exists h.
        * discriminate.
    - eexists; eexists; split; [reflexivity|]. intros; discriminate. }
  destruct (String.eqb (type config) "http-odata").
  - destruct (missing (baseUrl config));
      eexists; eexists; (split; [reflexivity|]); intros; discriminate.
  - eexists; eexists; split; [reflexivity|]. intros; discriminate.
Qed.

Lemma moved_nil (s : Sys Handle X) (x : X) :
  with_world (fun _ => x) s = moved s x [].
Proof. unfold moved, with_world. now rewrite app_nil_r. Qed.

Lemma moved_same (s : Sys Handle X) : s = moved s (world s) [].
Proof. unfold moved. rewrite app_nil_r. now destruct s. Qed.

Lemma moved_moved (s : Sys Handle X) x evs x' evs' :
  moved (moved s x evs) x' evs' = moved s x' (evs ++ evs').
Proof. unfold moved. cbn. now rewrite app_assoc. Qed.

Ltac quiet_probe b x :=
  exists b, x, []; split; [|now left];
  first [ apply f_equal, moved_same
        | rewrite <- moved_nil; reflexivity ].

Ltac warned_probe x :=
  eexists false, x, [_]; split; [reflexivity|];
  right; split; [reflexivity|]; eexists; reflexivity.

(** A probe returns; it may change the outside world, and when its [try]
    block throws it logs the warning of its [catch]. *)
Lemma isConnectionHealthy_moves connection config (s : Sys Handle X) :
  exists b x evs,
    isConnectionHealthy drivers connection config s
    = (Exc.Ret b, moved s x evs)
    /\ probe_events b evs.
Proof.
  unfold isConnectionHealthy, Eff.try_catch, call, emit.
  unfold Eff.bind, Eff.lift, Eff.ret, Eff.get, Eff.modify, Js.push,
    Exc.throw_TypeError.
  destruct (String.eqb (type config) "mongodb").
  { destruct connection as [db|db|u h t];
      cbn [pool timers next_timer trace locals microtasks world].
    - destruct (mongo_ping drivers db (world s)) as [[[]|e] x];
        cbn [pool timers next_timer trace locals microtasks world with_world].
      + quiet_probe true x.
      + warned_probe x.
    - warned_probe (world s).
    - warned_probe (world s). }
  destruct (String.eqb (type config) "sqlite").
  { destruct connection as [db|db|u h t].
    - quiet_probe false (world s).
    - quiet_probe (sqlite_is_open drivers db (world s)) (world s).
    - quiet_probe false (world s). }
  destruct (String.eqb (type config) "http-odata").
  { destruct connection as [db|db|u h t];
      cbn [pool timers next_timer trace locals microtasks world].
    - warned_probe (world s).
    - warned_probe (world s).
    - destruct (http_head drivers (u ++ "/") h t (world s)) as [[b|e] x];
        cbn [pool timers next_timer trace locals microtasks world with_world].
      + quiet_probe b x.
      + warned_probe x. }
  quiet_probe false (world s).
Qed.

(** What one turn of the retry loop does. *)
Lemma attempt_once_outcome connectionId config maxAttempts attempt
    (s : Sys Handle X) :
  exists s',
    maxRetries (pool s') = maxRetries (pool s)
    /\ retryDelay (pool s') = retryDelay (pool s)
    /\ ((exists c x,
           attempt_once drivers connectionId config maxAttempts attempt s
           = (Exc.Ret (inl c), s')
           /\ createConnection drivers config s
              = (Exc.Ret c, moved s x [Connect config])
           /\ connections (pool s')
              = JsMap.set connectionId c (connections (pool s))
           /\ connectionConfigs (pool s')
              = JsMap.set connectionId config (connectionConfigs (pool s))
           /\ retryAttempts (pool s')
              = JsMap.set connectionId 0 (retryAttempts (pool s))
           /\ trace s'
              = (trace s ++ [Connect config;
                             LogEstablished connectionId attempt])%list)
        \/ (exists e,
              attempt_once drivers connectionId config maxAttempts attempt s
              = (Exc.Ret (inr e), s')
              /\ connections (pool s') = connections (pool s)
              /\ connectionConfigs (pool s') = connectionConfigs (pool s)
              /\ trace s'
                 = (trace s
                    ++ Connect config
                       :: WarnAttemptFailed connectionId attempt e
                       :: (if attempt <? maxAttempts
                           then [LogRetrying connectionId
                                   (retryDelay (pool s) * 2 ^ (attempt - 1));
                                 Sleep (retryDelay (pool s) * 2 ^ (attempt - 1))]
                           else []))%list)).
Proof.
  destruct (createConnection_moves config s) as [r [x [E _]]].
  destruct (attempt_once drivers connectionId config maxAttempts attempt s)
    as [res s'] eqn:A.
  exists s'.
  unfold attempt_once, Eff.try_catch in A. unfold Eff.bind at 1 in A.
  rewrite E in A.
  destruct r as [c|e].
  - unfold startConnectionHealthCheck, setInterval, clearInterval, emit,
      Eff.bind, Eff.modify, Eff.get, Eff.ret, Js.push, moved in A.
    cbn [pool timers next_timer trace locals microtasks world with_pool
         set_connections set_connectionConfigs set_retryAttempts
         set_healthChecks healthChecks connections connectionConfigs
         retryAttempts healthCheckInterval] in A.
    destruct (JsMap.get connectionId (healthChecks (pool s)));
      inversion A; subst; clear A;
      (split; [reflexivity|]; split; [reflexivity|]; left; exists c, x;
       split; [reflexivity|]; split; [exact E|];
       cbn; rewrite <- !app_assoc; repeat split; reflexivity).
  - unfold sleep, emit, Eff.bind, Eff.modify, Eff.get, Eff.ret, Js.push,
      moved in A.
    cbn [pool timers next_timer trace locals microtasks world with_pool
         set_retryAttempts retryDelay] in A.
    destruct (attempt <? maxAttempts);
      inversion A; subst; clear A;
      (split; [reflexivity|]; split; [reflexivity|]; right; exists e;
       cbn; rewrite <- !app_assoc; repeat split; reflexivity).
Qed.

Lemma timing_app (a b : list (Event Handle)) :
  timing (a ++ b) = (timing a ++ timing b)%list.
Proof. unfold timing. apply flat_map_app. Qed.

Lemma last_failure_app (a b : list (Event Handle)) :
  last_failure (a ++ b)
  = match last_failure b with
    | Some e => Some e
    | None => last_failure a
    end.
Proof.
  induction a as [|e a IH]; cbn.
  - now destruct (last_failure b).
  - rewrite IH. now destruct (last_failure b).
Qed.

(** The retry loop, with [n] turns left at attempt number [a]. *)
Lemma retry_loop_outcome connectionId config maxAttempts :
  forall (n : nat) (a : Z) lastError (s : Sys Handle X),
    Z.of_nat n = maxAttempts - a + 1 ->
    exists r s' evs m,
      retry_loop drivers n connectionId config maxAttempts a lastError s
      = (r, s')
      /\ trace s' = (trace s ++ evs)%list
      /\ timing evs = schedule (retryDelay (pool s)) a m
      /\ (m <= n)%nat
      /\ (0 < n -> 0 < m)%nat
      /\ ((exists c evs0,
             r = Exc.Ret c
             /\ connections (pool s')
                = JsMap.set connectionId c (connections (pool s))
             /\ connectionConfigs (pool s')
                = JsMap.set connectionId config (connectionConfigs (pool s))
             /\ JsMap.get connectionId (retryAttempts (pool s')) = Some 0
             /\ (String.eqb (type config) "sqlite" = true ->
                 exists db, c = SQLiteDb db)
             /\ ~ always_fails drivers config
             /\ evs = (evs0 ++ [Connect config;
                                LogEstablished connectionId
                                  (a + Z.of_nat m - 1)])%list)
          \/ (r = Exc.throw_new_Error
                    (exhausted_message connectionId maxAttempts
                       (match last_failure evs with
                        | Some e => Some e
                        | None => lastError
                        end))
              /\ m = n
              /\ connections (pool s') = connections (pool s)
              /\ connectionConfigs (pool s') = connectionConfigs (pool s)
              /\ (0 < n -> last_failure evs <> None)%nat)).
Proof.
  induction n as [|n IH]; intros a lastError s Hn.
  - exists (Exc.throw_new_Error
              (exhausted_message connectionId maxAttempts lastError)),
      s, [], 0%nat.
    cbn. rewrite app_nil_r.
    repeat split; try lia. right. repeat split; lia.
  - destruct (attempt_once_outcome connectionId config maxAttempts a s)
      as [s1 [_ [Hrd [[c [x [A [Hc [Hconn [Hcfg [Hret Htr]]]]]]]
                     | [e [A [Hconn [Hcfg Htr]]]]]]]].
    + exists (Exc.Ret c), s1,
        [Connect config; LogEstablished connectionId a], 1%nat.
      cbn [retry_loop]. unfold Eff.bind. rewrite A.
      split; [reflexivity|]. split; [exact Htr|].
      split; [reflexivity|]. split; [lia|]. split; [lia|].
      left. exists c, []. split; [reflexivity|].
      split; [exact Hconn|]. split; [exact Hcfg|].
      split; [rewrite Hret; apply get_set_same|].
      split.
      { destruct (createConnection_moves config s) as [r [x' [E P]]].
        rewrite Hc in E. inversion E; subst. now apply P. }
      split.
      { intros AF. destruct (AF s) as [e [s2 AFe]].
        rewrite AFe in Hc. discriminate. }
      cbn. replace (a + 1 - 1) with a by lia. reflexivity.
    + destruct (IH (a + 1) (Some e) s1 ltac:(lia))
        as [r [s' [evs2 [m2 [R [Htr2 [Htim [Hle [Hpos Hcase]]]]]]]]].
      set (evs1 := Connect config
                   :: WarnAttemptFailed connectionId a e
                   :: (if a <? maxAttempts
                       then [LogRetrying connectionId
                               (retryDelay (pool s) * 2 ^ (a - 1));
                             Sleep (retryDelay (pool s) * 2 ^ (a - 1))]
                       else [])) in *.
      assert (Hlast1 : last_failure evs1 = Some e)
        by (subst evs1; destruct (a <? maxAttempts); reflexivity).
      exists r, s', (evs1 ++ evs2)%list, (S m2).
      cbn [retry_loop]. unfold Eff.bind. rewrite A.
      split; [exact R|].
      split; [rewrite Htr2, Htr, <- app_assoc; reflexivity|].
      split.
      { rewrite timing_app, Htim, Hrd. subst evs1.
        destruct n as [|n].
        - assert (m2 = 0%nat) by lia. subst m2.
          replace (a <? maxAttempts) with false
            by (symmetry; apply Z.ltb_ge; lia).
          reflexivity.
        - destruct m2 as [|m2]; [lia|].
          replace (a <? maxAttempts) with true
            by (symmetry; apply Z.ltb_lt; lia).
          reflexivity. }
      split; [lia|]. split; [lia|].
      destruct Hcase as [[c [evs0 [-> [Hc' [Hcfg' [Hr' [Hty [Hnaf ->]]]]]]]]
                        | [-> [-> [Hc' [Hcfg' Hnone]]]]].
      * left. exists c, (evs1 ++ evs0)%list.
        split; [reflexivity|].
        split; [rewrite Hc', Hconn; reflexivity|].
        split; [rewrite Hcfg', Hcfg; reflexivity|].
        split; [exact Hr'|]. split; [exact Hty|]. split; [exact Hnaf|].
        rewrite <- app_assoc.
        replace (a + Z.of_nat (S m2) - 1) with (a + 1 + Z.of_nat m2 - 1) by lia.
        reflexivity.
      * right. rewrite last_failure_app, Hlast1.
        split; [destruct (last_failure evs2); reflexivity|].
        split; [reflexivity|].
        split; [rewrite Hc', Hconn; reflexivity|].
        split; [rewrite Hcfg', Hcfg; reflexivity|].
        intros _. destruct (last_failure evs2); discriminate.
Qed.

Lemma schedule_invocations baseDelay :
  forall m k, invocations (schedule baseDelay k m) = m.
Proof.
  induction m as [|m IH]; intros k; [reflexivity|].
  destruct m as [|m]; [reflexivity|].
  change (schedule baseDelay k (S (S m)))
    with (Invoke :: Wait (baseDelay * 2 ^ (k - 1))
                 :: schedule baseDelay (k + 1) (S m)).
  unfold invocations in *. cbn [List.filter List.length].
  now rewrite IH.
Qed.


Lemma createConnectionWithRetry_outcome connectionId config (s : Sys Handle X) :
  0 <= maxRetries (pool s) ->
  exists r s' evs m,
    createConnectionWithRetry drivers connectionId config s = (r, s')
    /\ trace s' = (trace s ++ evs)%list
    /\ timing evs = schedule (retryDelay (pool s)) 1 m
    /\ (1 <= m <= Z.to_nat (maxRetries (pool s) + 1))%nat
    /\ ((exists c evs0,
           r = Exc.Ret c
           /\ connections (pool s')
              = JsMap.set connectionId c (connections (pool s))
           /\ connectionConfigs (pool s')
              = JsMap.set connectionId config (connectionConfigs (pool s))
           /\ JsMap.get connectionId (retryAttempts (pool s')) = Some 0
           /\ (String.eqb (type config) "sqlite" = true ->
               exists db, c = SQLiteDb db)
           /\ ~ always_fails drivers config
           /\ evs = (evs0 ++ [Connect config;
                              LogEstablished connectionId (Z.of_nat m)])%list)
        \/ (exists e,
              r = Exc.throw_new_Error
                    (exhausted_message connectionId (maxRetries (pool s) + 1)
                                       (Some e))
              /\ last_failure evs = Some e
              /\ m = Z.to_nat (maxRetries (pool s) + 1)
              /\ connections (pool s') = connections (pool s)
              /\ connectionConfigs (pool s') = connectionConfigs (pool s))).
Proof.
  intros Hmax.
  unfold createConnectionWithRetry, Eff.bind, Eff.get.
  destruct (retry_loop_outcome connectionId config (maxRetries (pool s) + 1)
              (Z.to_nat (maxRetries (pool s) + 1)) 1 None s ltac:(lia))
    as [r [s' [evs [m [R [Htr [Htim [Hle [Hpos Hcase]]]]]]]]].
  exists r, s', evs, m.
  split; [exact R|]. split; [exact Htr|]. split; [exact Htim|].
  split; [lia|].
  destruct Hcase as [[c [evs0 [-> [Hc [Hcfg [Hr [Hty [Hnaf ->]]]]]]]]
                    | [-> [-> [Hc [Hcfg Hsome]]]]].
  - left. exists c, evs0. repeat split; try assumption.
    replace (1 + Z.of_nat m - 1) with (Z.of_nat m) by lia. reflexivity.
  - right. destruct (last_failure evs) as [e|] eqn:L.
    + exists e. repeat split; assumption.
    + exfalso. apply Hsome; [lia | reflexivity].
Qed.

Lemma failures_app (a b : list (Event Handle)) :
  failures (a ++ b) = (failures a + failures b)%nat.
Proof. unfold failures. now rewrite filter_app, length_app. Qed.

Lemma invocations_app (a b : list Timing) :
  invocations (a ++ b) = (invocations a + invocations b)%nat.
Proof. unfold invocations. now rewrite filter_app, length_app. Qed.

(** The events of a probe are no part of the retry schedule. *)
Lemma probe_events_quiet b (pre : list (Event Handle)) :
  probe_events b pre ->
  timing pre = [] /\ last_failure pre = None /\ failures pre = 0%nat.
Proof. intros [-> | [_ [e ->]]]; repeat split. Qed.

(** With no healthy connection stored, [getConnection] is the probe, if a
    connection is stored, followed by [createConnectionWithRetry]. *)
Lemma getConnection_probes_then_retries connectionId config
    (s : Sys Handle X) :
  no_healthy_connection drivers connectionId config s ->
  exists x pre,
    getConnection drivers connectionId config s
    = createConnectionWithRetry drivers connectionId config (moved s x pre)
    /\ probe_events false pre.
Proof.
  intros Hno. unfold getConnection, no_healthy_connection in *.
  unfold Eff.bind at 1. unfold Eff.get at 1.
  destruct (JsMap.get connectionId (connections (pool s))) as [c|].
  - destruct (isConnectionHealthy_moves c config s) as [b [x [pre [E Hp]]]].
    rewrite E in Hno. cbn in Hno. inversion Hno; subst b.
    unfold Eff.bind. rewrite E. now exists x, pre.
  - exists (world s), []. rewrite <- moved_same. split; [reflexivity|now left].
Qed.

(** Every invocation the retry loop makes is a failed attempt, but the
    last one when the loop returns a connection. *)
Lemma retry_loop_failures connectionId config maxAttempts :
  forall (n : nat) (a : Z) lastError (s : Sys Handle X),
    exists r s' evs,
      retry_loop drivers n connectionId config maxAttempts a lastError s
      = (r, s')
      /\ trace s' = (trace s ++ evs)%list
      /\ ((exists c, r = Exc.Ret c)
          /\ invocations (timing evs) = S (failures evs)
          \/ (exists e, r = Exc.Throw e)
             /\ invocations (timing evs) = failures evs).
Proof.
  induction n as [|n IH]; intros a lastError s.
  - eexists. exists s, []. split; [reflexivity|].
    split; [now rewrite app_nil_r|]. right. split; [|reflexivity].
    eexists. reflexivity.
  - cbn [retry_loop]. unfold Eff.bind.
    destruct (attempt_once_outcome connectionId config maxAttempts a s)
      as [s1 [_ [_ [[c [x [-> [_ [_ [_ [_ T]]]]]]] | [e [-> [_ [_ T]]]]]]]].
    + exists (Exc.Ret c), s1. eexists. split; [reflexivity|].
      split; [exact T|]. left. split; [now exists c|reflexivity].
    + destruct (IH (a + 1) (Some e) s1) as [r [s2 [evs2 [-> [T2 H2]]]]].
      exists r, s2. eexists. split; [reflexivity|].
      split; [rewrite T2, T, <- app_assoc; reflexivity|].
      rewrite timing_app, invocations_app, failures_app.
      assert (Hhead :
                invocations
                  (@timing Handle
                     (Connect config
                      :: WarnAttemptFailed connectionId a e
                      :: (if a <? maxAttempts
                          then [LogRetrying connectionId
                                  (retryDelay (pool s) * 2 ^ (a - 1));
                                Sleep (retryDelay (pool s) * 2 ^ (a - 1))]
                          else []))) = 1%nat
                /\ @failures Handle
                     (Connect config
                      :: WarnAttemptFailed connectionId a e
                      :: (if a <? maxAttempts
                          then [LogRetrying connectionId
                                  (retryDelay (pool s) * 2 ^ (a - 1));
                                Sleep (retryDelay (pool s) * 2 ^ (a - 1))]
                          else [])) = 1%nat).
      { destruct (a <? maxAttempts); split; reflexivity. }
      destruct Hhead as [-> ->].
      destruct H2 as [[Hr E] | [Hr E]]; [left|right];
        (split; [exact Hr|]); rewrite E; reflexivity.
Qed.


(** *** Statistics *)

Lemma stats_visit_outcome ref total entry (s : Sys Handle X) :
  exists total' s',
    stats_visit drivers ref total entry s = (Exc.Ret total', s')
    /\ locals s' = locals s /\ pool s' = pool s.
Proof.
  destruct entry as [connectionId connection].
  unfold stats_visit. unfold Eff.bind at 1. unfold Eff.get at 1.
  destruct (JsMap.get connectionId (connectionConfigs (pool s))) as [config|].
  - destruct (isConnectionHealthy_moves connection config s)
      as [b [x [pre [E _]]]].
    unfold Eff.bind, then_, Eff.modify, Eff.get, Eff.ret. rewrite E.
    eexists; eexists; repeat split; reflexivity.
  - unfold Eff.bind, Eff.get, Eff.ret.
    eexists; eexists; repeat split; reflexivity.
Qed.

Lemma stats_forEach_outcome ref :
  forall entries total (s : Sys Handle X),
    exists total' s',
      stats_forEach drivers ref total entries s = (Exc.Ret total', s')
      /\ locals s' = locals s /\ pool s' = pool s.
Proof.
  induction entries as [|entry entries IH]; intros total s.
  - exists total, s. repeat split; reflexivity.
  - cbn [stats_forEach]. unfold Eff.bind.
    destruct (stats_visit_outcome ref total entry s) as [t1 [s1 [E [L1 P1]]]].
    rewrite E.
    destruct (IH t1 s1) as [t2 [s2 [E2 [L2 P2]]]].
    exists t2, s2. split; [exact E2 | split; congruence].
Qed.

Lemma getConnectionStats_outcome now (s : Sys Handle X) :
  exists stats s',
    getConnectionStats drivers now s = (Exc.Ret stats, s')
    /\ pool s' = pool s
    /\ activeConnections stats = 0
    /\ totalQueries stats = 0
    /\ connected stats = (0 <? JsMap.size (connections (pool s))).
Proof.
  unfold getConnectionStats.
  unfold Eff.bind at 1. unfold Eff.get at 1.
  unfold Eff.bind at 1. unfold new_local at 1.
  unfold Eff.bind at 1.
  match goal with
  | |- context [stats_forEach drivers ?r ?t ?es ?s0] =>
      destruct (stats_forEach_outcome r es t s0) as [t1 [s1 [E [L P]]]];
      rewrite E
  end.
  unfold read_local, Eff.bind, Eff.get, Eff.ret.
  eexists; eexists. split; [reflexivity|].
  cbn [activeConnections totalQueries connected].
  split; [exact P|]. split; [|split; reflexivity].
  rewrite L. cbn [locals]. unfold Js.push.
  rewrite app_nth2 by lia. now rewrite Nat.sub_diag.
Qed.

(** C10. In every state of the pool, whatever the health of its
    connections, the object [getConnectionStats] returns has
    [activeConnections] 0 and [totalQueries] 0: the callbacks that count
    healthy connections are still in the microtask queue when the object
    is built. *)
Theorem stats_report_no_active_connections :
  forall now (s : Sys Handle X),
    exists stats s',
      getConnectionStats drivers now s = (Exc.Ret stats, s')
      /\ activeConnections stats = 0
      /\ totalQueries stats = 0.
Proof.
  intros now s.
  destruct (getConnectionStats_outcome now s) as [st [s' [E [_ [A [Q _]]]]]].
  exists st, s'. repeat split; assumption.
Qed.

(** *** Removing connections *)

Lemma get_In {V} (k : string) (v : V) (m : JsMap.t V) :
  JsMap.get k m = Some v -> In (k, v) m.
Proof.
  induction m as [|[k' v'] m IH]; cbn; [discriminate|].
  destruct (String.eqb k k') eqn:E.
  - apply String.eqb_eq in E. subst k'. intros H. inversion H. now left.
  - intros H. right. now apply IH.
Qed.

Lemma delete_absent {V} (k : string) (m : JsMap.t V) :
  JsMap.get k m = None -> JsMap.delete k m = m.
Proof.
  unfold JsMap.delete.
  induction m as [|[k' v'] m IH]; cbn; [reflexivity|].
  destruct (String.eqb k k') eqn:E; [discriminate|].
  intros H. cbn. now rewrite IH.
Qed.

Lemma get_in_keys {V} (k : string) (v : V) (m : JsMap.t V) :
  JsMap.get k m = Some v -> In k (JsMap.keys m).
Proof.
  intros H. apply get_In in H. unfold JsMap.keys.
  apply in_map_iff. now exists (k, v).
Qed.

Lemma keys_delete {V} (k k' : string) (m : JsMap.t V) :
  In k' (JsMap.keys (JsMap.delete k m)) -> k <> k' /\ In k' (JsMap.keys m).
Proof.
  unfold JsMap.keys, JsMap.delete. intros H.
  apply in_map_iff in H. destruct H as [[k0 v0] [E Hin]]. cbn in E. subst k0.
  apply filter_In in Hin. destruct Hin as [Hin Hne]. cbn in Hne.
  apply negb_true_iff in Hne. split.
  - intros ->. rewrite String.eqb_refl in Hne. discriminate.
  - apply in_map_iff. now exists (k', v0).
Qed.

Lemma keys_set {V} (k k' : string) (v : V) (m : JsMap.t V) :
  In k' (JsMap.keys (JsMap.set k v m)) -> k' = k \/ In k' (JsMap.keys m).
Proof.
  unfold JsMap.keys. induction m as [|[k0 v0] m IH]; cbn.
  - intros [H | []]. now left.
  - destruct (String.eqb k k0) eqn:E; cbn.
    + apply String.eqb_eq in E. subst k0. tauto.
    + intros [H | H]; [tauto|]. destruct (IH H); tauto.
Qed.

Lemma consistent_lookup (s : Sys Handle X) connectionId c :
  consistent s = true ->
  JsMap.get connectionId (connections (pool s)) = Some c ->
  consistent_at (connections (pool s)) (connectionConfigs (pool s))
                connectionId = true.
Proof.
  unfold consistent. intros H G.
  rewrite forallb_forall in H. apply H. now apply (get_in_keys _ c).
Qed.

Lemma consistent_delete connectionId (conns : JsMap.t (Connection Handle))
    (configs : JsMap.t IConnectionConfig) :
  forallb (consistent_at conns configs) (JsMap.keys conns) = true ->
  forallb (consistent_at (JsMap.delete connectionId conns)
                         (JsMap.delete connectionId configs))
          (JsMap.keys (JsMap.delete connectionId conns)) = true.
Proof.
  intros H. rewrite forallb_forall in *. intros k Hin.
  apply keys_delete in Hin. destruct Hin as [Hne Hin].
  specialize (H _ Hin). unfold consistent_at in *.
  now rewrite !get_delete_other.
Qed.

Lemma consistent_set connectionId c config
    (conns : JsMap.t (Connection Handle))
    (configs : JsMap.t IConnectionConfig) :
  forallb (consistent_at conns configs) (JsMap.keys conns) = true ->
  (String.eqb (type config) "sqlite" = true -> exists db, c = SQLiteDb db) ->
  forallb (consistent_at (JsMap.set connectionId c conns)
                         (JsMap.set connectionId config configs))
          (JsMap.keys (JsMap.set connectionId c conns)) = true.
Proof.
  intros H Hty. rewrite forallb_forall in *. intros k Hin.
  unfold consistent_at.
  destruct (String.eqb connectionId k) eqn:E.
  - apply String.eqb_eq in E. subst k. rewrite !get_set_same.
    destruct c as [db|db|u h t]; [|reflexivity|];
      (destruct (String.eqb (type config) "sqlite"); [|reflexivity];
       destruct (Hty eq_refl) as [db' Hdb]; discriminate).
  - assert (Hne : connectionId <> k)
      by (intros ->; rewrite String.eqb_refl in E; discriminate).
    rewrite !get_set_other by exact Hne.
    apply keys_set in Hin. destruct Hin as [-> | Hin]; [congruence|].
    apply (H _ Hin).
Qed.

(** What [removeConnection] does to the pool and the timers of a
    consistent state. *)
Lemma removeConnection_outcome connectionId (s : Sys Handle X) :
  consistent s = true ->
  exists s',
    removeConnection drivers connectionId s = (Exc.Ret tt, s')
    /\ connections (pool s') = JsMap.delete connectionId (connections (pool s))
    /\ connectionConfigs (pool s')
       = JsMap.delete connectionId (connectionConfigs (pool s))
    /\ healthChecks (pool s')
       = JsMap.delete connectionId (healthChecks (pool s))
    /\ timers s'
       = match JsMap.get connectionId (healthChecks (pool s)) with
         | Some handle =>
             List.filter (fun t => negb (Nat.eqb (timer_id t) handle)) (timers s)
         | None => timers s
         end
    /\ consistent s' = true.
Proof.
  intros Hc.
  assert (Hdel : consistent
                   (with_pool (fun p =>
                      set_connectionConfigs (JsMap.delete connectionId)
                        (set_connections (JsMap.delete connectionId) p)) s)
                 = true).
  { unfold consistent in *. cbn. now apply consistent_delete. }
  pose proof (consistent_lookup s connectionId) as Hl.
  specialize (fun c => Hl c Hc).
  unfold consistent in *.
  unfold removeConnection, emit, clearInterval.
  unfold Eff.bind, Eff.get, Eff.modify, Eff.ret, Eff.lift, Js.push.
  destruct (JsMap.get connectionId (connections (pool s))) as [c|] eqn:G.
  - specialize (Hl c eq_refl). unfold consistent_at in Hl. rewrite G in Hl.
    destruct (JsMap.get connectionId (connectionConfigs (pool s)))
      as [config|] eqn:Gc.
    + destruct c as [db|db|u h t];
        destruct (String.eqb (type config) "mongodb") eqn:Em;
        destruct (String.eqb (type config) "sqlite") eqn:Es;
        try discriminate Hl;
        cbn [pool timers next_timer trace locals microtasks world with_pool
             with_world set_connections set_connectionConfigs
             set_retryAttempts set_healthChecks healthChecks connections
             connectionConfigs retryAttempts];
        destruct (JsMap.get connectionId (healthChecks (pool s))) eqn:Gh;
        (eexists; split; [reflexivity|]);
        cbn [pool timers next_timer trace locals microtasks world with_pool
             with_world set_connections set_connectionConfigs
             set_retryAttempts set_healthChecks healthChecks connections
             connectionConfigs retryAttempts];
        rewrite ?(delete_absent _ _ Gh);
        repeat split; try reflexivity; exact Hdel.
    + destruct c as [db|db|u h t];
        cbn [pool timers next_timer trace locals microtasks world with_pool
             with_world set_connections set_connectionConfigs
             set_retryAttempts set_healthChecks healthChecks connections
             connectionConfigs retryAttempts];
        destruct (JsMap.get connectionId (healthChecks (pool s))) eqn:Gh;
        (eexists; split; [reflexivity|]);
        cbn [pool timers next_timer trace locals microtasks world with_pool
             with_world set_connections set_connectionConfigs
             set_retryAttempts set_healthChecks healthChecks connections
             connectionConfigs retryAttempts];
        rewrite ?(delete_absent _ _ Gh);
        repeat split; try reflexivity; exact Hdel.
  - cbn [pool timers next_timer trace locals microtasks world with_pool
         with_world set_connections set_connectionConfigs
         set_retryAttempts set_healthChecks healthChecks connections
         connectionConfigs retryAttempts];
      destruct (JsMap.get connectionId (healthChecks (pool s))) eqn:Gh;
      (eexists; split; [reflexivity|]);
      cbn [pool timers next_timer trace locals microtasks world with_pool
           with_world set_connections set_connectionConfigs
           set_retryAttempts set_healthChecks healthChecks connections
           connectionConfigs retryAttempts];
      rewrite ?(delete_absent _ _ Gh);
      repeat split; try reflexivity; exact Hdel.
Qed.

Lemma filter_drops_handle (h : nat) (l : list Timer) :
  ~ In h (map timer_id
            (List.filter (fun t => negb (Nat.eqb (timer_id t) h)) l)).
Proof.
  intros Hin. apply in_map_iff in Hin. destruct Hin as [t0 [E Hin]].
  apply filter_In in Hin. destruct Hin as [_ Hne].
  rewrite E, Nat.eqb_refl in Hne. discriminate.
Qed.

Lemma filter_keeps_absent (h h0 : nat) (l : list Timer) :
  ~ In h (map timer_id l) ->
  ~ In h (map timer_id
            (List.filter (fun t => negb (Nat.eqb (timer_id t) h0)) l)).
Proof.
  intros Hn Hin. apply Hn. apply in_map_iff in Hin.
  destruct Hin as [t0 [E Hin]]. apply filter_In in Hin.
  apply in_map_iff. exists t0. tauto.
Qed.

Lemma removeConnection_keeps_cleared connectionId (s s' : Sys Handle X) id h :
  consistent s = true ->
  removeConnection drivers connectionId s = (Exc.Ret tt, s') ->
  cleared_or_registered s id h -> cleared_or_registered s' id h.
Proof.
  intros Hc R Q.
  destruct (removeConnection_outcome connectionId s Hc)
    as [s1 [R1 [_ [_ [Hh [Ht _]]]]]].
  rewrite R in R1. inversion R1; subst s1; clear R1.
  unfold cleared_or_registered, timer_ids in *. rewrite Ht, Hh.
  destruct Q as [Q | Q].
  - left. destruct (JsMap.get connectionId (healthChecks (pool s)));
      [now apply filter_keeps_absent | exact Q].
  - destruct (String.eqb connectionId id) eqn:E.
    + apply String.eqb_eq in E. subst id. rewrite Q.
      left. apply filter_drops_handle.
    + right. rewrite get_delete_other; [exact Q|].
      intros ->. rewrite String.eqb_refl in E. discriminate.
Qed.

Lemma removeAll_outcome :
  forall ids (s : Sys Handle X),
    consistent s = true ->
    exists s',
      removeAll drivers ids s = (Exc.Ret tt, s')
      /\ connections (pool s')
         = fold_left (fun m k => JsMap.delete k m) ids (connections (pool s))
      /\ consistent s' = true
      /\ (forall id h,
            cleared_or_registered s id h -> cleared_or_registered s' id h).
Proof.
  induction ids as [|k ids IH]; intros s Hc.
  - exists s. repeat split; auto.
  - destruct (removeConnection_outcome k s Hc)
      as [s1 [R1 [Hconn [_ [_ [_ Hc1]]]]]].
    destruct (IH s1 Hc1) as [s2 [R2 [Hconn2 [Hc2 Hq]]]].
    exists s2. cbn [removeAll fold_left]. unfold Eff.bind. rewrite R1.
    split; [exact R2|]. split; [rewrite Hconn2, Hconn; reflexivity|].
    split; [exact Hc2|].
    intros id h Q. apply Hq.
    now apply (removeConnection_keeps_cleared k s s1).
Qed.

Lemma delete_every_key {V} :
  forall ids (m : JsMap.t V),
    (forall k v, In (k, v) m -> In k ids) ->
    fold_left (fun m k => JsMap.delete k m) ids m = [].
Proof.
  induction ids as [|k ids IH]; intros m H; cbn [fold_left].
  - destruct m as [|[k v] m]; [reflexivity|].
    exfalso. apply (H k v). now left.
  - apply IH. intros k' v' Hin.
    unfold JsMap.delete in Hin. apply filter_In in Hin.
    destruct Hin as [Hin Hne]. cbn in Hne. apply negb_true_iff in Hne.
    destruct (H k' v' Hin) as [-> | Hids]; [|exact Hids].
    rewrite String.eqb_refl in Hne. discriminate.
Qed.

Lemma clearAll_outcome :
  forall handles (s : Sys Handle X),
    exists s',
      clearAll handles s = (Exc.Ret tt, s')
      /\ pool s' = pool s
      /\ (forall h, In h handles -> ~ In h (timer_ids s'))
      /\ (forall h, ~ In h (timer_ids s) -> ~ In h (timer_ids s')).
Proof.
  induction handles as [|h0 handles IH]; intros s.
  - exists s. repeat split; auto.
  - cbn [clearAll]. unfold Eff.bind, clearInterval, Eff.modify.
    match goal with
    | |- context [clearAll handles ?s0] =>
        destruct (IH s0) as [s' [R [Hp [Hin Hout]]]]
    end.
    exists s'. split; [exact R|]. split; [exact Hp|].
    unfold timer_ids in *. cbn [timers] in *.
    split.
    + intros h [-> | Hh]; [|now apply Hin].
      apply Hout. apply filter_drops_handle.
    + intros h Hn. apply Hout. now apply filter_keeps_absent.
Qed.

(** What [closeAll] does achieve. On a just-constructed (empty) pool it
    changes nothing and completes without error, and the statistics then
    report [connected === false]. On any pool whose stored configs belong
    to the stored connections, [closeAll] completes without error; it
    leaves no connection and no entry in [healthChecks], and every timer
    that was registered there is cancelled; a second [closeAll] completes
    without error and changes nothing; afterwards the statistics report
    [connected === false]. The interval of the constructor is no such
    timer. *)
Theorem closeAll_is_idempotent :
  (forall x now,
      closeAll drivers (new_pool x) = (Exc.Ret tt, new_pool x)
      /\ exists stats s',
           getConnectionStats drivers now (new_pool x) = (Exc.Ret stats, s')
           /\ connected stats = false)
  /\ (forall s : Sys Handle X,
        consistent s = true ->
        exists s1,
          closeAll drivers s = (Exc.Ret tt, s1)
          /\ closeAll drivers s1 = (Exc.Ret tt, s1)
          /\ connections (pool s1) = []
          /\ healthChecks (pool s1) = []
          /\ (forall id h,
                JsMap.get id (healthChecks (pool s)) = Some h ->
                ~ In h (timer_ids s1))
          /\ forall now, exists stats s2,
               getConnectionStats drivers now s1 = (Exc.Ret stats, s2)
               /\ connected stats = false).
Proof.
  split.
  - intros x now. split; [reflexivity|].
    destruct (getConnectionStats_outcome now (new_pool x))
      as [st [s' [E [_ [_ [_ C]]]]]].
    exists st, s'. split; [exact E|]. rewrite C. reflexivity.
  - intros s Hc.
    destruct (removeAll_outcome (JsMap.keys (connections (pool s))) s Hc)
      as [sa [Ra [Hconn [_ Hq]]]].
    destruct (clearAll_outcome (map snd (healthChecks (pool sa))) sa)
      as [sb [Rb [Hp [Hin Hout]]]].
    assert (Hempty : connections (pool sa) = []).
    { rewrite Hconn. apply delete_every_key. intros k v Hkv.
      unfold JsMap.keys. apply in_map_iff. now exists (k, v). }
    exists (with_pool (set_healthChecks (fun _ => JsMap.empty)) sb).
    split.
    { unfold closeAll. unfold Eff.bind at 1. unfold Eff.get at 1.
      unfold Eff.bind at 1. rewrite Ra.
      unfold Eff.bind at 1. unfold Eff.get at 1.
      unfold Eff.bind. rewrite Rb. reflexivity. }
    split.
    { unfold closeAll, Eff.bind, Eff.get, Eff.modify.
      cbn [pool with_pool set_healthChecks connections healthChecks].
      rewrite Hp, Hempty. reflexivity. }
    split; [cbn; rewrite Hp; exact Hempty|].
    split; [reflexivity|].
    split.
    { intros id h G.
      assert (Q : cleared_or_registered sa id h) by (apply Hq; now right).
      change (timer_ids (with_pool (set_healthChecks (fun _ => JsMap.empty)) sb))
        with (timer_ids sb).
      destruct Q as [Q | Q]; [now apply Hout|].
      apply Hin. apply in_map_iff. exists (id, h).
      split; [reflexivity | now apply get_In]. }
    intros now.
    destruct (getConnectionStats_outcome now
                (with_pool (set_healthChecks (fun _ => JsMap.empty)) sb))
      as [st [s2 [E [_ [_ [_ C]]]]]].
    exists st, s2. split; [exact E|]. rewrite C.
    cbn [pool with_pool set_healthChecks connections].
    rewrite Hp, Hempty. reflexivity.
Qed.

(** *** A successful [getConnection] *)

Lemma no_attempts_throw connectionId config (s : Sys Handle X) :
  maxRetries (pool s) < 0 ->
  exists e,
    createConnectionWithRetry drivers connectionId config s = (Exc.Throw e, s).
Proof.
  intros Hneg. unfold createConnectionWithRetry, Eff.bind, Eff.get.
  replace (Z.to_nat (maxRetries (pool s) + 1)) with 0%nat by lia.
  eexists. reflexivity.
Qed.

Lemma getConnection_success connectionId config (s s' : Sys Handle X) c :
  no_healthy_connection drivers connectionId config s ->
  getConnection drivers connectionId config s = (Exc.Ret c, s') ->
  JsMap.get connectionId (connections (pool s')) = Some c
  /\ JsMap.get connectionId (retryAttempts (pool s')) = Some 0
  /\ exists evs n,
       trace s' = (trace s ++ evs)%list
       /\ invocations (timing evs) = n
       /\ (1 <= n)%nat
       /\ Z.of_nat n <= maxRetries (pool s) + 1
       /\ exists evs0,
            evs = (evs0 ++ [Connect config;
                            LogEstablished connectionId (Z.of_nat n)])%list.
Proof.
  intros Hno G.
  destruct (getConnection_probes_then_retries connectionId config s Hno)
    as [x [pre [E Hpre]]].
  destruct (probe_events_quiet _ _ Hpre) as [Tpre _].
  rewrite E in G. clear E.
  destruct (Z_lt_ge_dec (maxRetries (pool (moved s x pre))) 0)
    as [Hneg | Hpos].
  { destruct (no_attempts_throw connectionId config (moved s x pre) Hneg)
      as [e E].
    rewrite E in G. discriminate. }
  destruct (createConnectionWithRetry_outcome connectionId config
              (moved s x pre) ltac:(lia))
    as [r [s2 [evs [m [R [Htr [Htim [Hm Hcase]]]]]]]].
  rewrite R in G. inversion G; subst r s2; clear G.
  destruct Hcase as [[c' [evs0 [Hr [Hc [_ [Hz [_ [_ Hev]]]]]]]]
                    | [e [Hr _]]]; [|discriminate].
  inversion Hr; subst c'; clear Hr.
  cbn [pool moved trace] in *.
  split; [rewrite Hc; apply get_set_same|].
  split; [exact Hz|].
  exists (pre ++ evs)%list, m.
  split; [rewrite Htr, app_assoc; reflexivity|].
  split; [rewrite timing_app, Tpre, Htim; apply schedule_invocations|].
  split; [lia|]. split; [lia|].
  exists (pre ++ evs0)%list. rewrite Hev, app_assoc. reflexivity.
Qed.

(** *** The pool stays consistent *)

Lemma new_pool_consistent (x : X) : consistent (new_pool (Handle := Handle) x) = true.
Proof. reflexivity. Qed.

Lemma getConnection_keeps_consistent connectionId config
    (s s' : Sys Handle X) r :
  consistent s = true ->
  getConnection drivers connectionId config s = (r, s') ->
  consistent s' = true.
Proof.
  intros Hc G.
  assert (Hretry : forall s1 : Sys Handle X,
             pool s1 = pool s ->
             createConnectionWithRetry drivers connectionId config s1 = (r, s') ->
             consistent s' = true).
  { intros s1 Hp R.
    destruct (Z_lt_ge_dec (maxRetries (pool s1)) 0) as [Hneg | Hpos].
    - destruct (no_attempts_throw connectionId config s1 Hneg) as [e E].
      rewrite E in R. inversion R; subst.
      unfold consistent in *. now rewrite Hp.
    - destruct (createConnectionWithRetry_outcome connectionId config s1
                  ltac:(lia))
        as [r' [s2 [evs [m [R' [_ [_ [_ Hcase]]]]]]]].
      rewrite R in R'. inversion R'; subst r' s2; clear R'.
      unfold consistent in *.
      destruct Hcase as [[c [evs0 [_ [Hconn [Hcfg [_ [Hty _]]]]]]]
                        | [e [_ [_ [_ [Hconn Hcfg]]]]]].
      + rewrite Hconn, Hcfg, Hp. now apply consistent_set.
      + now rewrite Hconn, Hcfg, Hp. }
  unfold getConnection in G.
  unfold Eff.bind at 1 in G. unfold Eff.get at 1 in G.
  destruct (JsMap.get connectionId (connections (pool s))) as [c|].
  - destruct (isConnectionHealthy_moves c config s) as [b [x [pre [E _]]]].
    unfold Eff.bind in G. rewrite E in G.
    destruct b.
    + inversion G; subst. exact Hc.
    + now apply (Hretry (moved s x pre)).
  - now apply (Hretry s).
Qed.

End WithDrivers.

(** *** Concrete runs *)

Lemma bad_config_always_fails : always_fails flaky_drivers bad_config.
Proof.
  intros s. eexists. eexists. reflexivity.
Defined.


(** A connector that fails four times and would succeed at the fifth: with
    the defaults all four attempts of the call fail, the sleeps are 1000,
    2000 and 4000 ms, the call throws the error that names the last
    failure, and the pool holds no connection. *)
Example four_transient_failures_are_fatal :
  exists s',
    getConnection flaky_drivers "main" sqlite_config (fresh_pool 4)
    = (Exc.throw_new_Error
         "Failed to establish connection main after 4 attempts: unable to open database file",
       s')
    /\ failures (skipn (List.length (trace (fresh_pool 4))) (trace s')) = 4%nat
    /\ timing (trace s')
       = [Invoke; Wait 1000; Invoke; Wait 2000; Invoke; Wait 4000; Invoke]
    /\ connections (pool s') = []
    /\ world s' = 0%nat.
Proof.
  exists (snd (getConnection flaky_drivers "main" sqlite_config
                 (fresh_pool 4))).
  vm_compute. repeat split; reflexivity.
Qed.

(** With the defaults ([maxRetries] 3, [retryDelay] 1000) a connector that
    always fails is invoked four times, with sleeps of 1000, 2000 and
    4000 ms in between; the error names the last failure and the pool
    holds no connection. *)
Example four_attempts_then_fatal_error :
  exists s',
    getConnection flaky_drivers "main" bad_config (fresh_pool 0)
    = (Exc.throw_new_Error
         "Failed to establish connection main after 4 attempts: SQLite file path is required",
       s')
    /\ timing (trace s')
       = [Invoke; Wait 1000; Invoke; Wait 2000; Invoke; Wait 4000; Invoke]
    /\ connections (pool s') = []
    /\ retryAttempts (pool s') = [("main", 4)].
Proof.
  exists (snd (getConnection flaky_drivers "main" bad_config (fresh_pool 0))).
  vm_compute. repeat split; reflexivity.
Qed.

(** C4, as the code has it. When [getConnection] finds no healthy
    connection and succeeds after [n] connector attempts
    ([1 <= n <= maxRetries + 1]), it stores the new connection under the
    id and sets the id's retry count to 0. In particular, with the default
    [maxRetries] 3 and a connector that fails exactly twice and then
    succeeds, [getConnection] returns the handle after exactly 3 connector
    invocations and the recorded retry count is 0. *)
Theorem successful_getConnection_records_zero_retries :
  (forall Handle X (drivers : Drivers Handle X) connectionId config
          (s s' : Sys Handle X) c,
      no_healthy_connection drivers connectionId config s ->
      getConnection drivers connectionId config s = (Exc.Ret c, s') ->
      JsMap.get connectionId (connections (pool s')) = Some c
      /\ JsMap.get connectionId (retryAttempts (pool s')) = Some 0
      /\ exists evs n,
           trace s' = (trace s ++ evs)%list
           /\ invocations (timing evs) = n
           /\ (1 <= n)%nat
           /\ Z.of_nat n <= maxRetries (pool s) + 1
           /\ exists evs0,
                evs = (evs0 ++ [Connect config;
                                LogEstablished connectionId (Z.of_nat n)])%list)
  /\ (exists s',
        getConnection flaky_drivers "main" sqlite_config (fresh_pool 2)
        = (Exc.Ret (SQLiteDb 7%nat), s')
        /\ maxRetries (pool (fresh_pool 2)) = 3
        /\ invocations (timing (trace s')) = 3%nat
        /\ JsMap.get "main" (connections (pool s')) = Some (SQLiteDb 7%nat)
        /\ JsMap.get "main" (retryAttempts (pool s')) = Some 0).
Proof.
  split.
  - intros. now apply (getConnection_success drivers connectionId config s s').
  - exists (snd (getConnection flaky_drivers "main" sqlite_config
                   (fresh_pool 2))).
    vm_compute. repeat split; reflexivity.
Qed.

Lemma successful_getConnection_records_zero_retries_witness :
  no_healthy_connection flaky_drivers "main" sqlite_config (fresh_pool 2)
  /\ JsMap.get "main"
       (retryAttempts
          (pool (snd (getConnection flaky_drivers "main" sqlite_config
                        (fresh_pool 2)))))
     = Some 0.
Proof.
  split; [exact I|].
  exact (proj1 (proj2
    (proj1 successful_getConnection_records_zero_retries
       nat nat flaky_drivers "main" sqlite_config (fresh_pool 2)
       (snd (getConnection flaky_drivers "main" sqlite_config (fresh_pool 2)))
       (SQLiteDb 7%nat) I ltac:(vm_compute; reflexivity)))).
Defined.

(** C4, as stated, fails: the connector fails twice and then succeeds, so
    [getConnection] succeeds after 3 attempts, and the retry count stored
    for the id is 0, not 3 - 1. *)
Lemma retry_count_is_not_attempts_minus_one :
  exists c s',
    getConnection flaky_drivers "main" sqlite_config (fresh_pool 2)
    = (Exc.Ret c, s')
    /\ invocations (timing (trace s')) = 3%nat
    /\ JsMap.get "main" (retryAttempts (pool s')) = Some 0
    /\ JsMap.get "main" (retryAttempts (pool s'))
       <> Some (Z.of_nat (invocations (timing (trace s'))) - 1).
Proof.
  exists (SQLiteDb 7%nat),
    (snd (getConnection flaky_drivers "main" sqlite_config (fresh_pool 2))).
  vm_compute. repeat split; try reflexivity. discriminate.
Qed.

Lemma closeAll_is_idempotent_witness :
  consistent pool_with_main = true
  /\ connections (pool pool_with_main) = [("main", SQLiteDb 7%nat)]
  /\ exists s1,
       closeAll flaky_drivers pool_with_main = (Exc.Ret tt, s1)
       /\ closeAll flaky_drivers s1 = (Exc.Ret tt, s1)
       /\ connections (pool s1) = []
       /\ healthChecks (pool s1) = []
       /\ (forall id h,
             JsMap.get id (healthChecks (pool pool_with_main)) = Some h ->
             ~ In h (timer_ids s1))
       /\ forall now, exists stats s2,
            getConnectionStats flaky_drivers now s1 = (Exc.Ret stats, s2)
            /\ connected stats = false.
Proof.
  split; [vm_compute; reflexivity|]. split; [vm_compute; reflexivity|].
  exact (proj2 (closeAll_is_idempotent flaky_drivers) pool_with_main
           ltac:(vm_compute; reflexivity)).
Defined.

(** C8. [closeAll] does not leave the pool without an active
    health-check timer. The constructor starts the pool-wide health check
    with [setInterval] and drops the handle, so [closeAll], which cancels
    the handles kept in [healthChecks], cannot cancel it. On a
    just-constructed pool [closeAll] completes and changes nothing, the
    30-second interval included; on the pool that holds the connection
    [main], a first and a second [closeAll] complete, the pool holds no
    connection and no entry in [healthChecks], the statistics report
    [connected === false], and that interval is still registered. *)
Theorem closeAll_leaves_the_sweep_timer :
  (forall (Handle X : Type) (drivers : Drivers Handle X) (x : X),
      closeAll drivers (new_pool x) = (Exc.Ret tt, new_pool x)
      /\ timers (new_pool (Handle := Handle) x)
         = [{| timer_id := 0; job := GlobalHealthCheck; interval := 30000 |}])
  /\ exists s1 stats s2,
       closeAll flaky_drivers pool_with_main = (Exc.Ret tt, s1)
       /\ closeAll flaky_drivers s1 = (Exc.Ret tt, s1)
       /\ connections (pool s1) = []
       /\ healthChecks (pool s1) = []
       /\ getConnectionStats flaky_drivers 1234 s1 = (Exc.Ret stats, s2)
       /\ connected stats = false
       /\ timers s1
          = [{| timer_id := 0; job := GlobalHealthCheck; interval := 30000 |}].
Proof.
  split.
  - intros Handle X drivers x. split; reflexivity.
  - exists (snd (closeAll flaky_drivers pool_with_main)).
    destruct (getConnectionStats flaky_drivers 1234
                (snd (closeAll flaky_drivers pool_with_main)))
      as [r s2] eqn:E.
    vm_compute in E. injection E as <- <-.
    eexists. eexists.
    vm_compute. repeat split; reflexivity.
Qed.

(** The counter of healthy connections does move, but only when the
    microtasks run, after the statistics object has been built. *)
Example healthy_count_arrives_after_return :
  exists stats s',
    getConnectionStats flaky_drivers 1234 pool_with_main = (Exc.Ret stats, s')
    /\ connected stats = true
    /\ activeConnections stats = 0
    /\ locals s' = [0]
    /\ locals (run_microtasks s') = [1].
Proof.
  exists {| connected := true; uptime := 1234; activeConnections := 0;
            totalQueries := 0; averageQueryTime := 0;
            lastConnectionAttempt := 1234;
            lastSuccessfulConnection := 1234 |},
    (snd (getConnectionStats flaky_drivers 1234 pool_with_main)).
  vm_compute. repeat split; reflexivity.
Qed.

End PoolFacts.

(* ================================================================== *)
(** * Further properties of the translators *)
(* ================================================================== *)

Module FilterFacts.
Import Query JsText.

Lemma count_char_app c (a b : string) :
  count_char c (a ++ b) = (count_char c a + count_char c b)%nat.
Proof.
  induction a as [|d a IH]; cbn; [reflexivity|]. rewrite IH. lia.
Qed.

Lemma count_char_join c sep (l : list string) :
  count_char c sep = 0%nat ->
  count_char c (Js.join sep l) = list_sum (map (count_char c) l).
Proof.
  intros Hsep. unfold Js.join.
  induction l as [|x l IH]; [reflexivity|].
  destruct l as [|y l].
  - cbn. lia.
  - change (String.concat sep (x :: y :: l))
      with (x ++ sep ++ String.concat sep (y :: l)).
    rewrite !count_char_app, IH, Hsep. reflexivity.
Qed.

Lemma placeholders_count (l : list Js.Value) :
  count_char "?" (Js.join ", " (map (fun _ => "?") l)) = List.length l.
Proof.
  rewrite count_char_join by reflexivity.
  induction l as [|x l IH]; cbn; [reflexivity|]. now rewrite <- IH.
Qed.

(** X1. Whatever the filter, the SQL fragment of
    [convertODataFilterToSQL] gains exactly one [?] for each value it
    appends to the parameter array, and the parameters already there stay
    in front. *)
Theorem sql_placeholders_match_parameters (f : IQueryFilter)
    (params : list Js.Value) :
  exists pushed,
    snd (SQLiteProvider.convertODataFilterToSQL (Some f) params)
    = (params ++ pushed)%list
    /\ count_char "?"
         (fst (SQLiteProvider.convertODataFilterToSQL (Some f) params))
       = (count_char "?" (Js.template (Query.field f))
          + List.length pushed)%nat.
Proof.
  unfold SQLiteProvider.convertODataFilterToSQL.
  repeat match goal with
  | |- context [if SQLiteProvider.is_case ?o ?l then _ else _] =>
      destruct (SQLiteProvider.is_case o l)
  end;
  cbn [fst snd];
  eexists; (split; [reflexivity|]);
  rewrite ?count_char_app, ?placeholders_count; cbn; lia.
Qed.













(** The projection lists its array-index keys first and in ascending
    order, and [__proto__] makes no key of it. *)
Example projection_keys_in_object_order :
  MongoDBProvider.projection_of
    {| filter := None;
       select := Some {| fields := ["b"; "10"; "__proto__"; "2"; "b"];
                         exclude := None |};
       orderBy := None; pagination := None; count := None |}
  = [("2", Js.Num 1); ("10", Js.Num 1); ("b", Js.Num 1); ("_id", Js.Num 0)].
Proof. reflexivity. Qed.

Lemma literal_body_quoted (s : string) :
  literal_body (s ++ "'") = Some s.
Proof.
  induction s as [|c s IH]; [reflexivity|].
  cbn [append literal_body]. rewrite IH.
  destruct (s ++ "'") eqn:E; [destruct s; discriminate|reflexivity].
Qed.

Lemma undouble_double_quotes (s : string) :
  undouble (Js.double_quotes s) = s.
Proof.
  induction s as [|c s IH]; [reflexivity|].
  cbn [Js.double_quotes].
  destruct (Ascii.eqb c "'") eqn:E.
  - apply Ascii.eqb_eq in E. subst c. cbn. now rewrite IH.
  - cbn [undouble]. rewrite E. cbn [andb]. rewrite IH.
    destruct (Js.double_quotes s) eqn:D; [|reflexivity].
    destruct s as [|d s]; [reflexivity|].
    cbn in D. destruct (Ascii.eqb d "'"); discriminate.
Qed.

(** X3. The literal [formatODataValue] writes for a string can be read
    back: taking off the enclosing quotes and reading each doubled quote
    as one gives the string again, so two strings never share a
    literal. *)
Theorem odata_string_literal_round_trip (s : string) :
  read_literal (HTTPODataProvider.formatODataValue (Js.Str s)) = Some s.
Proof.
  unfold HTTPODataProvider.formatODataValue, read_literal.
  cbn [append]. rewrite Ascii.eqb_refl, literal_body_quoted.
  cbn [option_map]. now rewrite undouble_double_quotes.
Qed.














Lemma substitution_plain matched before after (repl : string) :
  count_char "$" repl = 0%nat ->
  Js.substitution matched before after repl = repl.
Proof.
  induction repl as [|c r IH]; [reflexivity|].
  cbn [count_char Js.substitution].
  destruct (Ascii.eqb c "$") eqn:E.
  - apply Ascii.eqb_eq in E. subst c. cbn. discriminate.
  - rewrite Ascii.eqb_sym in E. rewrite E. cbn. intros H. now rewrite IH.
Qed.

Lemma append_empty_r (s : string) : s ++ "" = s.
Proof. induction s as [|c s IH]; cbn; [reflexivity|]. now rewrite IH. Qed.

Lemma substring_all (s : string) :
  String.substring 0 (String.length s) s = s.
Proof. induction s as [|c s IH]; cbn; [reflexivity|]. now rewrite IH. Qed.

Lemma replace_select_star (tail repl : string) :
  Js.replace ("SELECT * FROM " ++ tail) "*" repl
  = "SELECT "
    ++ Js.substitution "*" "SELECT " (" FROM " ++ tail) repl
    ++ " FROM " ++ tail.
Proof.
  unfold Js.replace.
  replace (String.index 0 "*" ("SELECT * FROM " ++ tail)) with (Some 7%nat)
    by reflexivity.
  replace (String.substring 0 7 ("SELECT * FROM " ++ tail)) with "SELECT "
    by reflexivity.
  replace (String.substring (7 + String.length "*")
             (String.length ("SELECT * FROM " ++ tail)
              - (7 + String.length "*"))
             ("SELECT * FROM " ++ tail))
    with (" FROM " ++ tail).
  - reflexivity.
  - cbn. now rewrite substring_all.
Qed.

Lemma projected_names_the_fields (entityName : string) (query : IQuery)
    (sel : IQuerySelect) :
  select query = Some sel ->
  count_char "$" (Js.join ", " (fields sel)) = 0%nat ->
  SQLiteProvider.projected query
    (fst (SQLiteProvider.filtered entityName query))
  = "SELECT " ++ Js.join ", " (fields sel) ++ " FROM " ++ entityName
    ++ match filter query with
       | Some f =>
           " WHERE "
           ++ fst (SQLiteProvider.convertODataFilterToSQL (Some f) [])
       | None => ""
       end.
Proof.
  intros Hsel Hplain. unfold SQLiteProvider.projected. rewrite Hsel.
  assert (E : exists tail,
             fst (SQLiteProvider.filtered entityName query)
             = "SELECT * FROM " ++ tail
             /\ tail = entityName
                       ++ match filter query with
                          | Some f =>
                              " WHERE "
                              ++ fst (SQLiteProvider.convertODataFilterToSQL
                                        (Some f) [])
                          | None => ""
                          end).
  { unfold SQLiteProvider.filtered. destruct (filter query) as [f|].
    - destruct (SQLiteProvider.convertODataFilterToSQL (Some f) [])
        as [w ps].
      eexists. split; [|reflexivity]. cbn [fst].
      now rewrite <- !TranslatorFacts.append_assoc.
    - eexists. split; [|reflexivity]. cbn [fst].
      now rewrite append_empty_r. }
  destruct E as [tail [-> <-]].
  rewrite replace_select_star, substitution_plain by exact Hplain.
  reflexivity.
Qed.

(** X5. When the selected field names hold no [$],
    [SQLiteProvider.executeQuery] names them in place of the star of
    [SELECT *] and nowhere else: a star in the table name or in the WHERE
    clause is left alone. The statement it runs is [SELECT], the field
    names joined with a comma, [FROM], the table name and the WHERE
    clause of the filter, with the ORDER BY and LIMIT clauses of the query
    after it, and its parameters are those of the filter: on a provider
    with a database, the rows the driver answers this statement with are
    the [data] of a successful result, and an error the driver throws on
    it makes the failed result. *)
Theorem selected_fields_replace_the_select_star (entityName : string)
    (query : IQuery) (sel : IQuerySelect) :
  select query = Some sel ->
  count_char "$" (Js.join ", " (fields sel)) = 0%nat ->
  exists sql params,
    sql = SQLiteProvider.paginated query
            (SQLiteProvider.sorted query
               ("SELECT " ++ Js.join ", " (fields sel)
                ++ " FROM " ++ entityName
                ++ match filter query with
                   | Some f =>
                       " WHERE "
                       ++ fst (SQLiteProvider.convertODataFilterToSQL
                                 (Some f) [])
                   | None => ""
                   end))
    /\ params = match filter query with
                | Some f =>
                    snd (SQLiteProvider.convertODataFilterToSQL (Some f) [])
                | None => []
                end
    /\ forall (DB : Type) (driver : SQLiteProvider.Driver DB)
         (st : SQLiteProvider.State DB) (db : DB) (startTime endTime : Z),
         SQLiteProvider.database st = Some db ->
         (forall rows props,
             SQLiteProvider.stmt_all driver db sql params = Exc.Ret rows ->
             SQLiteProvider.stmt_get driver db
               ("SELECT COUNT(*) as count FROM " ++ entityName) []
             = Exc.Ret (Js.Obj props) ->
             fst (SQLiteProvider.executeQuery driver entityName query
                    startTime endTime st)
             = Exc.Ret {| Result.data := rows;
                          Result.success := true;
                          Result.errors := None;
                          Result.metadata :=
                            {| Result.count := Js.lookup "count" props;
                               Result.executionTime := endTime - startTime;
                               Result.cacheStatus := "miss" |} |})
         /\ (forall e,
             SQLiteProvider.stmt_all driver db sql params = Exc.Throw e ->
             fst (SQLiteProvider.executeQuery driver entityName query
                    startTime endTime st)
             = Exc.Ret (Result.query_failed [] e)).
Proof.
  intros Hsel Hplain.
  eexists. eexists. split; [reflexivity|]. split; [reflexivity|].
  intros DB driver st db startTime endTime Hdb.
  apply TranslatorFacts.sqlite_executeQuery_runs_the_statement;
    [|exact Hdb].
  unfold SQLiteProvider.selectSQL.
  rewrite <- (projected_names_the_fields entityName query sel Hsel Hplain).
  unfold SQLiteProvider.filtered.
  destruct (filter query) as [f|]; [|reflexivity].
  destruct (SQLiteProvider.convertODataFilterToSQL (Some f) []);
    reflexivity.
Qed.

Lemma selected_fields_replace_the_select_star_witness :
  fst (SQLiteProvider.executeQuery DemoMore.paging_driver "users"
         {| filter := None;
            select := Some {| fields := ["name"]; exclude := None |};
            orderBy := Some [{| order_field := "name";
                                direction := "desc" |}];
            pagination := Some {| skip := None; take := None |};
            count := None |}
         100 105 Demo.sqlite_connected)
  = Exc.Ret {| Result.data := [Js.Obj [("name", Js.Str "cy")];
                               Js.Obj [("name", Js.Str "bob")];
                               Js.Obj [("name", Js.Str "ann")]];
               Result.success := true;
               Result.errors := None;
               Result.metadata :=
                 {| Result.count := Js.Num 3;
                    Result.executionTime := 5;
                    Result.cacheStatus := "miss" |} |}.
Proof.
  destruct (selected_fields_replace_the_select_star "users"
              {| filter := None;
                 select := Some {| fields := ["name"]; exclude := None |};
                 orderBy := Some [{| order_field := "name";
                                     direction := "desc" |}];
                 pagination := Some {| skip := None; take := None |};
                 count := None |}
              {| fields := ["name"]; exclude := None |}
              eq_refl eq_refl)
    as (sql & params & -> & -> & Hrun).
  exact (proj1 (Hrun _ DemoMore.paging_driver Demo.sqlite_connected
                  Demo.three_users 100 105 eq_refl)
           [Js.Obj [("name", Js.Str "cy")];
            Js.Obj [("name", Js.Str "bob")];
            Js.Obj [("name", Js.Str "ann")]]
           [("count", Js.Num 3)] eq_refl eq_refl).
Defined.

(** A star in the WHERE clause stays where it is. *)
Example star_in_the_filter_is_kept :
  fst (SQLiteProvider.selectSQL "notes"
         {| filter := Some (leaf "a*b" "eq" (Js.Str "x"));
            select := Some {| fields := ["id"; "note"]; exclude := None |};
            orderBy := None; pagination := None; count := None |})
  = "SELECT id, note FROM notes WHERE a*b = ?".
Proof. reflexivity. Qed.

End FilterFacts.

(* ================================================================== *)
(** * Further properties of the providers *)
(* ================================================================== *)

Module SchemaFacts.
Import Query Result SQLiteSchema.

(** Case analysis on every driver answer a method body asks for. *)
Ltac by_cases :=
  repeat match goal with
  | |- context [match ?x with _ => _ end] =>
      lazymatch x with
      | context [match _ with _ => _ end] => fail
      | _ => destruct x eqn:?
      end
  end.

Section SQLite.
Context {DB : Type}.
Variable driver : SQLiteProvider.Driver DB.

(** X6. The two column-type maps of [SQLiteProvider] are stable under a
    round trip: a column type written by [mapODataTypeToSQLite] and read
    back by [mapSQLiteTypeToOData] is written the same way again, and the
    other way round. *)
Theorem column_type_round_trip_is_stable (odataType sqliteType : string) :
  mapODataTypeToSQLite (mapSQLiteTypeToOData (mapODataTypeToSQLite odataType))
  = mapODataTypeToSQLite odataType
  /\ mapSQLiteTypeToOData
       (mapODataTypeToSQLite (mapSQLiteTypeToOData sqliteType))
     = mapSQLiteTypeToOData sqliteType.
Proof.
  split.
  - unfold mapODataTypeToSQLite at 2 3.
    repeat match goal with
    | |- context [if ?c then _ else _] => destruct c
    end; reflexivity.
  - unfold mapSQLiteTypeToOData at 2 3.
    repeat match goal with
    | |- context [if ?c then _ else _] => destruct c
    end; reflexivity.
Qed.

Ltac counted_call :=
  intros st; unfold counted, SQLiteProvider.count_query,
    SQLiteProvider.push_time, SQLiteProvider.db_all, SQLiteProvider.db_get,
    SQLiteProvider.db_run, SQLiteProvider.no_database, Exc.throw_TypeError,
    Js.push;
  unfold Eff.try_catch, Eff.prop, Eff.bind, Eff.ret, Eff.modify, Eff.lift,
    Eff.get;
  cbn [SQLiteProvider.database SQLiteProvider.totalQueries
       SQLiteProvider.queryTimes SQLiteProvider.connected];
  by_cases;
  eexists; eexists; (split; [reflexivity|]); cbn; auto.

(** X7. Each of [executeQuery], [create], [read], [update], [delete] and
    [executeSQL] of [SQLiteProvider] returns a result, raises
    [totalQueries] by exactly one whether it succeeds or fails, and
    records its running time exactly when the result says success. *)
Theorem sqlite_methods_count_every_call (entityName : string)
    (query : IQuery) (filter : option IQuery) (id : Js.Value)
    (data : list (string * Js.Value)) (sql : string)
    (params : option (list Js.Value)) (t0 t1 : Z) :
  forall st,
    counted success (t1 - t0)
      (SQLiteProvider.executeQuery driver entityName query t0 t1) st
    /\ counted crud_success (t1 - t0)
         (SQLiteProvider.create driver entityName data t0 t1) st
    /\ counted crud_success (t1 - t0)
         (SQLiteProvider.read driver entityName filter t0 t1) st
    /\ counted crud_success (t1 - t0)
         (SQLiteProvider.update driver entityName id data t0 t1) st
    /\ counted crud_success (t1 - t0)
         (SQLiteProvider.delete driver entityName id t0 t1) st
    /\ counted crud_success (t1 - t0) (executeSQL driver sql params t0 t1) st.
Proof.
  intros st. repeat split; revert st.
  - unfold SQLiteProvider.executeQuery. counted_call.
  - unfold SQLiteProvider.create. counted_call.
  - unfold SQLiteProvider.read. counted_call.
  - unfold SQLiteProvider.update. counted_call.
  - unfold SQLiteProvider.delete. counted_call.
  - unfold executeSQL. counted_call.
Qed.

Ltac sqlite_call :=
  unfold SQLiteProvider.db_get, SQLiteProvider.db_run,
    SQLiteProvider.no_database, Exc.throw_TypeError, Exc.throw_new_Error;
  unfold Eff.try_catch, Eff.bind, Eff.ret, Eff.lift;
  cbn [SQLiteProvider.database SQLiteProvider.totalQueries
       SQLiteProvider.queryTimes SQLiteProvider.connected].

(** X8. [SQLiteProvider.exists] never throws and never changes the
    provider, not even [totalQueries]; whatever goes wrong, and a provider
    that is not connected, gives [false]. *)
Theorem sqlite_exists_never_throws (entityName : string) (id : Js.Value)
    (st : SQLiteProvider.State DB) :
  exists b,
    exists_ driver entityName id st = (Exc.Ret b, st)
    /\ (SQLiteProvider.database st = None -> b = false)
    /\ (forall db e,
          SQLiteProvider.database st = Some db ->
          SQLiteProvider.stmt_get driver db
            ("SELECT 1 FROM " ++ entityName ++ " WHERE rowid = ?") [id]
          = Exc.Throw e ->
          b = false).
Proof.
  unfold exists_. sqlite_call.
  destruct (SQLiteProvider.database st) as [db|] eqn:D.
  - destruct (SQLiteProvider.stmt_get driver db _ [id]) as [v|e] eqn:G.
    + eexists. split; [reflexivity|]. split; [discriminate|].
      intros db' e' Hdb. inversion Hdb; subst. congruence.
    + exists false. split; [reflexivity|]. split; reflexivity.
  - exists false. split; [reflexivity|]. split; [reflexivity|].
    intros; discriminate.
Qed.

(** X9. [createTable] and [dropTable] let a failure out as an exception:
    either the statement ran, and the counters are as before, or an
    [Error] is thrown whose message is the driver's behind a fixed prefix
    and the provider is unchanged. On a provider that is not connected
    they throw. *)
Theorem schema_statements_throw_on_failure (tableName : string)
    (fields : list (string * FieldDef)) (st : SQLiteProvider.State DB) :
  ((exists st',
      createTable driver tableName fields st = (Exc.Ret tt, st')
      /\ SQLiteProvider.database st <> None
      /\ SQLiteProvider.totalQueries st' = SQLiteProvider.totalQueries st
      /\ SQLiteProvider.queryTimes st' = SQLiteProvider.queryTimes st)
   \/ (exists m,
         createTable driver tableName fields st
         = (Exc.throw_new_Error ("Failed to create table: " ++ m), st)))
  /\ ((exists st',
         dropTable driver tableName st = (Exc.Ret tt, st')
         /\ SQLiteProvider.database st <> None
         /\ SQLiteProvider.totalQueries st' = SQLiteProvider.totalQueries st
         /\ SQLiteProvider.queryTimes st' = SQLiteProvider.queryTimes st)
      \/ (exists m,
            dropTable driver tableName st
            = (Exc.throw_new_Error ("Failed to drop table: " ++ m), st))).
Proof.
  unfold createTable, dropTable. sqlite_call.
  destruct (SQLiteProvider.database st) as [db|] eqn:D.
  - split.
    + destruct (SQLiteProvider.stmt_run driver db _ []) as [[r db']|e];
        [left|right]; eexists; repeat split; try reflexivity; discriminate.
    + destruct (SQLiteProvider.stmt_run driver db _ []) as [[r db']|e];
        [left|right]; eexists; repeat split; try reflexivity; discriminate.
  - split; right; eexists; reflexivity.
Qed.

End SQLite.

Section Mongo.
Context {DB : Type}.
Variable driver : MongoDBProvider.Driver DB.
Variable findOne_with :
  DB -> string -> Js.Value -> Js.Value -> Exc.t Js.Value.

Ltac mongo_counted_call :=
  intros st; unfold MongoDBExists.counted, MongoDBExists.counted_early,
    MongoDBProvider.count_query,
    MongoDBProvider.push_time, MongoDBProvider.convertToObjectId,
    MongoDBProvider.db_read, MongoDBProvider.db_write,
    MongoDBProvider.no_database, Exc.throw_TypeError, Js.push;
  unfold Eff.try_catch, Eff.prop, Eff.bind, Eff.ret, Eff.modify, Eff.lift,
    Eff.get;
  cbn [MongoDBProvider.database MongoDBProvider.totalQueries
       MongoDBProvider.queryTimes MongoDBProvider.connected];
  by_cases;
  eexists; eexists; (split; [reflexivity|]); cbn; auto.

(** X10. Each of [executeQuery], [create], [read], [update] and [delete]
    of [MongoDBProvider] returns a result and raises [totalQueries] by
    exactly one whether it succeeds or fails. [executeQuery], [create] and
    [read] record their running time exactly when the result says
    success; [update] and [delete] record it when they succeed, and a
    failed call has recorded it or not. *)
Theorem mongo_methods_count_every_call (entityName : string)
    (query : IQuery) (filter : option IQuery) (id : Js.Value)
    (data : list (string * Js.Value)) (d0 d1 : Js.Value) (t0 t1 : Z) :
  forall st,
    MongoDBExists.counted success (t1 - t0)
      (MongoDBProvider.executeQuery driver entityName query t0 t1) st
    /\ MongoDBExists.counted crud_success (t1 - t0)
         (MongoDBProvider.create driver entityName data d0 d1 t0 t1) st
    /\ MongoDBExists.counted crud_success (t1 - t0)
         (MongoDBProvider.read driver entityName filter t0 t1) st
    /\ MongoDBExists.counted_early crud_success (t1 - t0)
         (MongoDBProvider.update driver entityName id data d1 t0 t1) st
    /\ MongoDBExists.counted_early crud_success (t1 - t0)
         (MongoDBProvider.delete driver entityName id t0 t1) st.
Proof.
  intros st. repeat split; revert st.
  - unfold MongoDBProvider.executeQuery. mongo_counted_call.
  - unfold MongoDBProvider.create. mongo_counted_call.
  - unfold MongoDBProvider.read. mongo_counted_call.
  - unfold MongoDBProvider.update. mongo_counted_call.
  - unfold MongoDBProvider.delete. mongo_counted_call.
Qed.

(** X11. [MongoDBProvider.exists] never throws and never changes the
    provider, not even [totalQueries]; a provider that is not connected
    gives [false]. *)
Theorem mongo_exists_never_throws (entityName : string) (id : Js.Value)
    (st : MongoDBProvider.State DB) :
  exists b,
    MongoDBExists.exists_ driver findOne_with entityName id st
    = (Exc.Ret b, st)
    /\ (MongoDBProvider.database st = None -> b = false).
Proof.
  unfold MongoDBExists.exists_, MongoDBProvider.convertToObjectId,
    MongoDBProvider.db_read, MongoDBProvider.no_database,
    Exc.throw_TypeError.
  unfold Eff.try_catch, Eff.bind, Eff.ret, Eff.lift.
  destruct (MongoDBProvider.database st) as [db|] eqn:D.
  - by_cases; eexists; (split; [reflexivity|]); discriminate.
  - exists false. split; reflexivity.
Qed.

(** X12. When the driver's [findOneAndUpdate] resolves to [null],
    [MongoDBProvider.update] returns a failure, although the driver call
    has been made, the database is the one it left, and the running time
    has been recorded. *)
Theorem mongo_update_with_null_result_fails_after_the_write
    (entityName : string) (id objectId : Js.Value)
    (data : list (string * Js.Value)) (updatedAt : Js.Value) (t0 t1 : Z)
    (st : MongoDBProvider.State DB) (db db' : DB) :
  MongoDBProvider.database st = Some db ->
  (forall s, MongoDBProvider.convertToObjectId driver id s
             = (Exc.Ret objectId, s)) ->
  MongoDBProvider.findOneAndUpdate driver db entityName
    (Js.Obj [("_id", objectId)])
    (Js.Obj [("$set", Js.Obj (Js.set_prop "updatedAt" updatedAt data))])
  = Exc.Ret (Js.Null, db') ->
  exists res st',
    MongoDBProvider.update driver entityName id data updatedAt t0 t1 st
    = (Exc.Ret res, st')
    /\ crud_success res = false
    /\ MongoDBProvider.database st' = Some db'
    /\ MongoDBProvider.queryTimes st'
       = Js.push (MongoDBProvider.queryTimes st) (t1 - t0).
Proof.
  intros Hdb Hid Hnull.
  unfold MongoDBProvider.update, MongoDBProvider.count_query,
    MongoDBProvider.push_time, MongoDBProvider.db_write,
    MongoDBProvider.db_read.
  unfold Eff.try_catch, Eff.prop. unfold Eff.bind at 1.
  unfold Eff.modify at 1. unfold Eff.bind at 1. rewrite Hid.
  unfold Eff.bind, Eff.ret, Eff.modify, Eff.lift, Exc.throw_TypeError.
  cbn [MongoDBProvider.database]. rewrite Hdb, Hnull.
  eexists. eexists. split; [reflexivity|]. repeat split.
Qed.

End Mongo.

Lemma mongo_update_with_null_result_fails_after_the_write_witness :
  exists res st',
    MongoDBProvider.update DemoMore.mongo_null_driver "users" (Js.Num 1)
      [("name", Js.Str "Ann")] (Js.Date "2024-01-01T00:00:00.000Z" "Mon")
      10 25 DemoMore.mongo_null_connected
    = (Exc.Ret res, st')
    /\ crud_success res = false
    /\ MongoDBProvider.database st' = Some 1%nat
    /\ MongoDBProvider.queryTimes st' = Js.push [] (25 - 10).
Proof.
  apply (mongo_update_with_null_result_fails_after_the_write
           DemoMore.mongo_null_driver "users" (Js.Num 1) (Js.Num 1)
           [("name", Js.Str "Ann")] (Js.Date "2024-01-01T00:00:00.000Z" "Mon")
           10 25 DemoMore.mongo_null_connected 0%nat 1%nat).
  - reflexivity.
  - intros s. reflexivity.
  - reflexivity.
Defined.

End SchemaFacts.

(* ================================================================== *)
(** * Further properties of the OData service client *)
(* ================================================================== *)

Module ServiceFacts.
Import Query Result HTTPODataProvider HTTPODataService.

Lemma makeRequest_one_answer
    (fetch1 fetch2 : string -> RequestInit -> Exc.t Response)
    (path : string) (options : RequestOptions) (t0 t1 : Z) (st : State) :
  fetch1 (request_url st path) (request_init st options)
  = fetch2 (request_url st path) (request_init st options) ->
  makeRequest fetch1 path options t0 t1 st
  = makeRequest fetch2 path options t0 t1 st.
Proof.
  unfold request_url, request_init, makeRequest.
  unfold Eff.try_catch, Eff.bind, Eff.ret, Eff.lift, Eff.get,
    Exc.throw_TypeError.
  destruct options as [m h b]. cbn [opt_method opt_headers opt_body].
  intros H.
  destruct h as [h|];
    (destruct b as [b|]; [destruct (Js.truthy b)|]);
    cbn [method req_headers body spread fold_left] in *; rewrite <- H;
    reflexivity.
Qed.

Lemma makeRequest_returns (fetch : string -> RequestInit -> Exc.t Response)
    (path : string) (options : RequestOptions) (t0 t1 : Z) (st : State) :
  exists response,
    makeRequest fetch path options t0 t1 st = (Exc.Ret response, st).
Proof.
  unfold makeRequest.
  unfold Eff.try_catch, Eff.bind, Eff.ret, Eff.lift, Eff.get,
    Exc.throw_TypeError.
  SchemaFacts.by_cases; eexists; reflexivity.
Qed.

(** X13. [makeRequest] never throws and never changes the provider, and
    it consults [fetch] for one request only: the URL is [path] when that
    starts with [http] and the base URL followed by [path] otherwise; with
    [options.headers] given, the request carries those headers alone; a
    [body] given in [options] is sent, as its JSON text when it is truthy
    and as the value it is (an empty string, 0, [false] or [null])
    otherwise. Two services that answer this request alike are not told
    apart. *)
Theorem makeRequest_asks_for_one_request
    (fetch1 fetch2 : string -> RequestInit -> Exc.t Response)
    (path : string) (options : RequestOptions) (t0 t1 : Z) (st : State) :
  fetch1 (request_url st path) (request_init st options)
  = fetch2 (request_url st path) (request_init st options) ->
  makeRequest fetch1 path options t0 t1 st
  = makeRequest fetch2 path options t0 t1 st
  /\ exists response,
       makeRequest fetch1 path options t0 t1 st = (Exc.Ret response, st).
Proof.
  intros H. split.
  - now apply makeRequest_one_answer.
  - apply makeRequest_returns.
Qed.

Lemma makeRequest_asks_for_one_request_witness :
  makeRequest Demo.failing_fetch "/Users?$count=true" no_options 0 5
    Demo.http_state
  = makeRequest DemoMore.picky_fetch "/Users?$count=true" no_options 0 5
      Demo.http_state
  /\ exists response,
       makeRequest Demo.failing_fetch "/Users?$count=true" no_options 0 5
         Demo.http_state
       = (Exc.Ret response, Demo.http_state).
Proof.
  apply (makeRequest_asks_for_one_request Demo.failing_fetch
           DemoMore.picky_fetch "/Users?$count=true" no_options 0 5
           Demo.http_state).
  reflexivity.
Defined.

(** A body that is present but falsy is sent as it is; a truthy one is
    sent as its JSON text; without a body the request has none. *)
Example falsy_body_is_sent :
  body (request_init Demo.http_state
          {| opt_method := Some "POST"; opt_headers := None;
             opt_body := Some (Js.Str "") |})
  = Some (Js.Str "")
  /\ body (request_init Demo.http_state
             {| opt_method := Some "POST"; opt_headers := None;
                opt_body := Some (Js.Bool false) |})
     = Some (Js.Bool false)
  /\ body (request_init Demo.http_state
             {| opt_method := Some "POST"; opt_headers := None;
                opt_body := Some (Js.Num 5) |})
     = Some (Js.Str "5")
  /\ body (request_init Demo.http_state no_options) = None.
Proof. repeat split; reflexivity. Qed.

(** X14. A request that passes its own [headers] is sent without the
    provider's authentication headers: whatever [setAuthHeaders] has
    stored makes no difference to what [makeRequest] returns. *)
Theorem own_headers_replace_the_auth_headers
    (fetch : string -> RequestInit -> Exc.t Response) (path : string)
    (options : RequestOptions) (own auth : list (string * string))
    (t0 t1 : Z) (p : Provider) :
  opt_headers options = Some own ->
  fst (makeRequest fetch path options t0 t1 (core (setAuthHeaders auth p)))
  = fst (makeRequest fetch path options t0 t1 (core p)).
Proof.
  intros Hown.
  set (answer := fetch (request_url (core p) path)
                       (request_init (core p) options)).
  rewrite (makeRequest_one_answer fetch (fun _ _ => answer)
             path options t0 t1 (core p)) by reflexivity.
  rewrite (makeRequest_one_answer fetch (fun _ _ => answer)
             path options t0 t1 (core (setAuthHeaders auth p))).
  - unfold makeRequest.
    unfold Eff.try_catch, Eff.bind, Eff.ret, Eff.lift, Eff.get,
      Exc.throw_TypeError.
    SchemaFacts.by_cases; reflexivity.
  - subst answer.
    unfold request_url, request_init, setAuthHeaders. cbn [core baseUrl].
    now rewrite Hown.
Qed.

Lemma own_headers_replace_the_auth_headers_witness :
  fst (makeRequest Demo.failing_fetch "/Users"
         {| opt_method := None;
            opt_headers := Some [("Accept", "application/xml")];
            opt_body := None |} 0 5
         (core (setAuthHeaders [("Authorization", "Bearer t")]
                  (new_provider "https://example.org/odata/"))))
  = fst (makeRequest Demo.failing_fetch "/Users"
           {| opt_method := None;
              opt_headers := Some [("Accept", "application/xml")];
              opt_body := None |} 0 5
           (core (new_provider "https://example.org/odata/"))).
Proof.
  apply (own_headers_replace_the_auth_headers Demo.failing_fetch "/Users"
           {| opt_method := None;
              opt_headers := Some [("Accept", "application/xml")];
              opt_body := None |}
           [("Accept", "application/xml")] [("Authorization", "Bearer t")]
           0 5 (new_provider "https://example.org/odata/")).
  reflexivity.
Defined.

Lemma prefix_http_slash (b r : string) :
  String.prefix "http" (b ++ "/" ++ r) = String.prefix "http" b.
Proof.
  destruct b as [|c1 [|c2 [|c3 [|c4 b]]]]; cbn [append String.prefix];
    repeat match goal with
    | |- context [ascii_dec ?a ?b] => destruct (ascii_dec a b)
    end; try reflexivity; try discriminate.
  now destruct b.
Qed.

Lemma query_url_is_requested (st : State) (entityName : string)
    (query : IQuery) (n : Z) (times : list Z) :
  request_url {| baseUrl := baseUrl st; authHeaders := authHeaders st;
                 connected := connected st; totalQueries := n;
                 queryTimes := times |}
    (baseUrl st ++ "/" ++ entityName ++ buildODataQueryString query)
  = query_url st entityName query.
Proof.
  unfold request_url, query_url. cbn [baseUrl].
  rewrite prefix_http_slash.
  now destruct (String.prefix "http" (baseUrl st)).
Qed.

(** X15. [executeQuery] consults [fetch] for one URL only, with a plain
    GET that carries the default and the authentication headers: the base
    URL, a slash, the entity name and the query string, and in front of
    all that the base URL once more when it does not start with [http].
    Two services that answer this request alike are not told apart. *)
Theorem executeQuery_asks_for_one_url
    (fetch1 fetch2 : string -> RequestInit -> Exc.t Response)
    (entityName : string) (query : IQuery) (t0 t1 t2 t3 : Z) (st : State) :
  fetch1 (query_url st entityName query) (request_init st no_options)
  = fetch2 (query_url st entityName query) (request_init st no_options) ->
  executeQuery fetch1 entityName query t0 t1 t2 t3 st
  = executeQuery fetch2 entityName query t0 t1 t2 t3 st.
Proof.
  intros H. unfold executeQuery, Eff.try_catch.
  unfold Eff.bind at 1 4. unfold count_query, Eff.modify.
  unfold Eff.bind at 1 4. unfold Eff.get.
  unfold Eff.bind at 1 3. cbn [baseUrl].
  rewrite (makeRequest_one_answer fetch1 fetch2); [reflexivity|].
  rewrite query_url_is_requested. exact H.
Qed.

Lemma executeQuery_asks_for_one_url_witness :
  executeQuery Demo.failing_fetch "Users" DemoMore.empty_query 0 1 2 3
    Demo.http_state
  = executeQuery DemoMore.picky_fetch "Users" DemoMore.empty_query 0 1 2 3
      Demo.http_state.
Proof.
  apply (executeQuery_asks_for_one_url Demo.failing_fetch
           DemoMore.picky_fetch "Users" DemoMore.empty_query 0 1 2 3
           Demo.http_state).
  reflexivity.
Defined.

(** A provider given the base URL [/api/odata] asks for a URL that holds
    it twice. *)
Example relative_base_url_is_doubled :
  query_url DemoMore.relative_state "Users" DemoMore.empty_query
  = "/api/odata/api/odata/Users?$count=true".
Proof. reflexivity. Qed.

Lemma getServiceCapabilities_standard
    (fetch : string -> RequestInit -> Exc.t Response) (t0 t1 : Z)
    (p : Provider) :
  standard_cache p ->
  exists pageSize p',
    getServiceCapabilities fetch t0 t1 p
    = (Exc.Ret (default_capabilities pageSize), p')
    /\ standard_cache p' /\ core p' = core p.
Proof.
  unfold standard_cache, getServiceCapabilities.
  unfold Eff.bind at 1. unfold Eff.get.
  destruct (serviceCapabilities p) as [c|] eqn:C.
  - intros [pageSize ->]. exists pageSize, p. unfold Eff.ret.
    rewrite C. repeat split. now exists pageSize.
  - intros _. unfold Eff.try_catch, Eff.bind, on_core.
    destruct (makeRequest_returns fetch "/" no_options t0 t1 (core p))
      as [response ->].
    unfold cache.
    destruct (http_success response && Js.truthy (http_data response))%bool;
      eexists; eexists; (split; [reflexivity|]);
      cbn [serviceCapabilities core]; split; eauto.
Qed.

(** X16. On a provider whose cache is empty or was filled by
    [getServiceCapabilities], [supportsFeature] gives the same answer for
    every service, reachable or not: true exactly when the lower-case form
    of the feature, as [String.prototype.toLowerCase] gives it, is one of
    filter, select, orderby, top and skip, and false for everything else,
    batch and change tracking included. This holds whatever the case
    mapping is outside the ASCII letters. The query counters are not
    touched. *)
Theorem supportsFeature_does_not_depend_on_the_service
    (fetch : string -> RequestInit -> Exc.t Response)
    (toLowerCase : string -> string) (feature : string)
    (t0 t1 : Z) (p : Provider) :
  standard_cache p ->
  exists p',
    supportsFeature fetch toLowerCase feature t0 t1 p
    = (Exc.Ret (JsText.array_includes
                  ["filter"; "select"; "orderby"; "top"; "skip"]
                  (toLowerCase feature)), p')
    /\ standard_cache p' /\ core p' = core p.
Proof.
  intros Hp.
  destruct (getServiceCapabilities_standard fetch t0 t1 p Hp)
    as [pageSize [p' [E [Hp' Hcore]]]].
  exists p'. split; [|now split].
  unfold supportsFeature, Eff.bind. rewrite E. unfold Eff.ret.
  do 2 f_equal. unfold JsText.array_includes.
  cbn [default_capabilities supportedQueryOptions supportsBatch
       supportsChangeTracking existsb].
  repeat match goal with
  | |- context [String.eqb (toLowerCase feature) ?s] =>
      destruct (String.eqb (toLowerCase feature) s)
  end; reflexivity.
Qed.

Lemma supportsFeature_does_not_depend_on_the_service_witness :
  exists p',
    supportsFeature Demo.failing_fetch JsText.toLowerCase "Batch" 0 5
      (new_provider "https://example.org/odata/")
    = (Exc.Ret false, p')
    /\ standard_cache p'
    /\ core p' = core (new_provider "https://example.org/odata/").
Proof.
  apply (supportsFeature_does_not_depend_on_the_service Demo.failing_fetch
           JsText.toLowerCase "Batch" 0 5
           (new_provider "https://example.org/odata/")).
  exact I.
Defined.

(** X17. The constructor takes exactly one trailing slash off the base
    URL: a provider made for a URL followed by a slash holds that URL,
    whatever the URL ends with. *)
Theorem constructor_strips_one_trailing_slash (url : string) :
  HTTPODataProvider.baseUrl (core (new_provider (url ++ "/"))) = url.
Proof.
  unfold new_provider. cbn [core HTTPODataProvider.baseUrl].
  induction url as [|c url IH]; [reflexivity|].
  cbn [append strip_trailing_slash]. rewrite IH.
  destruct (url ++ "/") eqn:E; [destruct url; discriminate|reflexivity].
Qed.

End ServiceFacts.

(* ================================================================== *)
(** * Properties of the query builder *)
(* ================================================================== *)

Module BuilderFacts.
Import Query ActiveRecord.

Section WithSchema.
Variable schema_keys : list string.
Variable validateField : string -> bool.
Variable type_of_field : string -> Exc.t Js.Value.
Variable autoConvert : Js.Value -> Js.Value -> Exc.t Js.Value.

Ltac builder_call :=
  unfold call, where_, select_, orderBy_, limit, offset, addError, on_query,
    condition_of, rejected, Js.push;
  unfold Eff.bind, Eff.modify, Eff.lift, Eff.ret.

Ltac recorded :=
  eexists; split; [reflexivity|]; split;
  [reflexivity | now rewrite ?app_nil_r].

Lemma invalid_count (fs : list string) :
  (0 <? Z.of_nat (List.length
                    (List.filter (fun f => negb (validateField f)) fs)))
  = existsb (fun f => negb (validateField f)) fs.
Proof.
  induction fs as [|f fs IH]; [reflexivity|]. cbn [List.filter existsb].
  destruct (negb (validateField f)); [|exact IH].
  cbn [List.length orb]. apply Z.ltb_lt. lia.
Qed.

(** What one call does to the builder. *)
Lemma call_outcome (c : Call) (st : State) :
  exists new,
    errors (snd (call schema_keys validateField type_of_field autoConvert
                   c st))
    = (errors st ++ new)%list
    /\ List.length new = (if rejected validateField c then 1 else 0)%nat
    /\ conditions
         (query (snd (call schema_keys validateField type_of_field
                        autoConvert c st)))
       = (conditions (query st)
          ++ condition_of validateField type_of_field autoConvert c)%list.
Proof.
  destruct c as [f op v|fs|f d|n|n]; builder_call.
  - destruct (validateField f); cbn [negb orb].
    + destruct (JsText.array_includes validOperators op); cbn [negb snd].
      * destruct (type_of_field f) as [ty|e]; cbn [snd].
        -- destruct (autoConvert v ty) as [cv|e]; cbn [snd query errors].
           ++ exists []. rewrite app_nil_r. repeat split.
              unfold conditions.
              destruct (filter (query st)) as [prev|]; cbn;
                now rewrite ?app_nil_r.
           ++ exists []. rewrite !app_nil_r. repeat split.
        -- exists []. rewrite !app_nil_r. repeat split.
      * cbn [errors query]. recorded.
    + cbn [snd errors query]. recorded.
  - rewrite invalid_count.
    destruct (existsb _ fs); cbn [snd errors query].
    + recorded.
    + exists []. rewrite !app_nil_r. repeat split.
  - destruct (validateField f); cbn [negb snd errors query].
    + exists []. rewrite !app_nil_r. repeat split.
    + recorded.
  - exists []. rewrite !app_nil_r. repeat split.
  - exists []. rewrite !app_nil_r. repeat split.
Qed.

Lemma after_cons (c : Call) (calls : list Call) (st : State) :
  after schema_keys validateField type_of_field autoConvert (c :: calls) st
  = after schema_keys validateField type_of_field autoConvert calls
      (snd (call schema_keys validateField type_of_field autoConvert c st)).
Proof. reflexivity. Qed.

Lemma conditions_after (calls : list Call) (st : State) :
  conditions
    (query (after schema_keys validateField type_of_field autoConvert
              calls st))
  = (conditions (query st)
     ++ flat_map (condition_of validateField type_of_field autoConvert)
          calls)%list.
Proof.
  revert st. induction calls as [|c calls IH]; intros st.
  - cbn. now rewrite app_nil_r.
  - rewrite after_cons, IH.
    destruct (call_outcome c st) as [new [_ [_ ->]]].
    cbn [flat_map]. now rewrite app_assoc.
Qed.

(** X18. After any chain of builder calls, the leaves of the filter
    tree, read left to right, are the conditions of the [where] calls that
    were accepted and whose value conversion returned, in call order:
    nothing is lost, added or reordered, and no other method touches the
    filter. *)
Theorem builder_keeps_every_accepted_condition (calls : list Call)
    (st : State) :
  conditions
    (query (after schema_keys validateField type_of_field autoConvert
              calls st))
  = (conditions (query st)
     ++ flat_map (condition_of validateField type_of_field autoConvert)
          calls)%list.
Proof.
  revert st. induction calls as [|c calls IH]; intros st.
  - cbn. now rewrite app_nil_r.
  - rewrite after_cons, IH.
    destruct (call_outcome c st) as [new [_ [_ ->]]].
    cbn [flat_map]. now rewrite app_assoc.
Qed.

(** X19. The builder records exactly one error for each rejected call (a
    [where] or [orderBy] on an unknown field, a [where] with an operator
    outside the ten it lets through, a [select] naming an unknown field)
    and none for any other; errors already recorded stay in front. *)
Theorem builder_records_one_error_per_rejected_call (calls : list Call)
    (st : State) :
  exists new,
    errors (after schema_keys validateField type_of_field autoConvert
              calls st)
    = (errors st ++ new)%list
    /\ List.length new
       = List.length (List.filter (rejected validateField) calls).
Proof.
  revert st. induction calls as [|c calls IH]; intros st.
  - exists []. cbn. now rewrite app_nil_r.
  - rewrite after_cons.
    destruct (IH (snd (call schema_keys validateField type_of_field
                         autoConvert c st))) as [new2 [E2 L2]].
    destruct (call_outcome c st) as [new1 [E1 [L1 _]]].
    exists (new1 ++ new2)%list. rewrite E2, E1, app_assoc.
    split; [reflexivity|]. rewrite length_app, L1, L2.
    cbn [List.filter]. now destruct (rejected validateField c).
Qed.

Lemma condition_is_plain (c : Call) :
  Forall (fun f => plain_condition f = true)
         (condition_of validateField type_of_field autoConvert c).
Proof.
  destruct c as [f op v|fs|f d|n|n]; cbn [condition_of]; try constructor.
  unfold rejected.
  destruct (validateField f); cbn [negb orb]; [|constructor].
  destruct (JsText.array_includes validOperators op) eqn:V; cbn [negb];
    [|constructor].
  destruct (type_of_field f) as [ty|e]; [|constructor].
  destruct (autoConvert v ty) as [cv|e]; constructor; [exact V|constructor].
Qed.

Lemma plain_is_supported (f : IQueryFilter) :
  plain_condition f = true ->
  is_supported (operator f) = true /\ operator f <> Some "notin"
  /\ children f = None.
Proof.
  destruct f as [[fd|] [op|] v [l|] [cs|]]; cbn; try discriminate.
  unfold JsText.array_includes, validOperators. cbn [existsb].
  intros H. repeat split.
  - repeat (apply orb_prop in H; destruct H as [H|H];
            [rewrite H; cbn; now rewrite ?orb_true_r|]).
    discriminate.
  - intros E. inversion E. subst op. discriminate.
Qed.

(** X20. Every condition of a query the builder has built from scratch
    carries an operator that all three translators implement, never
    [notin], and has no children. *)
Theorem builder_conditions_are_translatable (calls : list Call) :
  Forall (fun f => is_supported (operator f) = true
                   /\ operator f <> Some "notin"
                   /\ children f = None)
    (conditions
       (query (after schema_keys validateField type_of_field autoConvert
                 calls initial))).
Proof.
  rewrite conditions_after. cbn [app].
  apply Forall_flat_map, Forall_forall. intros c _.
  eapply Forall_impl; [|apply condition_is_plain].
  intros f. apply plain_is_supported.
Qed.

Lemma call_keeps_built (c : Call) (st : State) :
  built_or_empty st ->
  built_or_empty
    (snd (call schema_keys validateField type_of_field autoConvert c st)).
Proof.
  unfold built_or_empty.
  destruct c as [f op v|fs|f d|n|n]; builder_call; intros H.
  - destruct (negb (validateField f)); [exact H|].
    destruct (negb (JsText.array_includes validOperators op)); [exact H|].
    destruct (type_of_field f) as [ty|e]; [|exact H].
    destruct (autoConvert v ty) as [cv|e]; [|exact H].
    cbn [snd query filter].
    destruct (filter (query st)) as [prev|]; cbn [filter set_filter].
    + now apply built_next.
    + apply built_first.
  - destruct (0 <? _); exact H.
  - destruct (negb (validateField f)); exact H.
  - exact H.
  - exact H.
Qed.

Lemma after_keeps_built (calls : list Call) (st : State) :
  built_or_empty st ->
  built_or_empty
    (after schema_keys validateField type_of_field autoConvert calls st).
Proof.
  revert st. induction calls as [|c calls IH]; intros st H; [exact H|].
  rewrite after_cons. apply IH, call_keeps_built, H.
Qed.

Lemma built_has_a_leaf (f : IQueryFilter) :
  built f -> (1 <= List.length (leaves f))%nat.
Proof.
  induction 1 as [f op v|prev f op v Hp IH]; cbn; [lia|].
  rewrite ?app_nil_r, length_app. cbn. lia.
Qed.

Lemma built_with_two_leaves (f : IQueryFilter) :
  built f -> (2 <= List.length (leaves f))%nat ->
  exists previous node, f = where_and previous node.
Proof.
  destruct 1 as [f op v|prev f op v Hp]; cbn; [lia|].
  intros _. eexists. eexists. reflexivity.
Qed.

(** X21. Once two [where] calls have gone through, none of their
    conditions reaches a backend: for the query the builder hands out, the
    SQLite translator gives the clause [ = ?] with the one parameter
    [null], the MongoDB translator the document with the empty key and
    [null], and the OData translator [ eq null]. *)
Theorem second_where_hides_every_condition (calls : list Call) :
  (2 <= List.length
          (flat_map (condition_of validateField type_of_field autoConvert)
             calls))%nat ->
  exists composite,
    filter (query (after schema_keys validateField type_of_field autoConvert
                     calls initial))
    = Some composite
    /\ SQLiteProvider.convertODataFilterToSQL (Some composite) []
       = (" = ?", [Js.Null])
    /\ MongoDBProvider.convertODataFilterToMongo (Some composite)
       = Js.Obj [("", Js.Null)]
    /\ HTTPODataProvider.convertFilterToOData (Some composite)
       = " eq null".
Proof.
  intros Htwo.
  pose proof (conditions_after calls initial) as Hc.
  pose proof (after_keeps_built calls initial I) as Hb.
  unfold built_or_empty in Hb. unfold conditions in Hc.
  destruct (filter (query (after schema_keys validateField type_of_field
                             autoConvert calls initial))) as [f|].
  - cbn [initial query filter app] in Hc. rewrite <- Hc in Htwo.
    destruct (built_with_two_leaves f Hb Htwo) as [p [n ->]].
    eexists. split; [reflexivity|]. repeat split.
  - cbn [initial query filter app] in Hc. rewrite <- Hc in Htwo.
    cbn in Htwo. lia.
Qed.

End WithSchema.

Lemma second_where_hides_every_condition_witness :
  exists composite,
    filter (query (after DemoMore.person_keys DemoMore.person_has
                     DemoMore.person_type DemoMore.keep_value
                     DemoMore.adults_named_ann initial))
    = Some composite
    /\ SQLiteProvider.convertODataFilterToSQL (Some composite) []
       = (" = ?", [Js.Null])
    /\ MongoDBProvider.convertODataFilterToMongo (Some composite)
       = Js.Obj [("", Js.Null)]
    /\ HTTPODataProvider.convertFilterToOData (Some composite)
       = " eq null".
Proof.
  apply (second_where_hides_every_condition DemoMore.person_keys
           DemoMore.person_has DemoMore.person_type DemoMore.keep_value
           DemoMore.adults_named_ann).
  vm_compute. lia.
Defined.

(** The chain [where(age > 18).where(nmae = Ann).where(name = Ann)
    .limit(10)] keeps two conditions and records one error. *)
Example adults_named_ann_outcome :
  conditions
    (query (after DemoMore.person_keys DemoMore.person_has
              DemoMore.person_type DemoMore.keep_value
              DemoMore.adults_named_ann initial))
  = [leaf "age" "gt" (Js.Num 18); leaf "name" "eq" (Js.Str "Ann")]
  /\ map code
       (errors (after DemoMore.person_keys DemoMore.person_has
                  DemoMore.person_type DemoMore.keep_value
                  DemoMore.adults_named_ann initial))
     = ["INVALID_FIELD"].
Proof. vm_compute. split; reflexivity. Qed.

End BuilderFacts.

(* ================================================================== *)
(** * Further properties of the connection pool *)
(* ================================================================== *)

Module PoolHealthFacts.
Import ConnectionPool PoolInvariants.

Section Health.
Context {Handle X : Type}.
Variable drivers : Drivers Handle X.

(** A property of the system that every turn of the retry loop keeps is
    kept by the loop. *)
Lemma retry_loop_keeps (P : Sys Handle X -> Prop) connectionId config
    maxAttempts :
  (forall a s,
     P s -> P (snd (attempt_once drivers connectionId config maxAttempts
                      a s))) ->
  forall (n : nat) (a : Z) lastError (s : Sys Handle X),
    P s ->
    P (snd (retry_loop drivers n connectionId config maxAttempts a
              lastError s)).
Proof.
  intros Hstep. induction n as [|n IH]; intros a lastError s Hs.
  - exact Hs.
  - cbn [retry_loop]. unfold Eff.bind.
    specialize (Hstep a s Hs).
    destruct (attempt_once drivers connectionId config maxAttempts a s)
      as [[[c|e]|e] s1]; cbn [snd] in *.
    + exact Hstep.
    + now apply IH.
    + exact Hstep.
Qed.

(** The same for [getConnection], when the property does not look at the
    outside world nor at the warning of a probe. *)
Lemma getConnection_keeps (P : Sys Handle X -> Prop) connectionId config :
  (forall b x evs s, probe_events b evs -> P s -> P (moved s x evs)) ->
  (forall maxAttempts a s,
     P s -> P (snd (attempt_once drivers connectionId config maxAttempts
                      a s))) ->
  forall s, P s -> P (snd (getConnection drivers connectionId config s)).
Proof.
  intros Hworld Hstep s Hs.
  assert (Hretry : forall s1,
             P s1 ->
             P (snd (createConnectionWithRetry drivers connectionId config
                       s1))).
  { intros s1 H1. unfold createConnectionWithRetry, Eff.bind, Eff.get.
    apply retry_loop_keeps; [apply Hstep|exact H1]. }
  unfold getConnection. unfold Eff.bind at 1. unfold Eff.get at 1.
  destruct (JsMap.get connectionId (connections (pool s))) as [c|].
  - unfold Eff.bind.
    destruct (PoolFacts.isConnectionHealthy_moves drivers c config s)
      as [b [x [pre [-> Hpre]]]].
    destruct b.
    + now apply (Hworld true).
    + apply Hretry. now apply (Hworld false).
  - apply Hretry, Hs.
Qed.

Lemma attempt_once_never_closes connectionId config maxAttempts a
    (s0 s : Sys Handle X) :
  (exists evs, trace s = (trace s0 ++ evs)%list
               /\ forallb not_closed evs = true) ->
  exists evs,
    trace (snd (attempt_once drivers connectionId config maxAttempts a s))
    = (trace s0 ++ evs)%list
    /\ forallb not_closed evs = true.
Proof.
  intros [evs [E Hn]].
  destruct (PoolFacts.attempt_once_outcome drivers connectionId config
              maxAttempts a s)
    as [s' [_ [_ [[c [x [-> [_ [_ [_ [_ T]]]]]]] | [e [-> [_ [_ T]]]]]]]];
    cbn [snd]; rewrite T, E, <- app_assoc; eexists;
    (split; [reflexivity|]); rewrite forallb_app, Hn; cbn [andb].
  - reflexivity.
  - now destruct (a <? maxAttempts).
Qed.

(** X22. [getConnection] never closes a connection: whatever it does,
    the events it adds hold no close, so a stored connection that fails
    its probe and is replaced stays open. *)
Theorem getConnection_never_closes_a_connection (connectionId : string)
    (config : IConnectionConfig) (s : Sys Handle X) :
  exists evs,
    trace (snd (getConnection drivers connectionId config s))
    = (trace s ++ evs)%list
    /\ forallb not_closed evs = true.
Proof.
  apply (getConnection_keeps
           (fun s' => exists evs, trace s' = (trace s ++ evs)%list
                                  /\ forallb not_closed evs = true)).
  - intros b x pre s1 Hpre [evs [E Hn]]. exists (evs ++ pre)%list.
    cbn [moved trace]. rewrite E, <- app_assoc. split; [reflexivity|].
    rewrite forallb_app, Hn.
    destruct Hpre as [-> | [_ [e ->]]]; reflexivity.
  - intros maxAttempts a s1 H. now apply attempt_once_never_closes.
  - exists []. now rewrite app_nil_r.
Qed.

Lemma global_health_visit_outcome (entries : list (string * Connection Handle)) :
  forall s : Sys Handle X,
    exists x evs,
      global_health_visit drivers entries s
      = (Exc.Ret tt, moved s x evs)
      /\ forallb sweep_warning evs = true.
Proof.
  induction entries as [|[id c] entries IH]; intros s.
  - exists (world s), []. cbn. unfold Eff.ret, moved.
    rewrite app_nil_r. now destruct s.
  - cbn [global_health_visit]. unfold Eff.bind at 1. unfold Eff.get at 1.
    unfold Eff.bind at 1.
    destruct (JsMap.get id (connectionConfigs (pool s))) as [config|].
    + unfold Eff.bind at 1.
      destruct (PoolFacts.isConnectionHealthy_moves drivers c config s)
        as [b [x [pre [-> Hpre]]]].
      assert (Hw : forallb sweep_warning pre = true)
        by (destruct Hpre as [-> | [_ [e ->]]]; reflexivity).
      destruct b.
      * unfold Eff.ret at 1.
        destruct (IH (moved s x pre)) as [x' [evs [-> H]]].
        exists x', (pre ++ evs)%list. rewrite PoolFacts.moved_moved.
        split; [reflexivity|]. now rewrite forallb_app, Hw.
      * unfold emit, Eff.modify, Js.push.
        match goal with
        | |- context [global_health_visit drivers entries ?s1] =>
            destruct (IH s1) as [x' [evs [-> H]]]
        end.
        exists x', (pre ++ WarnFailedHealthCheck id :: evs)%list. split.
        -- unfold moved.
           cbn [pool timers next_timer trace locals microtasks world].
           now rewrite <- !app_assoc.
        -- rewrite forallb_app, Hw. exact H.
    + unfold Eff.ret at 1.
      destruct (IH s) as [x' [evs [-> H]]].
      exists x', evs. split; [reflexivity|exact H].
Qed.

(** X23. The pool-wide sweep only warns: it returns, leaves every map of
    the pool and every timer as they were, and adds nothing to the trace
    but warnings: the one [isConnectionHealthy] logs when its probe
    throws, and the one of the sweep about a connection that is not
    healthy. A connection that fails the sweep stays in the pool. *)
Theorem global_sweep_only_warns (s : Sys Handle X) :
  exists x evs,
    global_health_tick drivers s = (Exc.Ret tt, moved s x evs)
    /\ forallb sweep_warning evs = true.
Proof.
  unfold global_health_tick, Eff.bind, Eff.get.
  apply global_health_visit_outcome.
Qed.

(** X24. When the stored connection passes the probe of the config
    given, [getConnection] returns that connection and nothing else
    happens: no connector is invoked, and the pool, the timers and the
    trace are as before. *)
Theorem getConnection_reuses_a_healthy_connection (connectionId : string)
    (config : IConnectionConfig) (c : Connection Handle)
    (s : Sys Handle X) :
  JsMap.get connectionId (connections (pool s)) = Some c ->
  fst (isConnectionHealthy drivers c config s) = Exc.Ret true ->
  exists x,
    getConnection drivers connectionId config s
    = (Exc.Ret c, with_world (fun _ => x) s).
Proof.
  intros Hc Hh. unfold getConnection, Eff.bind, Eff.get. rewrite Hc.
  destruct (PoolFacts.isConnectionHealthy_moves drivers c config s)
    as [b [x [pre [E Hpre]]]].
  rewrite E in Hh |- *. cbn in Hh. inversion Hh; subst b.
  destruct Hpre as [-> | [Hb _]]; [|discriminate].
  exists x. now rewrite PoolFacts.moved_nil.
Qed.

(** X25. A config that lacks what its type needs, or whose type is not
    one of the three, makes [createConnection] throw without a driver
    having been called: the outside world is as before, and the only new
    event is the invocation itself. *)
Theorem connector_refuses_before_it_connects (config : IConnectionConfig)
    (s : Sys Handle X) :
  refused config = true ->
  exists e,
    createConnection drivers config s
    = (Exc.Throw e, moved s (world s) [Connect config]).
Proof.
  unfold refused, createConnection, createMongoDBConnection,
    createSQLiteConnection, createHTTPODataConnection, emit, moved.
  unfold Eff.bind, Eff.modify, Eff.lift, Eff.ret, Js.push,
    Exc.throw_new_Error.
  cbn [pool timers next_timer trace locals microtasks world].
  destruct (String.eqb (type config) "mongodb").
  { intros ->. destruct (import_mongodb drivers) as [[]|e];
      eexists; reflexivity. }
  destruct (String.eqb (type config) "sqlite").
  { intros ->. destruct (import_sqlite drivers) as [[]|e];
      eexists; reflexivity. }
  destruct (String.eqb (type config) "http-odata").
  { intros ->. eexists; reflexivity. }
  intros _. eexists; reflexivity.
Qed.

Lemma total_wait_schedule (d : Z) (n : nat) :
  forall k, 1 <= k ->
    total_wait (schedule d k (S n)) = d * 2 ^ (k - 1) * (2 ^ Z.of_nat n - 1).
Proof.
  unfold total_wait.
  induction n as [|n IH]; intros k Hk.
  - cbn. lia.
  - change (schedule d k (S (S n)))
      with (Invoke :: Wait (d * 2 ^ (k - 1)) :: schedule d (k + 1) (S n)).
    cbn [waits flat_map app fold_right].
    change (flat_map (fun x => match x with
                               | Invoke => []
                               | Wait ms => [ms]
                               end) (schedule d (k + 1) (S n)))
      with (waits (schedule d (k + 1) (S n))).
    rewrite IH by lia.
    replace (k + 1 - 1) with (Z.succ (k - 1)) by lia.
    rewrite Z.pow_succ_r by lia.
    rewrite Nat2Z.inj_succ, Z.pow_succ_r by lia. ring.
Qed.

Lemma num_or_some (v : Z) : Js.num_or (Some v) 0 = v.
Proof. unfold Js.num_or. destruct (v =? 0) eqn:E; [|reflexivity]. lia. Qed.

(** One turn of the retry loop returns a connection, or it hands the
    error on after having raised the retry count of the id by one; the
    other maps and the timers are then as before. *)
Lemma attempt_once_cases connectionId config maxAttempts a
    (s : Sys Handle X) :
  (exists c s',
      attempt_once drivers connectionId config maxAttempts a s
      = (Exc.Ret (inl c), s'))
  \/ (exists e s',
        attempt_once drivers connectionId config maxAttempts a s
        = (Exc.Ret (inr e), s')
        /\ JsMap.get connectionId (retryAttempts (pool s'))
           = Some (Js.num_or
                     (JsMap.get connectionId (retryAttempts (pool s))) 0
                   + 1)
        /\ connections (pool s') = connections (pool s)
        /\ connectionConfigs (pool s') = connectionConfigs (pool s)
        /\ healthChecks (pool s') = healthChecks (pool s)
        /\ timers s' = timers s).
Proof.
  destruct (PoolFacts.createConnection_moves drivers config s)
    as [r [x [E _]]].
  destruct r as [c|e]; [left|right];
    unfold attempt_once, Eff.try_catch; unfold Eff.bind at 1; rewrite E.
  - unfold startConnectionHealthCheck, setInterval, clearInterval, emit,
      Eff.bind, Eff.modify, Eff.get, Eff.ret, Js.push, moved.
    cbn [pool timers next_timer trace locals microtasks world with_pool
         set_connections set_connectionConfigs set_retryAttempts
         set_healthChecks healthChecks connections connectionConfigs
         retryAttempts healthCheckInterval].
    destruct (JsMap.get connectionId (healthChecks (pool s)));
      eexists; eexists; reflexivity.
  - unfold sleep, emit, Eff.bind, Eff.modify, Eff.get, Eff.ret, Js.push,
      moved.
    cbn [pool timers next_timer trace locals microtasks world with_pool
         set_retryAttempts retryDelay retryAttempts].
    destruct (a <? maxAttempts); eexists; eexists; (split; [reflexivity|]);
      cbn [pool timers next_timer trace locals microtasks world with_pool
           set_retryAttempts retryAttempts connections connectionConfigs
           healthChecks maxRetries];
      rewrite PoolFacts.get_set_same; repeat split.
Qed.

(** The retry loop returns a connection, or it throws after [n] failed
    turns, each of which has raised the retry count of the id by one. *)
Lemma retry_loop_cases connectionId config maxAttempts :
  forall (n : nat) (a : Z) lastError (s : Sys Handle X),
    (exists c s',
        retry_loop drivers n connectionId config maxAttempts a lastError s
        = (Exc.Ret c, s'))
    \/ (exists e s',
          retry_loop drivers n connectionId config maxAttempts a lastError s
          = (Exc.Throw e, s')
          /\ JsMap.get connectionId (retryAttempts (pool s'))
             = match n with
               | O => JsMap.get connectionId (retryAttempts (pool s))
               | S _ =>
                   Some (Js.num_or
                           (JsMap.get connectionId (retryAttempts (pool s)))
                           0
                         + Z.of_nat n)
               end
          /\ connections (pool s') = connections (pool s)
          /\ connectionConfigs (pool s') = connectionConfigs (pool s)
          /\ healthChecks (pool s') = healthChecks (pool s)
          /\ timers s' = timers s).
Proof.
  induction n as [|n IH]; intros a lastError s.
  - right. eexists. exists s. split; [reflexivity|]. repeat split.
  - cbn [retry_loop]. unfold Eff.bind.
    destruct (attempt_once_cases connectionId config maxAttempts a s)
      as [[c [s1 ->]] | [e [s1 [-> [R1 [C1 [F1 [H1 T1]]]]]]]].
    + left. now exists c, s1.
    + destruct (IH (a + 1) (Some e) s1)
        as [[c [s2 ->]] | [e2 [s2 [-> [R2 [C2 [F2 [H2 T2]]]]]]]].
      * left. now exists c, s2.
      * right. exists e2, s2. split; [reflexivity|].
        split; [|repeat split; congruence].
        rewrite R2, R1. destruct n as [|n].
        -- reflexivity.
        -- rewrite num_or_some. f_equal. lia.
Qed.

(** With no healthy connection stored, [getConnection] returns a
    connection after one invocation that did not fail, or every attempt
    of the call fails: it has then made [maxRetries + 1] attempts on the
    full schedule and throws, with the retry count of the id raised by
    that number and the other maps and the timers as before. *)
Lemma getConnection_succeeds_or_exhausts connectionId config
    (s : Sys Handle X) :
  0 <= maxRetries (pool s) ->
  no_healthy_connection drivers connectionId config s ->
  exists r s' evs,
    getConnection drivers connectionId config s = (r, s')
    /\ trace s' = (trace s ++ evs)%list
    /\ ((exists c, r = Exc.Ret c)
        /\ invocations (timing evs) = S (failures evs)
        \/ (exists e, r = Exc.Throw e)
           /\ invocations (timing evs) = failures evs
           /\ failures evs = Z.to_nat (maxRetries (pool s) + 1)
           /\ timing evs
              = schedule (retryDelay (pool s)) 1
                  (Z.to_nat (maxRetries (pool s) + 1))
           /\ JsMap.get connectionId (retryAttempts (pool s'))
              = Some (Js.num_or
                        (JsMap.get connectionId (retryAttempts (pool s))) 0
                      + maxRetries (pool s) + 1)
           /\ connections (pool s') = connections (pool s)
           /\ connectionConfigs (pool s') = connectionConfigs (pool s)
           /\ healthChecks (pool s') = healthChecks (pool s)
           /\ timers s' = timers s).
Proof.
  intros Hmax Hno.
  destruct (PoolFacts.getConnection_probes_then_retries drivers connectionId
              config s Hno) as [x [pre [-> Hpre]]].
  destruct (PoolFacts.probe_events_quiet _ _ Hpre) as [Tpre [_ Fpre]].
  destruct (PoolFacts.createConnectionWithRetry_outcome drivers connectionId
              config (moved s x pre) Hmax)
    as [r [s' [evs [m [R [Htr [Htim [Hm Hcase]]]]]]]].
  assert (Hinv : invocations (timing evs) = m)
    by (rewrite Htim; apply PoolFacts.schedule_invocations).
  pose proof R as R0.
  unfold createConnectionWithRetry, Eff.bind, Eff.get in R0.
  destruct (PoolFacts.retry_loop_failures drivers connectionId config
              (maxRetries (pool (moved s x pre)) + 1)
              (Z.to_nat (maxRetries (pool (moved s x pre)) + 1)) 1 None
              (moved s x pre))
    as [r2 [s2 [evs2 [R2 [T2 H2]]]]].
  rewrite R0 in R2. inversion R2; subst r2 s2; clear R2.
  rewrite Htr in T2. apply app_inv_head in T2. subst evs2.
  destruct (retry_loop_cases connectionId config
              (maxRetries (pool (moved s x pre)) + 1)
              (Z.to_nat (maxRetries (pool (moved s x pre)) + 1)) 1 None
              (moved s x pre))
    as [[c [s3 R3]] | [e [s3 [R3 [Hr [Hc [Hf [Hh Ht]]]]]]]];
    rewrite R0 in R3; inversion R3; subst r s3; clear R3.
  - exists (Exc.Ret c), s', (pre ++ evs)%list.
    cbn [pool moved trace] in *.
    rewrite PoolFacts.timing_app, Tpre, PoolFacts.failures_app, Fpre.
    cbn [app Nat.add].
    split; [exact R|]. split; [rewrite Htr, app_assoc; reflexivity|].
    left. split; [now exists c|].
    destruct H2 as [[_ E] | [[e He] _]]; [exact E|discriminate].
  - exists (Exc.Throw e), s', (pre ++ evs)%list.
    cbn [pool moved trace timers] in *.
    rewrite PoolFacts.timing_app, Tpre, PoolFacts.failures_app, Fpre.
    cbn [app Nat.add].
    split; [exact R|]. split; [rewrite Htr, app_assoc; reflexivity|].
    right. split; [now exists e|].
    assert (Hm' : m = Z.to_nat (maxRetries (pool s) + 1)).
    { destruct Hcase as [[c [evs0 [Hr' _]]] | [e' [_ [_ [Hm' _]]]]];
        [discriminate|exact Hm']. }
    assert (Hfail : invocations (timing evs) = failures evs).
    { destruct H2 as [[[c Hc'] _] | [_ E]]; [discriminate|exact E]. }
    split; [exact Hfail|]. split; [lia|].
    split; [rewrite Htim, Hm'; reflexivity|].
    split.
    { rewrite Hr.
      replace (Z.to_nat (maxRetries (pool s) + 1))
        with (S (Z.to_nat (maxRetries (pool s)))) by lia.
      f_equal. lia. }
    repeat split; assumption.
Qed.

(** X26. With no healthy connection stored, [getConnection] either
    returns a connection, the last invocation of the connector being one
    that did not fail, or every attempt of the call fails; in that case,
    whatever the connector does in other calls, [getConnection] has made
    [maxRetries + 1] attempts and throws after having slept
    [retryDelay * (2^maxRetries - 1)] milliseconds in all: seven seconds
    with the defaults. *)
Theorem exhausted_getConnection_has_waited (connectionId : string)
    (config : IConnectionConfig) (s : Sys Handle X) :
  0 <= maxRetries (pool s) ->
  no_healthy_connection drivers connectionId config s ->
  exists r s' evs,
    getConnection drivers connectionId config s = (r, s')
    /\ trace s' = (trace s ++ evs)%list
    /\ ((exists c, r = Exc.Ret c)
        /\ invocations (timing evs) = S (failures evs)
        \/ (exists e, r = Exc.Throw e)
           /\ invocations (timing evs) = failures evs
           /\ failures evs = Z.to_nat (maxRetries (pool s) + 1)
           /\ total_wait (timing evs)
              = retryDelay (pool s) * (2 ^ maxRetries (pool s) - 1)).
Proof.
  intros Hmax Hno.
  destruct (getConnection_succeeds_or_exhausts connectionId config s
              Hmax Hno)
    as [r [s' [evs [R [Htr [Hok | [He [Hi [Hf [Htim _]]]]]]]]]].
  - exists r, s', evs. split; [exact R|]. split; [exact Htr|]. now left.
  - exists r, s', evs. split; [exact R|]. split; [exact Htr|]. right.
    split; [exact He|]. split; [exact Hi|]. split; [exact Hf|].
    rewrite Htim.
    replace (Z.to_nat (maxRetries (pool s) + 1))
      with (S (Z.to_nat (maxRetries (pool s)))) by lia.
    rewrite total_wait_schedule by lia.
    rewrite Z2Nat.id by lia. change (2 ^ (1 - 1)) with 1. ring.
Qed.

(** X27. With no healthy connection stored, [getConnection] either
    returns a connection or every attempt of the call fails; in that
    case, whatever the connector does in other calls, [getConnection]
    throws and leaves the retry count of the id raised by
    [maxRetries + 1]: counts add up over failed calls. The maps of
    connections and configs, the health timers and their handles are as
    before, so a stored connection that failed its probe is still
    stored. *)
Theorem exhausted_getConnection_adds_to_the_retry_count
    (connectionId : string) (config : IConnectionConfig)
    (s : Sys Handle X) :
  0 <= maxRetries (pool s) ->
  no_healthy_connection drivers connectionId config s ->
  exists r s' evs,
    getConnection drivers connectionId config s = (r, s')
    /\ trace s' = (trace s ++ evs)%list
    /\ ((exists c, r = Exc.Ret c)
        /\ invocations (timing evs) = S (failures evs)
        \/ (exists e, r = Exc.Throw e)
           /\ invocations (timing evs) = failures evs
           /\ JsMap.get connectionId (retryAttempts (pool s'))
              = Some (Js.num_or
                        (JsMap.get connectionId (retryAttempts (pool s))) 0
                      + maxRetries (pool s) + 1)
           /\ connections (pool s') = connections (pool s)
           /\ connectionConfigs (pool s') = connectionConfigs (pool s)
           /\ healthChecks (pool s') = healthChecks (pool s)
           /\ timers s' = timers s).
Proof.
  intros Hmax Hno.
  destruct (getConnection_succeeds_or_exhausts connectionId config s
              Hmax Hno)
    as [r [s' [evs [R [Htr [Hok | [He [Hi [_ [_ Hst]]]]]]]]]].
  - exists r, s', evs. split; [exact R|]. split; [exact Htr|]. now left.
  - exists r, s', evs. split; [exact R|]. split; [exact Htr|]. right.
    split; [exact He|]. split; [exact Hi|]. exact Hst.
Qed.

(** X28. For an [http-odata] config with a base URL and an id that has
    no connection yet, [getConnection] succeeds at the first attempt
    without a request being made: the outside world is as before, the
    connection holds the URL, the config's headers and the timeout
    (5000 by default), and a health timer is registered for it. *)
Theorem odata_connection_is_made_without_a_request (connectionId : string)
    (config : IConnectionConfig) (url : string) (s : Sys Handle X) :
  type config = "http-odata" ->
  baseUrl config = Some url ->
  url <> "" ->
  JsMap.get connectionId (connections (pool s)) = None ->
  0 <= maxRetries (pool s) ->
  exists s',
    getConnection drivers connectionId config s
    = (Exc.Ret (HTTPOData url
                  (match headers config with
                   | Some h => h
                   | None => []
                   end)
                  (Js.num_or (timeout config) 5000)), s')
    /\ world s' = world s
    /\ trace s'
       = (trace s ++ [Connect config; LogEstablished connectionId 1])%list
    /\ JsMap.get connectionId (healthChecks (pool s'))
       = Some (next_timer s).
Proof.
  intros Htype Hurl Hne Hnone Hmax.
  assert (Hcreate :
            createConnection drivers config s
            = (Exc.Ret (HTTPOData url
                          (match headers config with
                           | Some h => h
                           | None => []
                           end)
                          (Js.num_or (timeout config) 5000)),
               moved s (world s) [Connect config])).
  { unfold createConnection, createHTTPODataConnection, emit, moved.
    unfold Eff.bind, Eff.modify, Eff.lift, Eff.ret, Js.push.
    rewrite Htype, Hurl. cbn [String.eqb Ascii.eqb Bool.eqb missing].
    apply String.eqb_neq in Hne. rewrite Hne. reflexivity. }
  unfold getConnection, Eff.bind at 1. unfold Eff.get at 1. rewrite Hnone.
  unfold createConnectionWithRetry, Eff.bind at 1. unfold Eff.get at 1.
  replace (Z.to_nat (maxRetries (pool s) + 1))
    with (S (Z.to_nat (maxRetries (pool s)))) by lia.
  cbn [retry_loop]. unfold Eff.bind at 1.
  unfold attempt_once, Eff.try_catch. unfold Eff.bind at 1.
  rewrite Hcreate.
  unfold startConnectionHealthCheck, setInterval, clearInterval, emit,
    Eff.bind, Eff.modify, Eff.get, Eff.ret, Js.push, moved.
  cbn [pool timers next_timer trace locals microtasks world with_pool
       set_connections set_connectionConfigs set_retryAttempts
       set_healthChecks healthChecks connections connectionConfigs
       retryAttempts healthCheckInterval].
  destruct (JsMap.get connectionId (healthChecks (pool s)));
    eexists; (split; [reflexivity|]);
    cbn [pool timers next_timer trace locals microtasks world with_pool
         set_healthChecks healthChecks];
    rewrite PoolFacts.get_set_same, <- app_assoc; repeat split.
Qed.

(** X29. When the per-connection health check finds that the stored
    connection of a consistent pool fails its probe, it removes the
    connection: afterwards the id has no connection, no config and no
    health timer handle, the timer it had is cancelled, and the pool is
    still consistent. *)
Theorem failed_probe_evicts_the_connection (connectionId : string)
    (config : IConnectionConfig) (c : Connection Handle)
    (s : Sys Handle X) :
  consistent s = true ->
  JsMap.get connectionId (connections (pool s)) = Some c ->
  fst (isConnectionHealthy drivers c config s) = Exc.Ret false ->
  exists s',
    connection_health_tick drivers connectionId config s = (Exc.Ret tt, s')
    /\ JsMap.get connectionId (connections (pool s')) = None
    /\ JsMap.get connectionId (connectionConfigs (pool s')) = None
    /\ JsMap.get connectionId (healthChecks (pool s')) = None
    /\ (forall handle,
          JsMap.get connectionId (healthChecks (pool s)) = Some handle ->
          ~ In handle (timer_ids s'))
    /\ consistent s' = true.
Proof.
  intros Hc Hget Hprobe.
  unfold connection_health_tick. unfold Eff.bind at 1. unfold Eff.get at 1.
  rewrite Hget. unfold Eff.bind at 1.
  destruct (PoolFacts.isConnectionHealthy_moves drivers c config s)
    as [b [x [pre [E _]]]].
  rewrite E in Hprobe |- *. cbn in Hprobe. inversion Hprobe; subst b.
  unfold Eff.bind at 1. unfold emit at 1, Eff.modify at 1.
  match goal with
  | |- context [removeConnection drivers connectionId ?s2] =>
      destruct (PoolFacts.removeConnection_outcome drivers connectionId s2 Hc)
        as [s' [R [C [F [H [T K]]]]]]
  end.
  exists s'. split; [exact R|].
  cbn [pool with_world moved timers] in *.
  split; [rewrite C; apply PoolFacts.get_delete_same|].
  split; [rewrite F; apply PoolFacts.get_delete_same|].
  split; [rewrite H; apply PoolFacts.get_delete_same|].
  split; [|exact K].
  intros handle Hh. unfold timer_ids. rewrite T, Hh.
  apply PoolFacts.filter_drops_handle.
Qed.

(** *** The health timers *)

(** [timers_registered] reads the timers, the next handle and
    [healthChecks] only. *)
Lemma registered_ext (s s' : Sys Handle X) :
  timers s' = timers s ->
  next_timer s' = next_timer s ->
  healthChecks (pool s') = healthChecks (pool s) ->
  timers_registered s -> timers_registered s'.
Proof.
  unfold timers_registered, timer_ids. intros -> -> ->. exact (fun H => H).
Qed.

Lemma NoDup_filtered (p : Timer -> bool) (l : list Timer) :
  NoDup (map timer_id l) -> NoDup (map timer_id (List.filter p l)).
Proof.
  induction l as [|t l IH]; cbn; [auto|].
  intros H. inversion H as [|? ? Hn Hd]; subst.
  destruct (p t); cbn; [|auto].
  constructor; [|auto].
  intros Hin. apply Hn. apply in_map_iff in Hin.
  destruct Hin as [t' [E Hin]]. apply filter_In in Hin.
  apply in_map_iff. exists t'. tauto.
Qed.

(** Cancelling the timer [healthChecks] holds for an id, if any, and
    forgetting or replacing its handle keeps the timers registered. *)
Lemma registered_after_clearing connectionId (s : Sys Handle X)
    (hc : JsMap.t nat) (added : list Timer) (next : nat) :
  timers_registered s ->
  (forall id', connectionId <> id' ->
     JsMap.get id' hc = JsMap.get id' (healthChecks (pool s))) ->
  (next_timer s <= next)%nat ->
  (added = []
   \/ exists config interval,
        added = [{| timer_id := next_timer s;
                    job := ConnectionHealthCheck connectionId config;
                    interval := interval |}]
        /\ next = S (next_timer s)
        /\ JsMap.get connectionId hc = Some (next_timer s)) ->
  forall s' : Sys Handle X,
    timers s'
    = (match JsMap.get connectionId (healthChecks (pool s)) with
       | Some handle =>
           List.filter (fun t => negb (Nat.eqb (timer_id t) handle))
             (timers s)
       | None => timers s
       end ++ added)%list ->
    next_timer s' = next ->
    healthChecks (pool s') = hc ->
    timers_registered s'.
Proof.
  intros [Hnd [Hlt Hreg]] Hother Hnext Hadded s' Ht Hn Hh.
  set (kept := match JsMap.get connectionId (healthChecks (pool s)) with
               | Some handle =>
                   List.filter (fun t => negb (Nat.eqb (timer_id t) handle))
                     (timers s)
               | None => timers s
               end) in *.
  assert (Hkept : forall t, In t kept ->
                    In t (timers s)
                    /\ forall cfg, job t <> ConnectionHealthCheck connectionId cfg).
  { intros t Hin. subst kept.
    destruct (JsMap.get connectionId (healthChecks (pool s))) as [h|] eqn:G.
    - apply filter_In in Hin. destruct Hin as [Hin Hne]. split; [exact Hin|].
      intros cfg Hj. specialize (Hreg t connectionId cfg Hin Hj).
      rewrite G in Hreg. inversion Hreg; subst h.
      rewrite Nat.eqb_refl in Hne. discriminate.
    - split; [exact Hin|]. intros cfg Hj.
      specialize (Hreg t connectionId cfg Hin Hj). congruence. }
  assert (Hkd : NoDup (map timer_id kept)).
  { subst kept. destruct (JsMap.get connectionId (healthChecks (pool s)));
      [now apply NoDup_filtered|exact Hnd]. }
  unfold timers_registered, timer_ids. rewrite Ht, Hn, Hh.
  destruct Hadded as [-> | [cfg [iv [-> [-> Hget]]]]].
  - rewrite app_nil_r. split; [exact Hkd|]. split.
    + intros t Hin. destruct (Hkept t Hin) as [Hin' _].
      specialize (Hlt t Hin'). lia.
    + intros t id' cfg Hin Hj. destruct (Hkept t Hin) as [Hin' Hnot].
      rewrite Hother; [now apply (Hreg t id' cfg)|].
      intros <-. now apply (Hnot cfg).
  - split.
    + rewrite map_app. cbn [map timer_id]. apply NoDup_app.
      * exact Hkd.
      * constructor; [intros []|constructor].
      * intros n Hin [<- | []]. apply in_map_iff in Hin.
        destruct Hin as [t [E Hin]]. destruct (Hkept t Hin) as [Hin' _].
        specialize (Hlt t Hin'). lia.
    + split.
      * intros t Hin. apply in_app_iff in Hin. destruct Hin as [Hin | [<- | []]].
        -- destruct (Hkept t Hin) as [Hin' _]. specialize (Hlt t Hin'). lia.
        -- cbn. lia.
      * intros t id' cfg' Hin Hj. apply in_app_iff in Hin.
        destruct Hin as [Hin | [<- | []]].
        -- destruct (Hkept t Hin) as [Hin' Hnot].
           rewrite Hother; [now apply (Hreg t id' cfg')|].
           intros <-. now apply (Hnot cfg').
        -- cbn in Hj. inversion Hj; subst. exact Hget.
Qed.

Lemma startConnectionHealthCheck_registered connectionId config
    (s : Sys Handle X) :
  timers_registered s ->
  timers_registered (snd (startConnectionHealthCheck connectionId
                            config s)).
Proof.
  intros Hs.
  apply (registered_after_clearing connectionId s
           (JsMap.set connectionId (next_timer s) (healthChecks (pool s)))
           [{| timer_id := next_timer s;
               job := ConnectionHealthCheck connectionId config;
               interval := healthCheckInterval (pool s) |}]
           (S (next_timer s)) Hs).
  - intros id' Hne. now apply PoolFacts.get_set_other.
  - lia.
  - right. eexists. eexists. split; [reflexivity|]. split; [reflexivity|].
    apply PoolFacts.get_set_same.
  - unfold startConnectionHealthCheck, setInterval, clearInterval.
    unfold Eff.bind, Eff.modify, Eff.get, Eff.ret, Js.push.
    destruct (JsMap.get connectionId (healthChecks (pool s))); reflexivity.
  - unfold startConnectionHealthCheck, setInterval, clearInterval.
    unfold Eff.bind, Eff.modify, Eff.get, Eff.ret, Js.push.
    destruct (JsMap.get connectionId (healthChecks (pool s))); reflexivity.
  - unfold startConnectionHealthCheck, setInterval, clearInterval.
    unfold Eff.bind, Eff.modify, Eff.get, Eff.ret, Js.push.
    destruct (JsMap.get connectionId (healthChecks (pool s))); reflexivity.
Qed.

Lemma attempt_once_registered connectionId config maxAttempts a
    (s : Sys Handle X) :
  timers_registered s ->
  timers_registered
    (snd (attempt_once drivers connectionId config maxAttempts a s)).
Proof.
  intros Hs.
  destruct (PoolFacts.createConnection_moves drivers config s)
    as [r [x [E _]]].
  unfold attempt_once, Eff.try_catch. unfold Eff.bind at 1. rewrite E.
  assert (Hcatch : forall e (s1 : Sys Handle X),
             timers_registered s1 ->
             timers_registered
               (snd ((s0 <- Eff.get ;;
                      let currentRetries :=
                        Js.num_or (JsMap.get connectionId
                                     (retryAttempts (pool s0))) 0 in
                      Eff.modify (with_pool (set_retryAttempts
                                    (JsMap.set connectionId
                                       (currentRetries + 1)))) ;;;
                      emit (WarnAttemptFailed connectionId a e) ;;;
                      (if a <? maxAttempts then
                         let delay := retryDelay (pool s0) * 2 ^ (a - 1) in
                         emit (LogRetrying connectionId delay) ;;;
                         sleep delay
                       else Eff.ret tt) ;;;
                      Eff.ret (inr e : Connection Handle + Exc.Thrown))%eff
                       s1))).
  { intros e s1 H1.
    unfold sleep, emit, Eff.bind, Eff.modify, Eff.get, Eff.ret, Js.push.
    destruct (a <? maxAttempts); cbn [snd];
      (eapply registered_ext; [| | |exact H1]); reflexivity. }
  destruct r as [c|e]; [|apply Hcatch; eapply registered_ext;
                          [| | |exact Hs]; reflexivity].
  unfold Eff.bind at 1. unfold Eff.modify at 1.
  unfold Eff.bind at 1. unfold Eff.modify at 1.
  unfold Eff.bind at 1. unfold Eff.modify at 1.
  unfold Eff.bind at 1.
  match goal with
  | |- context [startConnectionHealthCheck connectionId config ?s3] =>
      assert (H3 : timers_registered s3)
        by (eapply registered_ext; [| | |exact Hs]; reflexivity);
      pose proof (startConnectionHealthCheck_registered connectionId config
                    s3 H3) as H4;
      destruct (startConnectionHealthCheck connectionId config s3)
        as [[[]|e] s4]
  end; cbn [snd] in H4.
  - unfold emit, Eff.bind, Eff.modify, Eff.ret, Js.push. cbn [snd].
    eapply registered_ext; [| | |exact H4]; reflexivity.
  - apply Hcatch, H4.
Qed.

Lemma removeConnection_registered connectionId (s : Sys Handle X) :
  timers_registered s ->
  timers_registered (snd (removeConnection drivers connectionId s)).
Proof.
  intros Hs. unfold removeConnection.
  unfold Eff.bind at 1. unfold Eff.get at 1. unfold Eff.bind at 1.
  match goal with
  | |- context [match ?first s with _ => _ end] =>
      assert (Hfirst : exists r x evs, first s = (r, moved s x evs))
  end.
  { assert (Hid : s = moved s (world s) []).
    { unfold moved. rewrite app_nil_r. now destruct s. }
    unfold emit, Eff.bind, Eff.modify, Eff.ret, Eff.lift, Js.push,
      with_world.
    destruct (JsMap.get connectionId (connections (pool s))) as [c|];
      [|exists (Exc.Ret tt), (world s), []; now rewrite <- Hid].
    destruct (JsMap.get connectionId (connectionConfigs (pool s)))
      as [cfg|];
      [|destruct c; exists (Exc.Ret tt), (world s), []; now rewrite <- Hid].
    destruct c as [db|db|u h t];
      destruct (String.eqb (type cfg) "mongodb");
      destruct (String.eqb (type cfg) "sqlite");
      cbn [pool timers next_timer trace locals microtasks world];
      try (eexists; exists (world s), []; rewrite <- Hid; reflexivity);
      eexists; eexists; eexists; reflexivity. }
  destruct Hfirst as [r [x [evs ->]]].
  destruct r as [[]|e];
    [|cbn [snd]; eapply registered_ext; [| | |exact Hs]; reflexivity].
  unfold Eff.bind at 1. unfold Eff.modify at 1.
  unfold Eff.bind at 1. unfold Eff.modify at 1.
  unfold Eff.bind at 1. unfold Eff.modify at 1.
  unfold Eff.bind at 1. unfold Eff.get at 1.
  cbn [pool moved with_pool set_connections set_connectionConfigs
       set_retryAttempts healthChecks].
  apply (registered_after_clearing connectionId s
           (JsMap.delete connectionId (healthChecks (pool s))) []
           (next_timer s) Hs).
  - intros id' Hne. now apply PoolFacts.get_delete_other.
  - lia.
  - now left.
  - rewrite app_nil_r.
    unfold clearInterval, Eff.bind, Eff.modify, Eff.ret.
    destruct (JsMap.get connectionId (healthChecks (pool s))); reflexivity.
  - unfold clearInterval, Eff.bind, Eff.modify, Eff.ret.
    destruct (JsMap.get connectionId (healthChecks (pool s))); reflexivity.
  - unfold clearInterval, Eff.bind, Eff.modify, Eff.ret.
    destruct (JsMap.get connectionId (healthChecks (pool s))) eqn:G;
      cbn [snd pool with_pool set_healthChecks healthChecks];
      [reflexivity|].
    symmetry. now apply PoolFacts.delete_absent.
Qed.

Lemma one_timer_per_handle (p : Timer -> bool) (handle : nat)
    (l : list Timer) :
  NoDup (map timer_id l) ->
  (forall t, In t l -> p t = true -> timer_id t = handle) ->
  (List.length (List.filter p l) <= 1)%nat.
Proof.
  induction l as [|t l IH]; cbn [List.filter map]; intros Hnd Hall;
    [cbn; lia|].
  inversion Hnd as [|? ? Hn Hd]; subst.
  assert (IHl := IH Hd (fun t' Hin => Hall t' (or_intror Hin))).
  destruct (p t) eqn:Pt; [|exact IHl].
  cbn [List.length].
  destruct (List.filter p l) as [|t' rest] eqn:F; [cbn; lia|exfalso].
  assert (Hin : In t' (List.filter p l)) by (rewrite F; now left).
  apply filter_In in Hin. destruct Hin as [Hin Pt'].
  apply Hn. apply in_map_iff. exists t'. split; [|exact Hin].
  rewrite (Hall t (or_introl eq_refl) Pt).
  apply (Hall t' (or_intror Hin) Pt').
Qed.

Lemma registered_one_health_timer (s : Sys Handle X) connectionId :
  timers_registered s ->
  (List.length (health_timers s connectionId) <= 1)%nat.
Proof.
  intros [Hnd [_ Hreg]]. unfold health_timers.
  destruct (JsMap.get connectionId (healthChecks (pool s))) as [h|] eqn:G.
  - apply (one_timer_per_handle _ h); [exact Hnd|].
    intros t Hin Hp. destruct (job t) as [id cfg|] eqn:J; [|discriminate].
    apply String.eqb_eq in Hp. subst id.
    specialize (Hreg t connectionId cfg Hin J). congruence.
  - apply (one_timer_per_handle _ 0%nat); [exact Hnd|].
    intros t Hin Hp. destruct (job t) as [id cfg|] eqn:J; [|discriminate].
    apply String.eqb_eq in Hp. subst id.
    specialize (Hreg t connectionId cfg Hin J). congruence.
Qed.

(** X30. The health timers stay in step with [healthChecks]. If the
    handles of the running timers are distinct and below the next one, and
    every running per-connection timer is the one [healthChecks] holds for
    its connection, then the same is true after [getConnection] and after
    [removeConnection], whether they return or throw; so at no time does a
    connection have more than one health timer running, and a timer whose
    handle was replaced or forgotten has been cancelled. *)
Theorem health_timers_stay_registered (connectionId : string)
    (config : IConnectionConfig) (s : Sys Handle X) :
  timers_registered s ->
  timers_registered (snd (getConnection drivers connectionId config s))
  /\ timers_registered (snd (removeConnection drivers connectionId s))
  /\ forall id,
       (List.length
          (health_timers (snd (getConnection drivers connectionId config s))
             id) <= 1)%nat
       /\ (List.length
             (health_timers (snd (removeConnection drivers connectionId s))
                id) <= 1)%nat.
Proof.
  intros Hs.
  assert (Hg : timers_registered
                 (snd (getConnection drivers connectionId config s))).
  { apply getConnection_keeps; [| |exact Hs].
    - intros b x pre s1 _ H1.
      eapply registered_ext; [| | |exact H1]; reflexivity.
    - intros maxAttempts a s1 H1. now apply attempt_once_registered. }
  pose proof (removeConnection_registered connectionId s Hs) as Hr.
  split; [exact Hg|]. split; [exact Hr|].
  intros id. split; now apply registered_one_health_timer.
Qed.

Lemma new_pool_registered (x : X) :
  timers_registered (new_pool (Handle := Handle) x).
Proof.
  unfold timers_registered, timer_ids. cbn. split; [|split].
  - constructor; [intros []|constructor].
  - intros t [<- | []]. cbn. lia.
  - intros t id cfg [<- | []]. discriminate.
Qed.

End Health.

Lemma getConnection_reuses_a_healthy_connection_witness :
  JsMap.get "main" (connections (pool Demo.pool_with_main))
  = Some (SQLiteDb 7%nat)
  /\ exists x,
       getConnection Demo.flaky_drivers "main" Demo.sqlite_config
         Demo.pool_with_main
       = (Exc.Ret (SQLiteDb 7%nat),
          with_world (fun _ => x) Demo.pool_with_main).
Proof.
  split; [vm_compute; reflexivity|].
  exact (getConnection_reuses_a_healthy_connection Demo.flaky_drivers
           "main" Demo.sqlite_config (SQLiteDb 7%nat) Demo.pool_with_main
           ltac:(vm_compute; reflexivity) ltac:(vm_compute; reflexivity)).
Defined.

Lemma connector_refuses_before_it_connects_witness :
  refused DemoMore.redis_config = true
  /\ exists e,
       createConnection Demo.flaky_drivers DemoMore.redis_config
         (Demo.fresh_pool 3)
       = (Exc.Throw e,
          moved (Demo.fresh_pool 3) (world (Demo.fresh_pool 3))
            [Connect DemoMore.redis_config]).
Proof.
  split; [reflexivity|].
  exact (connector_refuses_before_it_connects Demo.flaky_drivers
           DemoMore.redis_config (Demo.fresh_pool 3) eq_refl).
Defined.

Lemma exhausted_getConnection_has_waited_witness :
  exists e s' evs,
    getConnection Demo.flaky_drivers "main" Demo.sqlite_config
      (Demo.fresh_pool 4)
    = (Exc.Throw e, s')
    /\ trace s' = (trace (Demo.fresh_pool 4) ++ evs)%list
    /\ failures evs = 4%nat
    /\ total_wait (timing evs) = 7000.
Proof.
  destruct (exhausted_getConnection_has_waited Demo.flaky_drivers "main"
              Demo.sqlite_config (Demo.fresh_pool 4) ltac:(cbn; lia) I)
    as [r [s' [evs [R [Htr H]]]]].
  assert (Hr : exists e, r = Exc.Throw e).
  { vm_compute in R. injection R as <- _. eexists. reflexivity. }
  destruct Hr as [e ->].
  destruct H as [[[c Hc] _] | [_ [_ [Hf Hw]]]]; [discriminate|].
  exists e, s', evs. split; [exact R|]. split; [exact Htr|].
  split; [exact Hf|exact Hw].
Defined.

Lemma exhausted_getConnection_adds_to_the_retry_count_witness :
  exists e s',
    getConnection Demo.flaky_drivers "main" Demo.sqlite_config
      (Demo.fresh_pool 4)
    = (Exc.Throw e, s')
    /\ JsMap.get "main" (retryAttempts (pool s')) = Some 4
    /\ connections (pool s') = []
    /\ timers s' = timers (Demo.fresh_pool 4).
Proof.
  destruct (exhausted_getConnection_adds_to_the_retry_count
              Demo.flaky_drivers "main" Demo.sqlite_config
              (Demo.fresh_pool 4) ltac:(cbn; lia) I)
    as [r [s' [evs [R [Htr H]]]]].
  assert (Hr : exists e, r = Exc.Throw e).
  { vm_compute in R. injection R as <- _. eexists. reflexivity. }
  destruct Hr as [e ->].
  destruct H as [[[c Hc] _] | [_ [_ [Hn [Hc [_ [_ Ht]]]]]]]; [discriminate|].
  exists e, s'. split; [exact R|]. split; [exact Hn|].
  split; [exact Hc|exact Ht].
Defined.

(** The fifth attempt would have succeeded: a connector that fails in
    this call only leaves the same count. *)
Example transient_failures_are_counted :
  exists c s',
    getConnection Demo.flaky_drivers "main" Demo.sqlite_config
      (snd (getConnection Demo.flaky_drivers "main" Demo.sqlite_config
              (Demo.fresh_pool 4)))
    = (Exc.Ret c, s')
    /\ JsMap.get "main" (retryAttempts (pool s')) = Some 0.
Proof.
  eexists. eexists. vm_compute. split; reflexivity.
Qed.

Lemma odata_connection_is_made_without_a_request_witness :
  exists s',
    getConnection DemoMore.dead_drivers "svc" DemoMore.http_config
      (new_pool 0%nat)
    = (Exc.Ret (HTTPOData "https://example.org/odata" [] 5000), s')
    /\ world s' = 0%nat
    /\ trace s'
       = [Connect DemoMore.http_config; LogEstablished "svc" 1]
    /\ JsMap.get "svc" (healthChecks (pool s')) = Some 1%nat.
Proof.
  exact (odata_connection_is_made_without_a_request DemoMore.dead_drivers
           "svc" DemoMore.http_config "https://example.org/odata"
           (new_pool 0%nat) eq_refl eq_refl ltac:(discriminate) eq_refl
           ltac:(cbn; lia)).
Defined.

Lemma failed_probe_evicts_the_connection_witness :
  consistent DemoMore.dead_pool = true
  /\ JsMap.get "main" (connections (pool DemoMore.dead_pool))
     = Some (SQLiteDb 7%nat)
  /\ exists s',
       connection_health_tick DemoMore.dead_drivers "main"
         Demo.sqlite_config DemoMore.dead_pool
       = (Exc.Ret tt, s')
       /\ JsMap.get "main" (connections (pool s')) = None
       /\ JsMap.get "main" (connectionConfigs (pool s')) = None
       /\ JsMap.get "main" (healthChecks (pool s')) = None
       /\ (forall handle,
             JsMap.get "main" (healthChecks (pool DemoMore.dead_pool))
             = Some handle ->
             ~ In handle (timer_ids s'))
       /\ consistent s' = true.
Proof.
  split; [vm_compute; reflexivity|]. split; [vm_compute; reflexivity|].
  exact (failed_probe_evicts_the_connection DemoMore.dead_drivers "main"
           Demo.sqlite_config (SQLiteDb 7%nat) DemoMore.dead_pool
           ltac:(vm_compute; reflexivity) ltac:(vm_compute; reflexivity)
           ltac:(vm_compute; reflexivity)).
Defined.

Lemma health_timers_stay_registered_witness :
  timers_registered
    (snd (getConnection Demo.flaky_drivers "main" Demo.sqlite_config
            (Demo.fresh_pool 1)))
  /\ timers_registered
       (snd (removeConnection Demo.flaky_drivers "main" (Demo.fresh_pool 1)))
  /\ forall id,
       (List.length
          (health_timers
             (snd (getConnection Demo.flaky_drivers "main" Demo.sqlite_config
                     (Demo.fresh_pool 1))) id) <= 1)%nat
       /\ (List.length
             (health_timers
                (snd (removeConnection Demo.flaky_drivers "main"
                        (Demo.fresh_pool 1))) id) <= 1)%nat.
Proof.
  exact (health_timers_stay_registered Demo.flaky_drivers "main"
           Demo.sqlite_config (Demo.fresh_pool 1)
           (new_pool_registered 1%nat)).
Defined.

End PoolHealthFacts.
